(** * The derived-view aggregation pipeline of [chicago_visualization_full_code.py]

    A shallow embedding of the script's data path: the loaded [DataFrame], the
    pandas operations the script calls on it, and the ten views it hands to
    the plotting calls.  Plotting and report assembly are left out; the data
    each plotting call receives is kept.

    Conventions.
    - A cell is a [Value]; [NA] stands for NaN, None and NaT alike.
    - A float64 cell is carried as the rational it denotes ([VFloat]), in
      lowest terms; rounding of a quotient to the nearest double is left out.
    - A raised Python exception is [Raise e]; the script stops at the first. *)

From Stdlib Require Import String Ascii.
From Stdlib Require Import List Bool Arith ZArith QArith Qround.
From Stdlib Require Import Lia Permutation Sorted.
Import ListNotations.

Close Scope Q_scope.
Open Scope string_scope.
Open Scope list_scope.
Open Scope nat_scope.

Set Implicit Arguments.

(* ================================================================= *)
(** ** Cells, exceptions, frames *)

Inductive Value : Type :=
| NA                      (* missing: NaN / None / NaT *)
| VStr (s : string)       (* object cell holding a str *)
| VBool (b : bool)
| VInt (z : Z)            (* integer cell *)
| VFloat (q : Q)          (* float64 cell *)
| VTime (ns : Z)          (* datetime64[ns]: nanoseconds since 1970-01-01 *)
| VDate (days : Z).       (* datetime.date: days since 1970-01-01 *)

Definition isnull (v : Value) : bool :=
  match v with NA => true | _ => false end.

Definition notnull (v : Value) : bool := negb (isnull v).

Definition Q_eqb (p q : Q) : bool :=
  Z.eqb (Qnum p) (Qnum q) && Pos.eqb (Qden p) (Qden q).

Definition Value_eqb (a b : Value) : bool :=
  match a, b with
  | NA, NA => true
  | VStr s, VStr t => String.eqb s t
  | VBool x, VBool y => Bool.eqb x y
  | VInt x, VInt y => Z.eqb x y
  | VFloat p, VFloat q => Q_eqb p q
  | VTime x, VTime y => Z.eqb x y
  | VDate x, VDate y => Z.eqb x y
  | _, _ => false
  end.

(** The order pandas sorts group keys by.  Keys of one kind compare as in
    Python; the rank only makes the order total on columns of mixed kinds
    (where pandas would refuse to sort). *)
Definition rank (v : Value) : nat :=
  match v with
  | NA => 0 | VBool _ => 1 | VInt _ => 2 | VFloat _ => 3
  | VStr _ => 4 | VTime _ => 5 | VDate _ => 6
  end.

Definition Value_leb (a b : Value) : bool :=
  match a, b with
  | VStr s, VStr t => String.leb s t
  | VBool x, VBool y => implb x y
  | VInt x, VInt y => Z.leb x y
  | VFloat p, VFloat q => Qle_bool p q
  | VTime x, VTime y => Z.leb x y
  | VDate x, VDate y => Z.leb x y
  | _, _ => Nat.leb (rank a) (rank b)
  end.

Inductive Exception : Type :=
| KeyError (label : Value)
| AttributeError
| TypeError
| ValueError.

Inductive result (A : Type) : Type :=
| Ok (a : A)
| Raise (e : Exception).

Arguments Ok {A} a.
Arguments Raise {A} e.

Definition bind {A B : Type} (m : result A) (k : A -> result B) : result B :=
  match m with
  | Ok a => k a
  | Raise e => Raise e
  end.

Notation "x <- m ;; k" := (bind m (fun x => k))
  (at level 61, m at next level, right associativity).
Notation "m ;;; k" := (bind m (fun _ => k))
  (at level 61, right associativity).

Fixpoint mapM {A B : Type} (f : A -> result B) (l : list A) : result (list B) :=
  match l with
  | [] => Ok []
  | a :: l' => b <- f a ;; bs <- mapM f l' ;; Ok (b :: bs)
  end.

(** A row maps a column label to its cell; only the labels listed in
    [columns] are part of the frame. *)
Abbreviation Row := (string -> Value).

Record DataFrame : Type := {
  columns : list string;
  rows : list Row
}.

Definition mkrow (cells : list (string * Value)) : Row :=
  fun c =>
    match find (fun kv => String.eqb (fst kv) c) cells with
    | Some kv => snd kv
    | None => NA
    end.

Definition has_column (df : DataFrame) (c : string) : bool :=
  existsb (String.eqb c) (columns df).

(** [len(df)] *)
Definition len (df : DataFrame) : nat := length (rows df).

(** [df[c]] *)
Definition getitem (df : DataFrame) (c : string) : result (list Value) :=
  if has_column df c then Ok (map (fun r => r c) (rows df))
  else Raise (KeyError (VStr c)).

Definition set_cell (c : string) (rv : Row * Value) : Row :=
  fun c' => if String.eqb c' c then snd rv else fst rv c'.

(** [df[c] = s]: replaces the column, or appends it after the others. *)
Definition setitem (df : DataFrame) (c : string) (s : list Value) : DataFrame :=
  {| columns := if has_column df c then columns df else columns df ++ [c];
     rows := map (set_cell c) (combine (rows df) s) |}.

(** [df.dropna(subset=cs)] *)
Definition dropna_subset (df : DataFrame) (cs : list string) : result DataFrame :=
  match find (fun c => negb (has_column df c)) cs with
  | Some c => Raise (KeyError (VStr c))
  | None =>
      Ok {| columns := columns df;
            rows := filter (fun r => forallb (fun c => notnull (r c)) cs) (rows df) |}
  end.

(** [s.dropna()] *)
Definition dropna (s : list Value) : list Value := filter notnull s.

(** [s.isin(values)] on one cell *)
Definition isin (values : list Value) (v : Value) : bool :=
  existsb (Value_eqb v) values.

(** [.head(n)] *)
Definition head {A : Type} (n : nat) (l : list A) : list A := firstn n l.

(* ================================================================= *)
(** ** Counting and sorting *)

Section Tally.
Variable K : Type.
Variable eqb : K -> K -> bool.

(** One step of the hash-table count: keys stay in first-seen order. *)
Fixpoint bump (k : K) (acc : list (K * nat)) : list (K * nat) :=
  match acc with
  | [] => [(k, 1)]
  | (k', c) :: acc' =>
      if eqb k k' then (k', S c) :: acc' else (k', c) :: bump k acc'
  end.

Definition tally (ks : list K) : list (K * nat) :=
  fold_left (fun acc k => bump k acc) ks [].

Fixpoint assoc {V : Type} (k : K) (l : list (K * V)) : option V :=
  match l with
  | [] => None
  | (k', v) :: l' => if eqb k k' then Some v else assoc k l'
  end.

(** [s.get(k, 0)] *)
Definition count_of (l : list (K * nat)) (k : K) : nat :=
  match assoc k l with
  | Some c => c
  | None => 0
  end.

Definition occurrences (k : K) (ks : list K) : nat :=
  length (filter (eqb k) ks).
End Tally.

Section Sort.
Variable A : Type.
Variable leb : A -> A -> bool.

Fixpoint insert_by (x : A) (l : list A) : list A :=
  match l with
  | [] => [x]
  | y :: l' => if leb x y then x :: l else y :: insert_by x l'
  end.

(** Stable insertion sort: among elements [leb] cannot tell apart, input
    order is kept. *)
Definition sort_by (l : list A) : list A := fold_right insert_by [] l.
End Sort.

(** [s.value_counts()]: nulls dropped, one entry per distinct value, largest
    count first.  pandas leaves the order of equal counts to the sorting
    kernel; here equal counts stay in first-seen order. *)
Definition count_desc (a b : Value * nat) : bool := Nat.leb (snd b) (snd a).

Definition value_counts (s : list Value) : list (Value * nat) :=
  sort_by count_desc (tally Value_eqb (dropna s)).

(** [groupby(key).size()]: rows with a null key dropped, groups in ascending
    key order. *)
Definition groupby_size {K : Type} (eqb leb : K -> K -> bool)
    (keys : list (option K)) : list (K * nat) :=
  let present := flat_map (fun o => match o with Some k => [k] | None => [] end) keys in
  sort_by (fun a b => leb (fst a) (fst b)) (tally eqb present).

(** [s.cumsum()] on the values of a series *)
Fixpoint cumsum_from {K : Type} (acc : nat) (l : list (K * nat)) : list (K * nat) :=
  match l with
  | [] => []
  | (k, c) :: l' => (k, acc + c) :: cumsum_from (acc + c) l'
  end.

Definition cumsum {K : Type} (l : list (K * nat)) : list (K * nat) := cumsum_from 0 l.

Definition total {K : Type} (l : list (K * nat)) : nat :=
  fold_right (fun kc acc => snd kc + acc) 0 l.

(* ================================================================= *)
(** ** Calendar fields of a timestamp ([Series.dt]) *)

Definition NS_PER_HOUR : Z := 3600000000000.
Definition NS_PER_DAY : Z := 86400000000000.

Definition days_of (ns : Z) : Z := (ns / NS_PER_DAY)%Z.

(** Proleptic Gregorian date of a day number: (year, month, day). *)
Definition civil_from_days (d : Z) : Z * Z * Z :=
  (let z := d + 719468 in
   let era := z / 146097 in
   let doe := z - era * 146097 in
   let yoe := (doe - doe / 1460 + doe / 36524 - doe / 146096) / 365 in
   let doy := doe - (365 * yoe + yoe / 4 - yoe / 100) in
   let mp := (5 * doy + 2) / 153 in
   let m := if mp <? 10 then mp + 3 else mp - 9 in
   (if m <=? 2 then yoe + era * 400 + 1 else yoe + era * 400,
    m,
    doy - (153 * mp + 2) / 5 + 1))%Z.

Definition days_from_civil (y m d : Z) : Z :=
  (let y := if m <=? 2 then y - 1 else y in
   let era := y / 400 in
   let yoe := y - era * 400 in
   let doy := (153 * (if 2 <? m then m - 3 else m + 9) + 2) / 5 + d - 1 in
   let doe := yoe * 365 + yoe / 4 - yoe / 100 + doy in
   era * 146097 + doe - 719468)%Z.

Definition dt_year (ns : Z) : Z := fst (fst (civil_from_days (days_of ns))).
Definition dt_month (ns : Z) : Z := snd (fst (civil_from_days (days_of ns))).
Definition dt_day (ns : Z) : Z := snd (civil_from_days (days_of ns)).
Definition dt_hour (ns : Z) : Z := ((ns mod NS_PER_DAY) / NS_PER_HOUR)%Z.

Definition day_names : list string :=
  ["Monday"; "Tuesday"; "Wednesday"; "Thursday"; "Friday"; "Saturday"; "Sunday"].

(** 1970-01-01 was a Thursday. *)
Definition dt_dayofweek (ns : Z) : Z := ((days_of ns + 3) mod 7)%Z.

Definition dt_day_name (ns : Z) : string :=
  nth (Z.to_nat (dt_dayofweek ns)) day_names "".

(** [.dt.date] *)
Definition dt_date (ns : Z) : Z := days_of ns.

(** [.dt.to_period('M').dt.to_timestamp()]: the first instant of the month. *)
Definition period_start (ns : Z) : Z :=
  (days_from_civil (dt_year ns) (dt_month ns) 1 * NS_PER_DAY)%Z.

(** The [.dt] accessor exists on datetime-like series only: a column the
    loader could not parse as dates stays a column of strings.  pandas
    decides by the dtype of the column; a frame here carries no dtype, and
    the type of a column is read off its cells.  A column without cells
    counts as datetime-typed: that is what [dropna] at line 59 leaves of a
    datetime column all of whose cells are missing.  The text columns
    [read_csv] gives a file of a header and no row, on which [.dt] raises
    [AttributeError], are not told apart from it: on a frame without rows
    the model follows the datetime case only. *)
Definition dt_cell (v : Value) : result (option Z) :=
  match v with
  | VTime ns => Ok (Some ns)
  | NA => Ok None
  | _ => Raise AttributeError
  end.

Definition dt (s : list Value) : result (list (option Z)) := mapM dt_cell s.

Definition dt_field (f : Z -> Value) (t : option Z) : Value :=
  match t with
  | Some ns => f ns
  | None => NA
  end.

(* ================================================================= *)
(** ** Lines 21-31: temporal fields, coordinate columns *)

(** [df[c] = df['IncidentDate'].dt.<field>] *)
Definition assign_dt (df : DataFrame) (c : string) (f : Z -> Value) : result DataFrame :=
  s <- getitem df "IncidentDate" ;;
  t <- dt s ;;
  Ok (setitem df c (map (dt_field f) t)).

Definition ensure_temporal_fields (df : DataFrame) : result DataFrame :=
  if negb (has_column df "Year") && has_column df "IncidentDate" then
    df <- assign_dt df "Year" (fun ns => VInt (dt_year ns)) ;;
    df <- assign_dt df "Month" (fun ns => VInt (dt_month ns)) ;;
    df <- assign_dt df "Day" (fun ns => VInt (dt_day ns)) ;;
    df <- assign_dt df "Hour" (fun ns => VInt (dt_hour ns)) ;;
    assign_dt df "Weekday" (fun ns => VStr (dt_day_name ns))
  else Ok df.

(** [str.lower] on the ASCII letters, which is all a column label is read
    for here. *)
Definition lower_ascii (a : ascii) : ascii :=
  let n := nat_of_ascii a in
  if (65 <=? n) && (n <=? 90) then ascii_of_nat (n + 32) else a.

Fixpoint lower (s : string) : string :=
  match s with
  | EmptyString => EmptyString
  | String a s' => String (lower_ascii a) (lower s')
  end.

Definition startswith (s p : string) : bool := String.prefix p s.

Definition lat_col (df : DataFrame) : option string :=
  find (fun c => startswith (lower c) "lat") (columns df).

Definition lon_col (df : DataFrame) : option string :=
  find (fun c => startswith (lower c) "lon") (columns df).

(* ================================================================= *)
(** ** Visualizations 1, 2, 6: rankings and the arrest rate *)

Definition top_primary (df : DataFrame) : result (list (Value * nat)) :=
  s <- getitem df "Primary Type" ;;
  Ok (head 10 (value_counts s)).

Definition loc_top10 (df : DataFrame) : result (list (Value * nat)) :=
  s <- getitem df "Location Description" ;;
  Ok (head 10 (value_counts s)).

(** The number a cell contributes to a mean; nulls are skipped. *)
Definition as_number (v : Value) : result (option Q) :=
  match v with
  | NA => Ok None
  | VBool b => Ok (Some (if b then 1%Q else 0%Q))
  | VInt z => Ok (Some (inject_Z z))
  | VFloat q => Ok (Some q)
  | _ => Raise TypeError
  end.

Definition somes {A : Type} (l : list (option A)) : list A :=
  flat_map (fun o => match o with Some a => [a] | None => [] end) l.

Definition Qsum (l : list Q) : Q := fold_right Qplus 0%Q l.

(** [Series.mean()]: NaN for a series without a number in it. *)
Definition mean (s : list Value) : result Value :=
  nums <- mapM as_number s ;;
  match somes nums with
  | [] => Ok NA
  | xs => Ok (VFloat (Qred (Qsum xs / inject_Z (Z.of_nat (length xs)))))
  end.

(** [frame.groupby(by)[col].mean()] on the rows [rs] of a frame. *)
Definition groupby_mean (rs : list Row) (by_ col : string) : result (list (Value * Value)) :=
  let keys := sort_by Value_leb (map fst (tally Value_eqb (dropna (map (fun r => r by_) rs)))) in
  mapM (fun k =>
          m <- mean (map (fun r => r col) (filter (fun r => Value_eqb (r by_) k) rs)) ;;
          Ok (k, m))
       keys.

(** [s.loc[labels]]: every label must be in the index. *)
Definition loc (s : list (Value * Value)) (labels : list Value) : result (list (Value * Value)) :=
  mapM (fun k =>
          match assoc Value_eqb k s with
          | Some v => Ok (k, v)
          | None => Raise (KeyError k)
          end)
       labels.

Definition arrest_rate (df : DataFrame) (top_primary : list (Value * nat))
    : result (list (Value * Value)) :=
  let top10 := map fst top_primary in
  _ <- getitem df "Primary Type" ;;
  let selected := filter (fun r => isin top10 (r "Primary Type")) (rows df) in
  _ <- getitem df "Arrest" ;;
  means <- groupby_mean selected "Primary Type" "Arrest" ;;
  loc means top10.

(* ================================================================= *)
(** ** Visualizations 3, 9: monthly series and its running sum *)

Definition df_ts (df : DataFrame) : result DataFrame :=
  d <- dropna_subset df ["IncidentDate"] ;;
  s <- getitem d "IncidentDate" ;;
  t <- dt s ;;
  Ok (setitem d "YearMonth" (map (dt_field (fun ns => VTime (period_start ns))) t)).

Definition key_of (v : Value) : option Value :=
  if isnull v then None else Some v.

Definition monthly (ts : DataFrame) : result (list (Value * nat)) :=
  s <- getitem ts "YearMonth" ;;
  let size := groupby_size Value_eqb Value_leb (map key_of s) in
  Ok (sort_by (fun a b => Value_leb (fst a) (fst b)) size).

Definition cum (monthly : list (Value * nat)) : list (Value * nat) := cumsum monthly.

(* ================================================================= *)
(** ** Visualization 5: weekday counts *)

Definition weekday_order : list string :=
  ["Monday"; "Tuesday"; "Wednesday"; "Thursday"; "Friday"; "Saturday"; "Sunday"].

(** [s.reindex(labels)]: a label missing from the index gets NaN. *)
Definition reindex (s : list (Value * nat)) (labels : list Value) : list (Value * option nat) :=
  map (fun k => (k, assoc Value_eqb k s)) labels.

(** [s.fillna(0)] *)
Definition fillna0 (s : list (Value * option nat)) : list (Value * nat) :=
  map (fun kc => (fst kc, match snd kc with Some c => c | None => 0 end)) s.

Definition weekday_counts (df : DataFrame) : result (list (Value * nat)) :=
  s <- getitem df "Weekday" ;;
  Ok (fillna0 (reindex (value_counts s) (map VStr weekday_order))).

(* ================================================================= *)
(** ** Visualization 10: daily counts by month *)

Definition Key3 : Type := Value * Value * Value.

Definition Key3_eqb (a b : Key3) : bool :=
  Value_eqb (fst (fst a)) (fst (fst b))
  && Value_eqb (snd (fst a)) (snd (fst b))
  && Value_eqb (snd a) (snd b).

Definition Value_ltb (a b : Value) : bool := Value_leb a b && negb (Value_eqb a b).

(** Lexicographic order of the group keys. *)
Definition Key3_leb (a b : Key3) : bool :=
  let '(a1, a2, a3) := a in
  let '(b1, b2, b3) := b in
  Value_ltb a1 b1
  || (Value_eqb a1 b1 && (Value_ltb a2 b2 || (Value_eqb a2 b2 && Value_leb a3 b3))).

Definition key3_of (r : Row) : option Key3 :=
  if notnull (r "Year") && notnull (r "Month") && notnull (r "DateOnly")
  then Some (r "Year", r "Month", r "DateOnly")
  else None.

(** Lines 123-124, on the frame [df_ts] of line 59. *)
Definition daily_counts (ts : DataFrame) : result (list (Key3 * nat)) :=
  s <- getitem ts "IncidentDate" ;;
  t <- dt s ;;
  let ts := setitem ts "DateOnly" (map (dt_field (fun ns => VDate (dt_date ns))) t) in
  _ <- getitem ts "Year" ;;
  _ <- getitem ts "Month" ;;
  _ <- getitem ts "DateOnly" ;;
  Ok (groupby_size Key3_eqb Key3_leb (map key3_of (rows ts))).

(** [column == m] on one cell, for an integer [m]. *)
Definition eq_int (v : Value) (m : Z) : bool :=
  match v with
  | VInt z => Z.eqb z m
  | VFloat q => Qeq_bool q (inject_Z m)
  | VBool b => Z.eqb (if b then 1 else 0) m
  | _ => false
  end.

Definition month_of_key (kc : Key3 * nat) : Value := snd (fst (fst kc)).

Definition monthly_groups (daily_counts : list (Key3 * nat)) : list (list nat) :=
  map (fun m => map snd (filter (fun kc => eq_int (month_of_key kc) (Z.of_nat m)) daily_counts))
      (seq 1 12).

(* ================================================================= *)
(** ** Visualization 4: hourly histogram *)

(** [numpy.histogram(x, bins=24, range=(0, 24))] on integers: bin [i] is
    [i, i+1), the last bin is closed on the right; values outside the range
    are not counted. *)
Definition in_bin (i : nat) (x : Z) : bool :=
  if i =? 23 then ((23 <=? x) && (x <=? 24))%Z else (x =? Z.of_nat i)%Z.

Definition histogram24 (xs : list Z) : list nat :=
  map (fun i => length (filter (in_bin i) xs)) (seq 0 24).

Section Script.

(** What the script takes from outside pandas' table operations:
    numpy's generator ([RandomState(seed)] and a draw of [size] positions
    below [population] without replacement), matplotlib's hexagonal
    binning, and Python's [int] on a [str]. *)
Variable RandomState : Type.
Variable seed_state : Z -> RandomState.
Variable choice : RandomState -> nat -> nat -> list nat * RandomState.
Variable Grid : Type.
Variable hexbin : list Value -> list Value -> nat -> result Grid.
Variable int_of_str : string -> result Z.

(** [.astype(int)] on one cell *)
Definition astype_int (v : Value) : result Z :=
  match v with
  | VInt z => Ok z
  | VFloat q => Ok (Z.quot (Qnum q) (Zpos (Qden q)))
  | VBool b => Ok (if b then 1 else 0)%Z
  | VStr s => int_of_str s
  | VTime ns => Ok ns
  | VDate _ => Raise TypeError
  | NA => Raise ValueError
  end.

Definition hourly (df : DataFrame) : result (list nat) :=
  s <- getitem df "Hour" ;;
  xs <- mapM astype_int (dropna s) ;;
  Ok (histogram24 xs).

(** The state a run could read or leave behind: numpy's module-level
    generator. *)
Record World : Type := { np_random : RandomState }.

Definition M (A : Type) : Type := World -> result A * World.

Definition ret {A : Type} (a : A) : M A := fun w => (Ok a, w).

Definition lift {A : Type} (r : result A) : M A := fun w => (r, w).

Definition bindM {A B : Type} (m : M A) (k : A -> M B) : M B :=
  fun w =>
    match m w with
    | (Ok a, w') => k a w'
    | (Raise e, w') => (Raise e, w')
    end.

(** [frame.sample(n=n, random_state=seed)]: an integer [random_state]
    seeds a generator of its own; the module-level one is left alone.
    Asking for more rows than the frame has is a [ValueError]. *)
Definition sample (rs : list Row) (n : Z) (random_state : Z) : M (list Row) :=
  fun w =>
    let g := seed_state random_state in
    if (n <=? Z.of_nat (length rs))%Z
    then (Ok (map (fun i => nth i rs (fun _ => NA))
                  (fst (choice g (length rs) (Z.to_nat n)))), w)
    else (Raise ValueError, w).

(** Line 97. *)
Definition sample_scatter (df : DataFrame) (lat lon : string) : M (list Row) :=
  bindM (lift (dropna_subset df [lat; lon]))
        (fun d => sample (rows d) (Z.min 20000 (Z.of_nat (len df))) 1).

Definition truthy (o : option string) : bool :=
  match o with
  | Some s => negb (String.eqb s "")
  | None => false
  end.

(** Lines 96-111: the scattered points as (lat, lon) pairs, and their
    hexagonal binning. *)
Definition spatial (df : DataFrame) : M (option (list (Value * Value) * Grid)) :=
  match lat_col df, lon_col df with
  | Some lat, Some lon =>
      if truthy (Some lat) && truthy (Some lon) then
        bindM (sample_scatter df lat lon) (fun s =>
        bindM (lift (hexbin (map (fun r => r lon) s) (map (fun r => r lat) s) 80)) (fun g =>
        ret (Some (map (fun r => (r lat, r lon)) s, g))))
      else ret None
  | _, _ => ret None
  end.

Record Views : Type := {
  v_top_primary : list (Value * nat);
  v_arrest_rate : list (Value * Value);
  v_monthly : list (Value * nat);
  v_hourly : list nat;
  v_weekday_counts : list (Value * nat);
  v_loc_top10 : list (Value * nat);
  v_spatial : option (list (Value * Value) * Grid);
  v_cum : list (Value * nat);
  v_monthly_groups : list (list nat)
}.

(** The script from line 21 on, on the frame line 19 loaded. *)
Definition run_pipeline (loaded : DataFrame) : M Views :=
  bindM (lift (ensure_temporal_fields loaded)) (fun df =>
  bindM (lift (top_primary df)) (fun top =>
  bindM (lift (arrest_rate df top)) (fun rate =>
  bindM (lift (df_ts df)) (fun ts =>
  bindM (lift (monthly ts)) (fun mon =>
  bindM (lift (hourly df)) (fun hours =>
  bindM (lift (weekday_counts df)) (fun wd =>
  bindM (lift (loc_top10 df)) (fun locs =>
  bindM (spatial df) (fun sp =>
  bindM (lift (daily_counts ts)) (fun daily =>
  ret {| v_top_primary := top;
         v_arrest_rate := rate;
         v_monthly := mon;
         v_hourly := hours;
         v_weekday_counts := wd;
         v_loc_top10 := locs;
         v_spatial := sp;
         v_cum := cum mon;
         v_monthly_groups := monthly_groups daily |})))))))))).

End Script.

(* ================================================================= *)
(** ** Vocabulary of the statements *)

(** A cell of a datetime64 column: a timestamp or NaT. *)
Definition datetimelike (v : Value) : bool :=
  match v with
  | VTime _ | NA => true
  | _ => false
  end.

Definition as_ns (v : Value) : option Z :=
  match v with
  | VTime ns => Some ns
  | _ => None
  end.

(** The frame has column [c] and all its cells satisfy [p]. *)
Definition column_of (p : Value -> bool) (df : DataFrame) (c : string) : Prop :=
  has_column df c = true /\ Forall (fun r : Row => p (r c) = true) (rows df).

(** The five temporal sub-fields, in the order lines 23-27 add them. *)
Definition temporal_names : list string := ["Year"; "Month"; "Day"; "Hour"; "Weekday"].

(** A row after [df[c] = df['IncidentDate'].dt.<field>]. *)
Definition derive (c : string) (f : Z -> Value) (r : Row) : Row :=
  set_cell c (r, dt_field f (as_ns (r "IncidentDate"))).

Definition assigned (df : DataFrame) (c : string) (f : Z -> Value) : DataFrame :=
  {| columns := if has_column df c then columns df else columns df ++ [c];
     rows := map (derive c f) (rows df) |}.

(** A row after lines 23-27. *)
Definition with_temporal_fields (r : Row) : Row :=
  derive "Weekday" (fun ns => VStr (dt_day_name ns))
    (derive "Hour" (fun ns => VInt (dt_hour ns))
       (derive "Day" (fun ns => VInt (dt_day ns))
          (derive "Month" (fun ns => VInt (dt_month ns))
             (derive "Year" (fun ns => VInt (dt_year ns)) r)))).

Definition is_bool (v : Value) : bool :=
  match v with
  | VBool _ => true
  | _ => false
  end.

(** Rows of one primary category, and the arrests among some rows. *)
Definition category_rows (df : DataFrame) (k : Value) : list Row :=
  filter (fun r => Value_eqb (r "Primary Type") k) (rows df).

Definition arrests (rs : list Row) : nat :=
  length (filter (fun r => Value_eqb (r "Arrest") (VBool true)) rs).

(** The float [a / n], as a rational in lowest terms. *)
Definition ratio (a n : nat) : Q :=
  Qred (inject_Z (Z.of_nat a) / inject_Z (Z.of_nat n)).

(** The group a row falls in at line 124: its Year and Month cells and the
    calendar date of its timestamp; none when one of them is null. *)
Definition date_key (r : Row) : option Key3 :=
  match r "IncidentDate" with
  | VTime ns =>
      if notnull (r "Year") && notnull (r "Month")
      then Some (r "Year", r "Month", VDate (dt_date ns))
      else None
  | _ => None
  end.

Definition has_key (k : Key3) (r : Row) : bool :=
  match date_key r with
  | Some k' => Key3_eqb k k'
  | None => false
  end.

(** Sum of all the per-day counts of all the monthly sequences. *)
Definition grand_total (groups : list (list nat)) : nat :=
  list_sum (map (fun g => list_sum g) groups).

(** Every row with a timestamp has a Year and a Month between 1 and 12. *)
Definition dated_months (df : DataFrame) : Prop :=
  forall r ns, In r (rows df) -> r "IncidentDate" = VTime ns ->
    r "Year" <> NA /\ exists m, (1 <= m <= 12)%Z /\ eq_int (r "Month") m = true.

(** A cell of a numeric column: a number or NaN. *)
Definition is_number (v : Value) : bool :=
  match v with
  | VInt _ | VFloat _ | NA => true
  | _ => false
  end.

(** The input of section 6 of the specification, as line 19 loads it: the
    two category fields, a boolean arrest field, a datetime-typed timestamp
    field; a table that brings its own [Year] brings the other temporal
    fields the script reads as well. *)
Definition valid_input (loaded : DataFrame) : Prop :=
  has_column loaded "Primary Type" = true
  /\ has_column loaded "Location Description" = true
  /\ column_of is_bool loaded "Arrest"
  /\ column_of datetimelike loaded "IncidentDate"
  /\ (has_column loaded "Year" = true ->
      has_column loaded "Month" = true
      /\ has_column loaded "Weekday" = true
      /\ column_of is_number loaded "Hour").

(** A step of the script that neither reads nor changes the state of the
    interpreter: it yields the same result from every state. *)
Definition stateless {RandomState A : Type} (m : M RandomState A) : Prop :=
  exists r, forall w, m w = (r, w).

(** Rows with both coordinates. *)
Definition geotagged (df : DataFrame) (lat lon : string) : list Row :=
  filter (fun r => notnull (r lat) && notnull (r lon)) (rows df).

(** The integer [.astype(int)] makes of a numeric cell. *)
Definition int_value (v : Value) : Z :=
  match v with
  | VInt z => z
  | VFloat q => Z.quot (Qnum q) (Zpos (Qden q))
  | _ => 0%Z
  end.

(** The non-null cells of the [Hour] column, as integers. *)
Definition hours_of (df : DataFrame) : list Z :=
  map int_value (dropna (map (fun r => r "Hour") (rows df))).

(** A column label the detection of lines 30-31 accepts for [prefix]. *)
Definition matches (prefix c : string) : bool := startswith (lower c) prefix.

(** The table after lines 23-27. *)
Definition derived_frame (loaded : DataFrame) : DataFrame :=
  assigned
    (assigned
       (assigned
          (assigned
             (assigned loaded "Year" (fun ns => VInt (dt_year ns)))
             "Month" (fun ns => VInt (dt_month ns)))
          "Day" (fun ns => VInt (dt_day ns)))
       "Hour" (fun ns => VInt (dt_hour ns)))
    "Weekday" (fun ns => VStr (dt_day_name ns)).

(** The group of a calendar day at line 124 when year and month come from
    the same timestamp as the date. *)
Definition day_key (d : Z) : Key3 :=
  (VInt (fst (fst (civil_from_days d))), VInt (snd (fst (civil_from_days d))), VDate d).

(** The row's timestamp falls on day number [d]. *)
Definition on_day (d : Z) (r : Row) : bool :=
  match r "IncidentDate" with
  | VTime ns => Z.eqb d (days_of ns)
  | _ => false
  end.

(** Rows with a non-null timestamp. *)
Definition timestamped (df : DataFrame) : list Row :=
  filter (fun r => notnull (r "IncidentDate")) (rows df).

(** The row's timestamp falls in the month starting at instant [m]. *)
Definition in_month (m : Z) (r : Row) : bool :=
  match r "IncidentDate" with
  | VTime ns => Z.eqb m (period_start ns)
  | _ => false
  end.

(** Order of the periods of a monthly series. *)
Definition period_lt (a b : Value) : Prop :=
  match a, b with
  | VTime x, VTime y => (x < y)%Z
  | _, _ => False
  end.

(* ================================================================= *)
(** ** Sample tables *)

(** [pd.Timestamp(year, month, day, hour)] *)
Definition Timestamp (y m d h : Z) : Z :=
  (days_from_civil y m d * NS_PER_DAY + h * NS_PER_HOUR)%Z.

Definition incident (primary location : Value) (arrest : bool) (date : Value) : Row :=
  mkrow [("Primary Type", primary); ("Location Description", location);
         ("Arrest", VBool arrest); ("IncidentDate", date)].

(** Four incidents of January and March 2015 and one without a date. *)
Definition incidents_2015 : DataFrame :=
  {| columns := ["Primary Type"; "Location Description"; "Arrest"; "IncidentDate"];
     rows := [incident (VStr "THEFT") (VStr "STREET") true (VTime (Timestamp 2015 1 15 3));
              incident (VStr "BATTERY") (VStr "APARTMENT") false (VTime (Timestamp 2015 3 20 10));
              incident (VStr "THEFT") NA false (VTime (Timestamp 2015 1 15 23));
              incident (VStr "THEFT") (VStr "STREET") false NA;
              incident NA (VStr "STREET") true (VTime (Timestamp 2015 3 1 0))] |}.

(** A hundred incidents: 60 thefts, 30 of them with an arrest, and 40
    batteries. *)
Definition hundred_incidents : DataFrame :=
  {| columns := ["Primary Type"; "Location Description"; "Arrest"; "IncidentDate"];
     rows := repeat (incident (VStr "THEFT") (VStr "STREET") true
                              (VTime (Timestamp 2016 7 4 12))) 30
             ++ repeat (incident (VStr "THEFT") (VStr "STORE") false
                                 (VTime (Timestamp 2016 7 5 12))) 30
             ++ repeat (incident (VStr "BATTERY") (VStr "STREET") false
                                 (VTime (Timestamp 2016 8 1 1))) 40 |}.

(** A table whose date column the loader left as text. *)
Definition unparsed_dates : DataFrame :=
  {| columns := ["Primary Type"; "Location Description"; "Arrest"; "IncidentDate"];
     rows := [incident (VStr "THEFT") (VStr "STREET") true (VStr "2015-01-15 03:00");
              incident (VStr "THEFT") (VStr "STREET") false (VStr "not recorded")] |}.

Definition precomputed_columns : list string :=
  ["Primary Type"; "Location Description"; "Arrest"; "IncidentDate";
   "Year"; "Month"; "Day"; "Hour"; "Weekday"].

(** A table that brings its own temporal fields, the weekday abbreviated. *)
Definition abbreviated_weekdays : DataFrame :=
  {| columns := precomputed_columns;
     rows := [mkrow [("Primary Type", VStr "THEFT"); ("Location Description", VStr "STREET");
                     ("Arrest", VBool true); ("IncidentDate", VTime (Timestamp 2015 1 15 3));
                     ("Year", VInt 2015); ("Month", VInt 1); ("Day", VInt 15);
                     ("Hour", VInt 3); ("Weekday", VStr "Thu")]] |}.

(** A table that brings its own temporal fields, one month missing. *)
Definition missing_month : DataFrame :=
  {| columns := precomputed_columns;
     rows := [mkrow [("Primary Type", VStr "THEFT"); ("Location Description", VStr "STREET");
                     ("Arrest", VBool true); ("IncidentDate", VTime (Timestamp 2015 1 15 3));
                     ("Year", VInt 2015); ("Month", NA); ("Day", VInt 15);
                     ("Hour", VInt 3); ("Weekday", VStr "Thursday")]] |}.

(** Two geotagged incidents, one of them without a latitude. *)
Definition null_coordinate : DataFrame :=
  {| columns := ["Primary Type"; "Location Description"; "Arrest"; "IncidentDate";
                 "Latitude"; "Longitude"];
     rows := [mkrow [("Primary Type", VStr "THEFT"); ("Location Description", VStr "STREET");
                     ("Arrest", VBool true); ("IncidentDate", VTime (Timestamp 2015 1 15 3));
                     ("Latitude", VFloat (418781 # 10000)); ("Longitude", VFloat (-876298 # 10000))];
              mkrow [("Primary Type", VStr "THEFT"); ("Location Description", VStr "STREET");
                     ("Arrest", VBool false); ("IncidentDate", VTime (Timestamp 2015 1 16 3));
                     ("Latitude", NA); ("Longitude", VFloat (-876298 # 10000))]] |}.

(** A table without temporal fields but for a [Month] column of its own. *)
Definition own_month : DataFrame :=
  {| columns := ["Primary Type"; "Month"; "Location Description"; "Arrest"; "IncidentDate"];
     rows := [mkrow [("Primary Type", VStr "THEFT"); ("Month", VStr "Jan");
                     ("Location Description", VStr "STREET"); ("Arrest", VBool true);
                     ("IncidentDate", VTime (Timestamp 2015 3 20 10))];
              mkrow [("Primary Type", VStr "THEFT"); ("Month", VStr "Feb");
                     ("Location Description", VStr "STREET"); ("Arrest", VBool false);
                     ("IncidentDate", NA)]] |}.

(** A table with hours at and beyond the ends of the day. *)
Definition odd_hours : DataFrame :=
  {| columns := ["Hour"];
     rows := [mkrow [("Hour", VInt 24)]; mkrow [("Hour", VInt 25)];
              mkrow [("Hour", VInt (-1))]; mkrow [("Hour", VFloat (47 # 2))];
              mkrow [("Hour", NA)]; mkrow [("Hour", VInt 0)]] |}.

(** Two incidents, both with coordinates. *)
Definition two_geotagged : DataFrame :=
  {| columns := ["Primary Type"; "Location Description"; "Arrest"; "IncidentDate";
                 "LATITUDE"; "Longitude"];
     rows := [mkrow [("Primary Type", VStr "THEFT"); ("Location Description", VStr "STREET");
                     ("Arrest", VBool true); ("IncidentDate", VTime (Timestamp 2015 1 15 3));
                     ("LATITUDE", VFloat (418781 # 10000)); ("Longitude", VFloat (-876298 # 10000))];
              mkrow [("Primary Type", VStr "BATTERY"); ("Location Description", VStr "STREET");
                     ("Arrest", VBool false); ("IncidentDate", VTime (Timestamp 2015 1 16 3));
                     ("LATITUDE", VFloat (419 # 10)); ("Longitude", VFloat (-877 # 10))]] |}.

(** A table without the primary category. *)
Definition without_primary_type : DataFrame :=
  {| columns := ["Location Description"; "Arrest"; "IncidentDate"];
     rows := [mkrow [("Location Description", VStr "STREET"); ("Arrest", VBool true);
                     ("IncidentDate", VTime (Timestamp 2015 1 15 3))]] |}.

(** A table that brings its own [Year] and nothing else of the temporal
    fields. *)
Definition year_without_hour : DataFrame :=
  {| columns := ["Primary Type"; "Location Description"; "Arrest"; "IncidentDate"; "Year"];
     rows := [mkrow [("Primary Type", VStr "THEFT"); ("Location Description", VStr "STREET");
                     ("Arrest", VBool true); ("IncidentDate", VTime (Timestamp 2015 1 15 3));
                     ("Year", VInt 2015)]] |}.

(** A generator that draws the first positions, and a binning that keeps
    nothing: stand-ins to run the script with. *)
Definition first_positions (g : unit) (population size : nat) : list nat * unit :=
  (firstn size (seq 0 population), g).

Definition no_grid (x y : list Value) (gridsize : nat) : result unit := Ok tt.

Definition no_int (s : string) : result Z := Raise ValueError.

(* ================================================================= *)
(** * Facts about the building blocks *)

Lemma Q_eqb_spec (p q : Q) : reflect (p = q) (Q_eqb p q).
Proof.
  destruct p as [pn pd], q as [qn qd]; unfold Q_eqb; simpl.
  destruct (Z.eqb_spec pn qn) as [->|Hn]; simpl.
  - destruct (Pos.eqb_spec pd qd) as [->|Hd]; constructor; congruence.
  - constructor; congruence.
Qed.

Lemma Value_eqb_spec (a b : Value) : reflect (a = b) (Value_eqb a b).
Proof.
  destruct a as [|s|x|x|p|x|x], b as [|t|y|y|q|y|y]; simpl;
    try (constructor; congruence).
  - destruct (String.eqb_spec s t); constructor; congruence.
  - destruct (Bool.eqb_spec x y); constructor; congruence.
  - destruct (Z.eqb_spec x y); constructor; congruence.
  - destruct (Q_eqb_spec p q); constructor; congruence.
  - destruct (Z.eqb_spec x y); constructor; congruence.
  - destruct (Z.eqb_spec x y); constructor; congruence.
Qed.

Lemma Value_eqb_refl (a : Value) : Value_eqb a a = true.
Proof. destruct (Value_eqb_spec a a); congruence. Qed.

Lemma Value_leb_total (a b : Value) : Value_leb a b = true \/ Value_leb b a = true.
Proof.
  destruct a as [|s|x|x|p|x|x], b as [|t|y|y|q|y|y]; simpl; auto.
  - apply String.leb_total.
  - destruct x, y; auto.
  - destruct (Z.leb_spec x y); auto. right. apply Z.leb_le. lia.
  - destruct (Qle_bool p q) eqn:E; auto. right.
    apply Qle_bool_iff. apply Qlt_le_weak. apply Qnot_le_lt.
    intro H. apply Qle_bool_iff in H. congruence.
  - destruct (Z.leb_spec x y); auto. right. apply Z.leb_le. lia.
  - destruct (Z.leb_spec x y); auto. right. apply Z.leb_le. lia.
Qed.

Section TallyFacts.
Context {K : Type} {eqb : K -> K -> bool}.
Hypothesis eqb_spec : forall x y, reflect (x = y) (eqb x y).

Local Abbreviation step := (fun (acc : list (K * nat)) (k : K) => bump eqb k acc).

Lemma count_of_bump_same k acc :
  count_of eqb (bump eqb k acc) k = S (count_of eqb acc k).
Proof.
  unfold count_of. induction acc as [|[k' c] acc IH]; simpl.
  - destruct (eqb_spec k k); congruence.
  - destruct (eqb_spec k k') as [->|Hne]; simpl.
    + destruct (eqb_spec k' k'); congruence.
    + destruct (eqb_spec k k'); [congruence|]. exact IH.
Qed.

Lemma count_of_bump_other k k' acc :
  k <> k' -> count_of eqb (bump eqb k acc) k' = count_of eqb acc k'.
Proof.
  intro Hne. unfold count_of. induction acc as [|[k0 c] acc IH]; simpl.
  - destruct (eqb_spec k' k); congruence.
  - destruct (eqb_spec k k0) as [->|Hne0]; simpl.
    + destruct (eqb_spec k' k0); congruence.
    + destruct (eqb_spec k' k0); [reflexivity|]. exact IH.
Qed.

Lemma keys_bump k acc x :
  In x (map fst (bump eqb k acc)) <-> x = k \/ In x (map fst acc).
Proof.
  induction acc as [|[k' c] acc IH]; simpl.
  - intuition.
  - destruct (eqb_spec k k') as [->|Hne]; simpl.
    + intuition.
    + rewrite IH. intuition.
Qed.

Lemma NoDup_bump k acc :
  NoDup (map fst acc) -> NoDup (map fst (bump eqb k acc)).
Proof.
  induction acc as [|[k' c] acc IH]; simpl; intro H.
  - constructor; [intros []|constructor].
  - inversion H as [|? ? Hnin Hnd]; subst.
    destruct (eqb_spec k k') as [->|Hne]; simpl.
    + constructor; assumption.
    + constructor; [|apply IH; assumption].
      rewrite keys_bump. intros [->|Hin]; [congruence|contradiction].
Qed.

Lemma total_bump k acc : total (bump eqb k acc) = S (total acc).
Proof.
  induction acc as [|[k' c] acc IH]; simpl; [reflexivity|].
  destruct (eqb k k'); simpl; [reflexivity|]. rewrite IH. lia.
Qed.

Lemma positive_bump k acc :
  Forall (fun kc => 1 <= snd kc) acc ->
  Forall (fun kc => 1 <= snd kc) (bump eqb k acc).
Proof.
  induction 1 as [|[k' c] acc Hc Hf IH]; simpl.
  - repeat constructor.
  - destruct (eqb k k'); constructor; simpl in *; auto; lia.
Qed.

Lemma occurrences_cons k x ks :
  occurrences eqb k (x :: ks) = (if eqb k x then 1 else 0) + occurrences eqb k ks.
Proof. unfold occurrences. simpl. destruct (eqb k x); reflexivity. Qed.

Lemma count_of_fold ks : forall acc k,
  count_of eqb (fold_left step ks acc) k = count_of eqb acc k + occurrences eqb k ks.
Proof.
  induction ks as [|x ks IH]; intros acc k; simpl.
  - unfold occurrences; simpl; lia.
  - rewrite IH, occurrences_cons.
    destruct (eqb_spec k x) as [->|Hne].
    + rewrite count_of_bump_same. lia.
    + rewrite count_of_bump_other by congruence. lia.
Qed.

Lemma keys_fold ks : forall acc x,
  In x (map fst (fold_left step ks acc)) <-> In x ks \/ In x (map fst acc).
Proof.
  induction ks as [|k ks IH]; intros acc x; simpl.
  - intuition.
  - rewrite IH. rewrite keys_bump. intuition.
Qed.

Lemma NoDup_fold ks : forall acc,
  NoDup (map fst acc) -> NoDup (map fst (fold_left step ks acc)).
Proof.
  induction ks as [|k ks IH]; intros acc H; simpl; [assumption|].
  apply IH. apply NoDup_bump. assumption.
Qed.

Lemma total_fold ks : forall acc,
  total (fold_left step ks acc) = total acc + length ks.
Proof.
  induction ks as [|k ks IH]; intros acc; simpl; [lia|].
  rewrite IH. rewrite total_bump. lia.
Qed.

Lemma positive_fold ks : forall acc,
  Forall (fun kc => 1 <= snd kc) acc ->
  Forall (fun kc => 1 <= snd kc) (fold_left step ks acc).
Proof.
  induction ks as [|k ks IH]; intros acc H; simpl; [assumption|].
  apply IH. apply positive_bump. assumption.
Qed.

(** The tally of a list: one entry per distinct key, holding the number
    of its occurrences. *)
Lemma count_of_tally ks k : count_of eqb (tally eqb ks) k = occurrences eqb k ks.
Proof. unfold tally. apply (count_of_fold ks [] k). Qed.

Lemma keys_tally ks x : In x (map fst (tally eqb ks)) <-> In x ks.
Proof. unfold tally. rewrite (keys_fold ks [] x). simpl. intuition. Qed.

Lemma NoDup_tally ks : NoDup (map fst (tally eqb ks)).
Proof. apply (NoDup_fold ks). constructor. Qed.

Lemma total_tally ks : total (tally eqb ks) = length ks.
Proof. unfold tally. rewrite (total_fold ks []). reflexivity. Qed.

Lemma positive_tally ks : Forall (fun kc => 1 <= snd kc) (tally eqb ks).
Proof. apply (positive_fold ks). constructor. Qed.

(** In a list keyed without repetition, membership and lookup agree. *)
Lemma In_count_of l k c :
  NoDup (map fst l) -> In (k, c) l -> count_of eqb l k = c.
Proof.
  unfold count_of. induction l as [|[k' c'] l IH]; simpl; intros Hnd Hin; [contradiction|].
  inversion Hnd as [|? ? Hnin Hnd']; subst.
  destruct Hin as [Heq|Hin].
  - inversion Heq; subst. destruct (eqb_spec k k); congruence.
  - destruct (eqb_spec k k') as [->|Hne].
    + exfalso. apply Hnin. apply (in_map fst) in Hin. exact Hin.
    + apply IH; assumption.
Qed.

Lemma assoc_In (V : Type) (l : list (K * V)) k v :
  assoc eqb k l = Some v -> In (k, v) l.
Proof.
  induction l as [|[k' v'] l IH]; simpl; [discriminate|].
  destruct (eqb_spec k k') as [->|Hne]; intro H.
  - inversion H; subst. left; reflexivity.
  - right. apply IH. exact H.
Qed.

Lemma assoc_None (V : Type) (l : list (K * V)) k :
  assoc eqb k l = None <-> ~ In k (map fst l).
Proof.
  induction l as [|[k' v'] l IH]; simpl; [intuition|].
  destruct (eqb_spec k k') as [->|Hne].
  - split; [discriminate|]. intro H. exfalso. apply H. left; reflexivity.
  - rewrite IH. intuition.
Qed.

Lemma In_assoc (V : Type) (l : list (K * V)) k v :
  NoDup (map fst l) -> In (k, v) l -> assoc eqb k l = Some v.
Proof.
  induction l as [|[k' v'] l IH]; simpl; intros Hnd Hin; [contradiction|].
  inversion Hnd as [|? ? Hnin Hnd']; subst.
  destruct Hin as [Heq|Hin].
  - inversion Heq; subst. destruct (eqb_spec k k); congruence.
  - destruct (eqb_spec k k') as [->|Hne].
    + exfalso. apply Hnin. apply (in_map fst) in Hin. exact Hin.
    + apply IH; assumption.
Qed.

Lemma In_tally ks k c :
  In (k, c) (tally eqb ks) -> c = occurrences eqb k ks /\ 1 <= c /\ In k ks.
Proof.
  intro Hin. split; [|split].
  - rewrite <- count_of_tally. symmetry.
    apply In_count_of; [apply NoDup_tally|exact Hin].
  - pose proof (positive_tally ks) as Hp. rewrite Forall_forall in Hp.
    apply (Hp (k, c) Hin).
  - apply keys_tally. apply (in_map fst) in Hin. exact Hin.
Qed.

Lemma tally_In ks k : In k ks -> In (k, occurrences eqb k ks) (tally eqb ks).
Proof.
  intro Hin. apply keys_tally in Hin. apply in_map_iff in Hin.
  destruct Hin as [[k' c] [Hk Hin]]. simpl in Hk. subst k'.
  destruct (In_tally _ _ _ Hin) as [-> _]. exact Hin.
Qed.

Lemma occurrences_pos k ks : In k ks -> 1 <= occurrences eqb k ks.
Proof.
  intro Hin. unfold occurrences.
  assert (In k (filter (eqb k) ks)) as H.
  { apply filter_In. split; [exact Hin|]. destruct (eqb_spec k k); congruence. }
  destruct (filter (eqb k) ks); [contradiction|simpl; lia].
Qed.
End TallyFacts.

Section SortFacts.
Variable A : Type.
Variable leb : A -> A -> bool.

Lemma insert_by_perm x l : Permutation (insert_by leb x l) (x :: l).
Proof.
  induction l as [|y l IH]; simpl; [reflexivity|].
  destruct (leb x y); [reflexivity|].
  rewrite IH. apply perm_swap.
Qed.

Lemma sort_by_perm l : Permutation (sort_by leb l) l.
Proof.
  induction l as [|x l IH]; simpl; [reflexivity|].
  rewrite insert_by_perm. apply perm_skip. exact IH.
Qed.

Hypothesis leb_total : forall a b, leb a b = true \/ leb b a = true.

Lemma insert_by_sorted x l :
  Sorted (fun a b => leb a b = true) l ->
  Sorted (fun a b => leb a b = true) (insert_by leb x l).
Proof.
  induction 1 as [|y l Hs IH Hhd]; simpl.
  - repeat constructor.
  - destruct (leb x y) eqn:E.
    + constructor; [constructor; assumption|constructor; exact E].
    + constructor; [exact IH|].
      destruct l as [|z l]; simpl.
      * constructor. destruct (leb_total x y); congruence.
      * destruct (leb x z); constructor.
        -- destruct (leb_total x y); congruence.
        -- inversion Hhd; assumption.
Qed.

Lemma sort_by_sorted l : Sorted (fun a b => leb a b = true) (sort_by leb l).
Proof.
  induction l as [|x l IH]; simpl; [constructor|].
  apply insert_by_sorted. exact IH.
Qed.
End SortFacts.

Lemma total_app (K : Type) (l l' : list (K * nat)) :
  total (l ++ l') = total l + total l'.
Proof. induction l as [|[k c] l IH]; simpl; [reflexivity|]. rewrite IH. lia. Qed.

Lemma total_perm (K : Type) (l l' : list (K * nat)) :
  Permutation l l' -> total l = total l'.
Proof. induction 1; simpl; lia. Qed.

Lemma total_firstn (K : Type) (n : nat) (l : list (K * nat)) :
  total (firstn n l) <= total l.
Proof.
  rewrite <- (firstn_skipn n l) at 2. rewrite total_app. lia.
Qed.

Lemma StronglySorted_firstn (A : Type) (R : A -> A -> Prop) (n : nat) (l : list A) :
  StronglySorted R l -> StronglySorted R (firstn n l).
Proof.
  intro H. revert n. induction H as [|x l Hs IH Hall]; intros [|n]; simpl; try constructor.
  - apply IH.
  - rewrite Forall_forall in *. intros y Hy. apply Hall.
    rewrite <- (firstn_skipn n l). apply in_or_app. left. exact Hy.
Qed.

Lemma In_firstn (A : Type) (n : nat) (l : list A) (x : A) :
  In x (firstn n l) -> In x l.
Proof.
  intro H. rewrite <- (firstn_skipn n l). apply in_or_app. left. exact H.
Qed.

Lemma count_of_perm (K : Type) (eqb : K -> K -> bool) (l l' : list (K * nat)) (k : K) :
  (forall x y, reflect (x = y) (eqb x y)) ->
  NoDup (map fst l) -> Permutation l l' ->
  count_of eqb l k = count_of eqb l' k.
Proof.
  intros Hspec Hnd Hp.
  assert (NoDup (map fst l')) as Hnd'.
  { eapply Permutation_NoDup; [apply Permutation_map; exact Hp|exact Hnd]. }
  destruct (assoc eqb k l') as [c|] eqn:E.
  - unfold count_of at 2. rewrite E.
    apply (assoc_In Hspec) in E.
    apply In_count_of; [exact Hspec|exact Hnd|].
    eapply Permutation_in; [symmetry; exact Hp|exact E].
  - unfold count_of. rewrite E.
    assert (assoc eqb k l = None) as ->; [|reflexivity].
    apply (assoc_None Hspec). intro Hin.
    apply (assoc_None Hspec) in E. apply E.
    eapply Permutation_in; [apply Permutation_map; exact Hp|exact Hin].
Qed.

(** *** [value_counts] *)

Lemma notnull_spec (v : Value) : notnull v = true <-> v <> NA.
Proof. destruct v; unfold notnull; simpl; split; intros; congruence. Qed.

Lemma occurrences_dropna (k : Value) (s : list Value) :
  k <> NA ->
  occurrences Value_eqb k (dropna s) = occurrences Value_eqb k s.
Proof.
  intro Hk. unfold occurrences, dropna.
  induction s as [|v s IH]; simpl; [reflexivity|].
  destruct (notnull v) eqn:Hv; simpl.
  - destruct (Value_eqb k v); simpl; congruence.
  - destruct (Value_eqb_spec k v) as [->|_]; [|exact IH].
    apply notnull_spec in Hk. congruence.
Qed.

Lemma value_counts_perm (s : list Value) :
  Permutation (value_counts s) (tally Value_eqb (dropna s)).
Proof. apply sort_by_perm. Qed.

Lemma value_counts_In (s : list Value) (k : Value) (c : nat) :
  In (k, c) (value_counts s) ->
  k <> NA /\ c = occurrences Value_eqb k s /\ 1 <= c.
Proof.
  intro Hin.
  apply (Permutation_in _ (value_counts_perm s)) in Hin.
  destruct (In_tally Value_eqb_spec _ _ _ Hin) as (Hc & Hpos & Hk).
  apply filter_In in Hk. destruct Hk as [_ Hk]. apply notnull_spec in Hk.
  rewrite occurrences_dropna in Hc by exact Hk. auto.
Qed.

Lemma In_value_counts (s : list Value) (k : Value) :
  In k s -> k <> NA -> In (k, occurrences Value_eqb k s) (value_counts s).
Proof.
  intros Hin Hk.
  apply (Permutation_in _ (Permutation_sym (value_counts_perm s))).
  rewrite <- (occurrences_dropna s Hk).
  apply (tally_In Value_eqb_spec).
  apply filter_In. split; [exact Hin|]. apply notnull_spec. exact Hk.
Qed.

Lemma value_counts_NoDup (s : list Value) : NoDup (map fst (value_counts s)).
Proof.
  eapply Permutation_NoDup.
  - apply Permutation_map. symmetry. apply value_counts_perm.
  - apply (NoDup_tally Value_eqb_spec).
Qed.

Lemma value_counts_total (s : list Value) :
  total (value_counts s) = length (dropna s).
Proof.
  rewrite (total_perm (value_counts_perm s)). apply total_tally.
Qed.

Lemma value_counts_sorted (s : list Value) :
  StronglySorted (fun a b : Value * nat => snd b <= snd a) (value_counts s).
Proof.
  apply Sorted_StronglySorted.
  - intros a b c Hab Hbc. lia.
  - unfold value_counts.
    assert (Sorted (fun a b => count_desc a b = true)
                   (sort_by count_desc (tally Value_eqb (dropna s)))) as H.
    { apply sort_by_sorted. intros a b. unfold count_desc.
      destruct (Nat.leb_spec (snd b) (snd a)); auto.
      right. apply Nat.leb_le. lia. }
    induction H as [|x l Hs IH Hhd]; constructor; [exact IH|].
    destruct Hhd as [|y l Hxy]; constructor.
    unfold count_desc in Hxy. apply Nat.leb_le in Hxy. exact Hxy.
Qed.

Lemma count_of_value_counts (s : list Value) (k : Value) :
  k <> NA -> count_of Value_eqb (value_counts s) k = occurrences Value_eqb k s.
Proof.
  intro Hk.
  rewrite <- (@count_of_perm _ Value_eqb _ _ k Value_eqb_spec
                (NoDup_tally Value_eqb_spec (dropna s))
                (Permutation_sym (value_counts_perm s))).
  rewrite (count_of_tally Value_eqb_spec). apply occurrences_dropna. exact Hk.
Qed.

Lemma getitem_Ok (df : DataFrame) (c : string) :
  has_column df c = true -> getitem df c = Ok (map (fun r => r c) (rows df)).
Proof. intro H. unfold getitem. rewrite H. reflexivity. Qed.

(** What [.value_counts().head(10)] of a column gives. *)
Lemma ranking_spec (s : list Value) (view : list (Value * nat)) :
  view = head 10 (value_counts s) ->
  length view <= 10
  /\ (forall k c, In (k, c) view -> k <> NA /\ c = occurrences Value_eqb k s)
  /\ StronglySorted (fun a b : Value * nat => snd b <= snd a) view
  /\ total view <= length s.
Proof.
  intros ->. unfold head. repeat split.
  - apply firstn_le_length.
  - apply In_firstn in H. apply value_counts_In in H. tauto.
  - apply In_firstn in H. apply value_counts_In in H. tauto.
  - apply StronglySorted_firstn. apply value_counts_sorted.
  - etransitivity; [apply total_firstn|].
    rewrite value_counts_total. unfold dropna. apply filter_length_le.
Qed.

(** C7.  Each ranking (top primary types, top location descriptions) has at
    most 10 entries, lists non-null categories only, each with its frequency
    in the column it was counted from, in descending-or-tied order of count,
    and its counts add up to no more than the number of rows. *)
Theorem category_count_views_ranked (df : DataFrame) :
  has_column df "Primary Type" = true ->
  has_column df "Location Description" = true ->
  exists top locs,
    top_primary df = Ok top /\ loc_top10 df = Ok locs /\
    forall field view,
      (field = "Primary Type" /\ view = top)
      \/ (field = "Location Description" /\ view = locs) ->
      length view <= 10
      /\ (forall k c, In (k, c) view ->
            k <> NA
            /\ c = occurrences Value_eqb k (map (fun r => r field) (rows df)))
      /\ StronglySorted (fun a b : Value * nat => snd b <= snd a) view
      /\ total view <= len df.
Proof.
  intros Hp Hl.
  exists (head 10 (value_counts (map (fun r => r "Primary Type") (rows df)))).
  exists (head 10 (value_counts (map (fun r => r "Location Description") (rows df)))).
  unfold top_primary, loc_top10. rewrite (getitem_Ok _ _ Hp), (getitem_Ok _ _ Hl).
  split; [reflexivity|]. split; [reflexivity|].
  intros field view [[-> ->]|[-> ->]];
    match goal with
    | |- context [head 10 (value_counts ?s)] =>
        destruct (@ranking_spec s _ eq_refl) as (H1 & H2 & H3 & H4)
    end;
    unfold len; rewrite length_map in H4; auto.
Qed.

(** *** Frames *)

Lemma mapM_Ok (A B : Type) (f : A -> result B) (g : A -> B) (l : list A) :
  Forall (fun a => f a = Ok (g a)) l -> mapM f l = Ok (map g l).
Proof.
  induction 1 as [|a l Ha _ IH]; simpl; [reflexivity|].
  rewrite Ha. simpl. rewrite IH. reflexivity.
Qed.

Lemma dt_datetime (s : list Value) :
  Forall (fun v => datetimelike v = true) s -> dt s = Ok (map as_ns s).
Proof.
  intro H. apply mapM_Ok. eapply Forall_impl; [|exact H].
  intros [] Hv; simpl in *; congruence.
Qed.

Lemma combine_map_self (A B C : Type) (h : A * B -> C) (g : A -> B) (l : list A) :
  map h (combine l (map g l)) = map (fun a => h (a, g a)) l.
Proof. induction l as [|a l IH]; simpl; congruence. Qed.

Lemma has_column_setitem (df : DataFrame) (c c' : string) (s : list Value) :
  has_column (setitem df c s) c' = has_column df c' || String.eqb c' c.
Proof.
  unfold has_column at 1. simpl. destruct (has_column df c) eqn:Hc.
  - fold (has_column df c'). destruct (String.eqb_spec c' c) as [->|_].
    + rewrite Hc. reflexivity.
    + rewrite orb_false_r. reflexivity.
  - rewrite existsb_app. simpl. fold (has_column df c'). rewrite orb_false_r. reflexivity.
Qed.

(** What [df[c] = df['IncidentDate'].dt.<field>] leaves. *)
Lemma assign_dt_Ok (df : DataFrame) (c : string) (f : Z -> Value) :
  column_of datetimelike df "IncidentDate" ->
  assign_dt df c f = Ok (assigned df c f).
Proof.
  intros [Hc Hd]. unfold assign_dt. rewrite (getitem_Ok _ _ Hc). simpl.
  rewrite dt_datetime by (rewrite Forall_map; exact Hd). simpl.
  unfold setitem, assigned. rewrite !map_map. rewrite combine_map_self. reflexivity.
Qed.

Lemma assigned_datetime (df : DataFrame) (c : string) (f : Z -> Value) :
  String.eqb "IncidentDate" c = false ->
  column_of datetimelike df "IncidentDate" ->
  column_of datetimelike (assigned df c f) "IncidentDate".
Proof.
  intros Hne [Hc Hd]. split.
  - unfold has_column, assigned. cbn [columns]. fold (has_column df c).
    destruct (has_column df c); [exact Hc|].
    rewrite existsb_app. fold (has_column df "IncidentDate"). rewrite Hc. reflexivity.
  - unfold assigned. cbn [rows]. rewrite Forall_map.
    eapply Forall_impl; [|exact Hd]. intros r Hr.
    unfold derive, set_cell. rewrite Hne. exact Hr.
Qed.

Lemma timestamped_datetime (df : DataFrame) :
  column_of datetimelike df "IncidentDate" ->
  Forall (fun r : Row => exists ns, r "IncidentDate" = VTime ns) (timestamped df).
Proof.
  intros [_ Hd]. rewrite Forall_forall in *. intros r Hr.
  apply filter_In in Hr. destruct Hr as [Hr Hn]. specialize (Hd r Hr).
  destruct (r "IncidentDate"); simpl in *; try discriminate. eauto.
Qed.

Lemma dropna_subset_one (df : DataFrame) (c : string) :
  has_column df c = true ->
  dropna_subset df [c] =
  Ok {| columns := columns df; rows := filter (fun r => notnull (r c)) (rows df) |}.
Proof.
  intro Hc. unfold dropna_subset. cbn [find]. rewrite Hc. cbn [negb].
  do 2 f_equal. apply filter_ext. intro r. cbn [forallb]. apply andb_true_r.
Qed.

(** Lines 59-60: the frame of the timestamped rows, each with the start of
    its month in [YearMonth]. *)
Lemma df_ts_Ok (df : DataFrame) :
  column_of datetimelike df "IncidentDate" ->
  df_ts df =
  Ok {| columns := if has_column df "YearMonth" then columns df
                   else columns df ++ ["YearMonth"];
        rows := map (fun r => set_cell "YearMonth"
                                (r, dt_field (fun ns => VTime (period_start ns))
                                             (as_ns (r "IncidentDate"))))
                    (timestamped df) |}.
Proof.
  intros [Hc Hd]. unfold df_ts. rewrite (dropna_subset_one _ _ Hc). cbn [bind].
  apply (@assign_dt_Ok
           {| columns := columns df;
              rows := filter (fun r => notnull (r "IncidentDate")) (rows df) |}
           "YearMonth" (fun ns => VTime (period_start ns))).
  split; [exact Hc|]. cbn [rows].
  rewrite Forall_forall in *. intros r Hr. apply Hd.
  apply filter_In in Hr. tauto.
Qed.

(** *** [groupby(...).size()] *)

Lemma somes_key_of (s : list Value) :
  Forall (fun v => notnull v = true) s -> somes (map key_of s) = s.
Proof.
  induction 1 as [|v s Hv _ IH]; simpl; [reflexivity|].
  unfold key_of at 1. unfold notnull in Hv. apply negb_true_iff in Hv. rewrite Hv.
  simpl. f_equal. exact IH.
Qed.

Lemma groupby_size_perm (K : Type) (eqb leb : K -> K -> bool) (keys : list (option K)) :
  Permutation (groupby_size eqb leb keys) (tally eqb (somes keys)).
Proof. unfold groupby_size. apply sort_by_perm. Qed.

Lemma occurrences_map (A : Type) (f : A -> Value) (k : Value) (l : list A) :
  occurrences Value_eqb k (map f l) = length (filter (fun a => Value_eqb k (f a)) l).
Proof.
  unfold occurrences. induction l as [|a l IH]; simpl; [reflexivity|].
  destruct (Value_eqb k (f a)); simpl; congruence.
Qed.

Lemma filter_filter_length (A : Type) (p q : A -> bool) (l : list A) :
  length (filter p (filter q l)) = length (filter (fun a => q a && p a) l).
Proof.
  induction l as [|a l IH]; simpl; [reflexivity|].
  destruct (q a); simpl; [destruct (p a); simpl; congruence|exact IH].
Qed.

(** The start of a row's month, as line 60 computes it. *)
Local Abbreviation year_month :=
  (fun r : Row => dt_field (fun ns => VTime (period_start ns)) (as_ns (r "IncidentDate"))).

Lemma year_month_timestamped (df : DataFrame) :
  column_of datetimelike df "IncidentDate" ->
  Forall (fun r : Row => exists ns, r "IncidentDate" = VTime ns
                                    /\ year_month r = VTime (period_start ns))
         (timestamped df).
Proof.
  intro H. apply timestamped_datetime in H.
  eapply Forall_impl; [|exact H]. intros r [ns Hr]. exists ns. rewrite Hr. auto.
Qed.

Lemma monthly_Ok (df : DataFrame) :
  column_of datetimelike df "IncidentDate" ->
  exists ts mon,
    df_ts df = Ok ts /\ monthly ts = Ok mon
    /\ rows ts = map (fun r => set_cell "YearMonth" (r, year_month r)) (timestamped df)
    /\ Sorted (fun a b : Value * nat => Value_leb (fst a) (fst b) = true) mon
    /\ Permutation mon (tally Value_eqb (map year_month (timestamped df))).
Proof.
  intro H. eexists. eexists. split; [apply (df_ts_Ok H)|].
  unfold monthly, getitem.
  match goal with
  | |- context [has_column ?d "YearMonth"] =>
      assert (has_column d "YearMonth" = true) as ->
  end.
  { unfold has_column at 1. cbn [columns].
    destruct (has_column df "YearMonth") eqn:E; [exact E|].
    rewrite existsb_app. simpl. apply orb_true_r. }
  cbn [bind rows]. split; [reflexivity|]. split; [reflexivity|]. split.
  - apply sort_by_sorted. intros a b. apply Value_leb_total.
  - rewrite sort_by_perm, groupby_size_perm.
    match goal with
    | |- context [map key_of ?cells] =>
        assert (cells = map year_month (timestamped df)) as ->
    end.
    { rewrite map_map. apply map_ext. intro r. reflexivity. }
    rewrite somes_key_of; [reflexivity|].
    rewrite Forall_map. pose proof (year_month_timestamped H) as Hy.
    eapply Forall_impl; [|exact Hy]. intros r (ns & _ & ->). reflexivity.
Qed.

Lemma in_month_count (df : DataFrame) (m : Z) :
  occurrences Value_eqb (VTime m) (map year_month (timestamped df))
  = length (filter (in_month m) (rows df)).
Proof.
  rewrite occurrences_map. unfold timestamped. rewrite filter_filter_length.
  apply (f_equal (@length Row)). apply filter_ext. intro r. unfold in_month.
  destruct (r "IncidentDate"); reflexivity.
Qed.

Lemma period_lt_trans (a b c : Value) : period_lt a b -> period_lt b c -> period_lt a c.
Proof. destruct a, b, c; simpl; try tauto. lia. Qed.

Lemma sorted_periods_strict (l : list (Value * nat)) :
  Sorted (fun a b : Value * nat => Value_leb (fst a) (fst b) = true) l ->
  Forall (fun kc => exists m, fst kc = VTime m) l ->
  NoDup (map fst l) ->
  StronglySorted period_lt (map fst l).
Proof.
  induction 1 as [|x l Hs IH Hhd]; intros Hall Hnd; simpl; [constructor|].
  inversion Hall as [|? ? [m Hx] Hall']; subst.
  inversion Hnd as [|? ? Hnin Hnd']; subst.
  specialize (IH Hall' Hnd'). constructor; [exact IH|].
  destruct Hhd as [|y l Hxy]; simpl; [constructor|].
  inversion Hall' as [|? ? [n Hy] _]; subst.
  assert (period_lt (fst x) (fst y)) as Hlt.
  { rewrite Hx, Hy in *. simpl in *. apply Z.leb_le in Hxy.
    assert (m <> n) by (intro; subst; apply Hnin; left; assumption). lia. }
  constructor; [exact Hlt|].
  simpl in IH. inversion IH as [|? ? _ Hrest]; subst.
  eapply Forall_impl; [|exact Hrest].
  intros z Hz. eapply period_lt_trans; eassumption.
Qed.

(** *** [cumsum] *)

Lemma cumsum_from_keys (K : Type) (l : list (K * nat)) : forall acc,
  map fst (cumsum_from acc l) = map fst l.
Proof.
  induction l as [|[k c] l IH]; intro acc; simpl; [reflexivity|].
  rewrite IH. reflexivity.
Qed.

Lemma cumsum_from_nth (K : Type) (l : list (K * nat)) : forall acc i,
  i < length l ->
  nth i (map snd (cumsum_from acc l)) 0 = acc + total (firstn (S i) l).
Proof.
  induction l as [|[k c] l IH]; intros acc i Hi; simpl in *; [lia|].
  destruct i as [|i]; [simpl; lia|].
  rewrite IH by lia. simpl. lia.
Qed.

Lemma cumsum_from_lower (K : Type) (l : list (K * nat)) : forall acc,
  Forall (fun v => acc <= v) (map snd (cumsum_from acc l)).
Proof.
  induction l as [|[k c] l IH]; intro acc; simpl; constructor; [lia|].
  eapply Forall_impl; [|apply IH]. simpl. intros; lia.
Qed.

Lemma cumsum_from_sorted (K : Type) (l : list (K * nat)) : forall acc,
  StronglySorted le (map snd (cumsum_from acc l)).
Proof.
  induction l as [|[k c] l IH]; intro acc; simpl; constructor.
  - apply IH.
  - apply cumsum_from_lower.
Qed.

Lemma cumsum_from_last (K : Type) (l : list (K * nat)) : forall acc d,
  l <> [] -> last (map snd (cumsum_from acc l)) d = acc + total l.
Proof.
  induction l as [|[k c] l IH]; intros acc d Hne; [congruence|].
  destruct l as [|[k' c'] l]; [simpl; lia|].
  change (last (map snd (cumsum_from (acc + c) ((k', c') :: l))) d
          = acc + (c + total ((k', c') :: l))).
  rewrite IH by discriminate. lia.
Qed.

Lemma monthly_total (df : DataFrame) (mon : list (Value * nat)) :
  Permutation mon (tally Value_eqb (map year_month (timestamped df))) ->
  total mon = length (timestamped df).
Proof.
  intro Hp. rewrite (total_perm Hp), total_tally. apply length_map.
Qed.

(** C4.  The cumulative series has the periods of the monthly series; its
    i-th value is the sum of the first i+1 monthly counts; it never
    decreases; and its last value is the number of rows with a non-null
    timestamp. *)
Theorem cumulative_series (df : DataFrame) :
  column_of datetimelike df "IncidentDate" ->
  exists ts mon,
    df_ts df = Ok ts /\ monthly ts = Ok mon
    /\ map fst (cum mon) = map fst mon
    /\ (forall i, i < length mon ->
          nth i (map snd (cum mon)) 0 = total (firstn (S i) mon))
    /\ StronglySorted le (map snd (cum mon))
    /\ total mon = length (timestamped df)
    /\ (forall d, mon <> [] -> last (map snd (cum mon)) d = length (timestamped df)).
Proof.
  intro H. destruct (monthly_Ok H) as (ts & mon & Hts & Hmon & _ & _ & Hp).
  exists ts, mon. unfold cum, cumsum. repeat split; try assumption.
  - apply cumsum_from_keys.
  - intros i Hi. rewrite cumsum_from_nth by exact Hi. reflexivity.
  - apply cumsum_from_sorted.
  - apply (monthly_total _ Hp).
  - intros d Hne. rewrite cumsum_from_last by exact Hne.
    simpl. apply (monthly_total _ Hp).
Qed.

Lemma two_periods (l : list Value) (a b : Z) :
  StronglySorted period_lt l ->
  (forall k, In k l -> k = VTime a \/ k = VTime b) ->
  In (VTime a) l -> In (VTime b) l -> (a < b)%Z ->
  l = [VTime a; VTime b].
Proof.
  intros Hs Hdom Ha Hb Hlt.
  destruct l as [|k1 l]; [contradiction|].
  inversion Hs as [|? ? Hs1 Hall1]; subst. rewrite Forall_forall in Hall1.
  assert (k1 = VTime a) as ->.
  { destruct (Hdom k1 (or_introl eq_refl)) as [->| ->]; [reflexivity|].
    destruct Ha as [Ha|Ha]; [congruence|].
    specialize (Hall1 _ Ha). simpl in Hall1. lia. }
  destruct Hb as [Hb|Hb]; [inversion Hb; lia|].
  destruct l as [|k2 l]; [contradiction|].
  inversion Hs1 as [|? ? Hs2 Hall2]; subst. rewrite Forall_forall in Hall2.
  assert (k2 = VTime b) as ->.
  { destruct (Hdom k2 (or_intror (or_introl eq_refl))) as [->| ->]; [|reflexivity].
    specialize (Hall1 (VTime a) (or_introl eq_refl)). simpl in Hall1. lia. }
  destruct l as [|k3 l]; [reflexivity|]. exfalso.
  specialize (Hall2 k3 (or_introl eq_refl)).
  destruct (Hdom k3 (or_intror (or_intror (or_introl eq_refl)))) as [->| ->];
    simpl in Hall2; lia.
Qed.

Lemma filter_nonempty_In (A : Type) (p : A -> bool) (l : list A) :
  1 <= length (filter p l) -> exists a, In a l /\ p a = true.
Proof.
  intro H. destruct (filter p l) as [|a l'] eqn:E; [simpl in H; lia|].
  exists a. apply filter_In. rewrite E. left; reflexivity.
Qed.

(** C6.  The monthly series lists calendar months in strictly increasing
    order; only rows with a timestamp are bucketed; a month is listed with
    the number of rows falling in it, and only if that number is at least 1.
    When the timestamps fall in January and March 2015 only, the series has
    exactly those two entries. *)
Theorem monthly_time_series (df : DataFrame) :
  column_of datetimelike df "IncidentDate" ->
  exists ts mon,
    df_ts df = Ok ts /\ monthly ts = Ok mon
    /\ Forall (fun r : Row => r "IncidentDate" <> NA) (rows ts)
    /\ StronglySorted period_lt (map fst mon)
    /\ (forall p c, In (p, c) mon ->
          exists m, p = VTime m /\ 1 <= c
                    /\ c = length (filter (in_month m) (rows df)))
    /\ (forall r ns, In r (rows df) -> r "IncidentDate" = VTime ns ->
          In (VTime (period_start ns)) (map fst mon))
    /\ ((forall r ns, In r (rows df) -> r "IncidentDate" = VTime ns ->
           dt_year ns = 2015%Z /\ (dt_month ns = 1%Z \/ dt_month ns = 3%Z)) ->
        (exists r ns, In r (rows df) /\ r "IncidentDate" = VTime ns /\ dt_month ns = 1%Z) ->
        (exists r ns, In r (rows df) /\ r "IncidentDate" = VTime ns /\ dt_month ns = 3%Z) ->
        exists a b, mon = [(VTime 1420070400000000000, a); (VTime 1425168000000000000, b)]).
Proof.
  intro H. destruct (monthly_Ok H) as (ts & mon & Hts & Hmon & Hrows & Hsorted & Hp).
  exists ts, mon.
  assert (forall p c, In (p, c) mon ->
            exists m, p = VTime m /\ 1 <= c
                      /\ c = length (filter (in_month m) (rows df))) as Hentries.
  { intros p c Hin. apply (Permutation_in _ Hp) in Hin.
    destruct (In_tally Value_eqb_spec _ _ _ Hin) as (Hc & Hpos & Hk).
    apply in_map_iff in Hk. destruct Hk as (r & Hr & Hin').
    pose proof (year_month_timestamped H) as Hy. rewrite Forall_forall in Hy.
    destruct (Hy r Hin') as (ns & _ & Hym).
    exists (period_start ns). rewrite <- Hr, Hym. repeat split; [exact Hpos|].
    rewrite <- in_month_count. rewrite <- Hym, Hr. exact Hc. }
  assert (forall r ns, In r (rows df) -> r "IncidentDate" = VTime ns ->
            In (VTime (period_start ns)) (map fst mon)) as Hlisted.
  { intros r ns Hr Hns.
    eapply Permutation_in; [apply Permutation_map; symmetry; exact Hp|].
    apply (keys_tally Value_eqb_spec). apply in_map_iff. exists r. split.
    - rewrite Hns. reflexivity.
    - apply filter_In. split; [exact Hr|]. rewrite Hns. reflexivity. }
  assert (StronglySorted period_lt (map fst mon)) as Hstrict.
  { apply sorted_periods_strict; [exact Hsorted| |].
    - rewrite Forall_forall. intros [p c] Hin.
      destruct (Hentries p c Hin) as (m & -> & _). exists m. reflexivity.
    - eapply Permutation_NoDup; [apply Permutation_map; symmetry; exact Hp|].
      apply (NoDup_tally Value_eqb_spec). }
  repeat split; try assumption.
  - rewrite Hrows. rewrite Forall_map.
    pose proof (timestamped_datetime H) as Hd.
    eapply Forall_impl; [|exact Hd]. intros r [ns Hr].
    unfold set_cell. simpl. rewrite Hr. discriminate.
  - intros Honly (r1 & n1 & Hr1 & Hn1 & Hm1) (r3 & n3 & Hr3 & Hn3 & Hm3).
    assert (forall r ns, In r (rows df) -> r "IncidentDate" = VTime ns ->
              period_start ns = 1420070400000000000%Z
              \/ period_start ns = 1425168000000000000%Z) as Hstart.
    { intros r ns Hr Hns. destruct (Honly r ns Hr Hns) as [Hy [Hm|Hm]];
        unfold period_start; rewrite Hy, Hm.
      - left. reflexivity.
      - right. reflexivity. }
    assert (map fst mon = [VTime 1420070400000000000; VTime 1425168000000000000]) as Hkeys.
    { apply (two_periods Hstrict); [| | |lia].
      - intros k Hk. apply in_map_iff in Hk. destruct Hk as ([p c] & <- & Hin).
        destruct (Hentries p c Hin) as (m & -> & Hpos & Hc). simpl.
        rewrite Hc in Hpos. apply filter_nonempty_In in Hpos.
        destruct Hpos as (r & Hr & Hm). unfold in_month in Hm.
        destruct (r "IncidentDate") eqn:E; try discriminate.
        apply Z.eqb_eq in Hm. subst m.
        destruct (Hstart r ns Hr E) as [-> | ->]; auto.
      - replace 1420070400000000000%Z with (period_start n1).
        + exact (Hlisted r1 n1 Hr1 Hn1).
        + destruct (Honly r1 n1 Hr1 Hn1) as [Hy _].
          unfold period_start. rewrite Hy, Hm1. reflexivity.
      - replace 1425168000000000000%Z with (period_start n3).
        + exact (Hlisted r3 n3 Hr3 Hn3).
        + destruct (Honly r3 n3 Hr3 Hn3) as [Hy _].
          unfold period_start. rewrite Hy, Hm3. reflexivity. }
    destruct mon as [|[p1 a] [|[p2 b] [|? ?]]]; simpl in Hkeys; try discriminate.
    inversion Hkeys; subst. exists a, b. reflexivity.
Qed.

(** *** The normalizer (lines 22-27) *)

Lemma has_column_assigned (df : DataFrame) (c c' : string) (f : Z -> Value) :
  has_column (assigned df c f) c' = has_column df c' || String.eqb c' c.
Proof.
  unfold has_column at 1. unfold assigned. cbn [columns].
  destruct (has_column df c) eqn:Hc.
  - fold (has_column df c'). destruct (String.eqb_spec c' c) as [->|_].
    + rewrite Hc. reflexivity.
    + rewrite orb_false_r. reflexivity.
  - rewrite existsb_app. simpl. fold (has_column df c'). rewrite orb_false_r. reflexivity.
Qed.

Lemma columns_assigned_new (df : DataFrame) (c : string) (f : Z -> Value) :
  has_column df c = false -> columns (assigned df c f) = columns df ++ [c].
Proof. intro H. unfold assigned. cbn [columns]. rewrite H. reflexivity. Qed.

Lemma ensure_temporal_fields_skips (loaded : DataFrame) :
  has_column loaded "Year" = true -> ensure_temporal_fields loaded = Ok loaded.
Proof. intro H. unfold ensure_temporal_fields. rewrite H. reflexivity. Qed.

Lemma ensure_temporal_fields_Ok (loaded : DataFrame) :
  has_column loaded "Year" = false ->
  column_of datetimelike loaded "IncidentDate" ->
  exists df,
    ensure_temporal_fields loaded = Ok df
    /\ rows df = map with_temporal_fields (rows loaded)
    /\ (forall c, has_column df c
                  = has_column loaded c || existsb (String.eqb c) temporal_names)
    /\ ((forall c, In c temporal_names -> has_column loaded c = false) ->
        columns df = columns loaded ++ temporal_names).
Proof.
  intros Hy H. pose proof H as [Hc _].
  unfold ensure_temporal_fields. rewrite Hy, Hc. cbn [negb andb].
  rewrite (assign_dt_Ok _ _ H). cbn [bind].
  pose proof (@assigned_datetime loaded "Year" (fun ns => VInt (dt_year ns)) eq_refl H) as H1.
  rewrite (assign_dt_Ok _ _ H1). cbn [bind].
  pose proof (@assigned_datetime _ "Month" (fun ns => VInt (dt_month ns)) eq_refl H1) as H2.
  rewrite (assign_dt_Ok _ _ H2). cbn [bind].
  pose proof (@assigned_datetime _ "Day" (fun ns => VInt (dt_day ns)) eq_refl H2) as H3.
  rewrite (assign_dt_Ok _ _ H3). cbn [bind].
  pose proof (@assigned_datetime _ "Hour" (fun ns => VInt (dt_hour ns)) eq_refl H3) as H4.
  rewrite (assign_dt_Ok _ _ H4).
  eexists. split; [reflexivity|]. split; [|split].
  - unfold assigned at 1. cbn [rows]. unfold assigned. cbn [rows].
    rewrite !map_map. reflexivity.
  - intro c. rewrite !has_column_assigned. cbn [existsb temporal_names].
    rewrite orb_false_r, !orb_assoc. reflexivity.
  - intro Habs.
    assert (forall c, In c temporal_names -> has_column loaded c = false) as Habs' by exact Habs.
    rewrite columns_assigned_new, columns_assigned_new, columns_assigned_new,
            columns_assigned_new, columns_assigned_new.
    + rewrite <- !app_assoc. reflexivity.
    + apply Habs. simpl; auto.
    + rewrite has_column_assigned, Habs by (simpl; auto). reflexivity.
    + rewrite !has_column_assigned, Habs by (simpl; auto). reflexivity.
    + rewrite !has_column_assigned, Habs by (simpl; auto). reflexivity.
    + rewrite !has_column_assigned, Habs by (simpl; auto 6). reflexivity.
Qed.

Lemma mapM_Ok_inv (A B : Type) (f : A -> result B) (l : list A) (bs : list B) :
  mapM f l = Ok bs -> Forall (fun a => exists b, f a = Ok b) l.
Proof.
  revert bs. induction l as [|a l IH]; intros bs H; simpl in *; [constructor|].
  destruct (f a) as [b|e] eqn:Ea; simpl in H; [|discriminate].
  destruct (mapM f l) as [bs'|e] eqn:El; simpl in H; [|discriminate].
  constructor; [eauto|]. eapply IH. reflexivity.
Qed.

Lemma dt_Ok_inv (s : list Value) (t : list (option Z)) :
  dt s = Ok t -> Forall (fun v => datetimelike v = true) s.
Proof.
  intro H. apply mapM_Ok_inv in H. eapply Forall_impl; [|exact H].
  intros v [b Hb]. destruct v; simpl in *; congruence.
Qed.

(** When the normalizer ran and succeeded, the timestamp column is
    datetime-typed. *)
Lemma ensure_temporal_fields_inv (loaded df : DataFrame) :
  ensure_temporal_fields loaded = Ok df ->
  has_column loaded "Year" = false ->
  has_column loaded "IncidentDate" = true ->
  column_of datetimelike loaded "IncidentDate".
Proof.
  intros Hok Hy Hc. split; [exact Hc|].
  unfold ensure_temporal_fields in Hok. rewrite Hy, Hc in Hok. cbn [negb andb] in Hok.
  destruct (assign_dt loaded "Year" (fun ns => VInt (dt_year ns))) as [d|e] eqn:E;
    [|discriminate].
  unfold assign_dt in E. rewrite (getitem_Ok _ _ Hc) in E. cbn [bind] in E.
  destruct (dt (map (fun r : Row => r "IncidentDate") (rows loaded))) as [t|e] eqn:Et;
    [|discriminate].
  apply dt_Ok_inv in Et. rewrite Forall_map in Et. exact Et.
Qed.

Lemma Forall2_map_self (A B : Type) (P : A -> B -> Prop) (f : A -> B) (l : list A) :
  (forall a, P a (f a)) -> Forall2 P l (map f l).
Proof. intro H. induction l; simpl; constructor; auto. Qed.

Lemma with_temporal_fields_other (r : Row) (c : string) :
  ~ In c temporal_names -> with_temporal_fields r c = r c.
Proof.
  intro Hc. unfold with_temporal_fields, derive, set_cell. cbn [fst snd].
  repeat match goal with
         | |- context [String.eqb c ?n] =>
             destruct (String.eqb_spec c n) as [->|_];
             [exfalso; apply Hc; simpl; tauto|]
         end.
  reflexivity.
Qed.

Lemma with_temporal_fields_derived (r : Row) :
  with_temporal_fields r "Year"
  = dt_field (fun ns => VInt (dt_year ns)) (as_ns (r "IncidentDate"))
  /\ with_temporal_fields r "Month"
     = dt_field (fun ns => VInt (dt_month ns)) (as_ns (r "IncidentDate"))
  /\ with_temporal_fields r "Day"
     = dt_field (fun ns => VInt (dt_day ns)) (as_ns (r "IncidentDate"))
  /\ with_temporal_fields r "Hour"
     = dt_field (fun ns => VInt (dt_hour ns)) (as_ns (r "IncidentDate"))
  /\ with_temporal_fields r "Weekday"
     = dt_field (fun ns => VStr (dt_day_name ns)) (as_ns (r "IncidentDate"))
  /\ with_temporal_fields r "IncidentDate" = r "IncidentDate".
Proof. repeat split. Qed.

(** C9, as the code has it.  On a loaded table whose timestamp column is
    datetime-typed (every cell a timestamp or missing) and which has none of
    the five temporal sub-fields, the normalizer appends Year, Month, Day,
    Hour and Weekday, each computed from the row's timestamp alone; a row
    without a timestamp gets null in all five; rows are neither dropped nor
    reordered and no other column changes. *)
Theorem temporal_fields_derived (loaded : DataFrame) :
  column_of datetimelike loaded "IncidentDate" ->
  (forall c, In c temporal_names -> has_column loaded c = false) ->
  exists df,
    ensure_temporal_fields loaded = Ok df
    /\ columns df = columns loaded ++ temporal_names
    /\ Forall2
         (fun r r' : Row =>
            (forall c, ~ In c temporal_names -> r' c = r c)
            /\ (forall ns, r "IncidentDate" = VTime ns ->
                  r' "Year" = VInt (dt_year ns)
                  /\ r' "Month" = VInt (dt_month ns)
                  /\ r' "Day" = VInt (dt_day ns)
                  /\ r' "Hour" = VInt (dt_hour ns)
                  /\ r' "Weekday" = VStr (dt_day_name ns))
            /\ (r "IncidentDate" = NA ->
                  r' "Year" = NA /\ r' "Month" = NA /\ r' "Day" = NA
                  /\ r' "Hour" = NA /\ r' "Weekday" = NA))
         (rows loaded) (rows df).
Proof.
  intros H Habs.
  destruct (@ensure_temporal_fields_Ok loaded (Habs "Year" (or_introl eq_refl)) H)
    as (df & Hdf & Hrows & _ & Hcols).
  exists df. split; [exact Hdf|]. split; [exact (Hcols Habs)|].
  rewrite Hrows. apply Forall2_map_self. intro r. split; [|split].
  - intros c Hc. apply with_temporal_fields_other. exact Hc.
  - intros ns Hns. unfold with_temporal_fields, derive, set_cell. cbn.
    rewrite Hns. cbn. repeat split.
  - intro Hna. unfold with_temporal_fields, derive, set_cell. cbn.
    rewrite Hna. cbn. repeat split.
Qed.

(** *** Weekday counts (lines 78-79) *)

Lemma Value_eqb_sym (a b : Value) : Value_eqb a b = Value_eqb b a.
Proof.
  destruct (Value_eqb_spec a b), (Value_eqb_spec b a); congruence.
Qed.

Lemma filter_or_length (A : Type) (p q : A -> bool) (l : list A) :
  (forall a, p a = true -> q a = false) ->
  length (filter (fun a => p a || q a) l) = length (filter p l) + length (filter q l).
Proof.
  intro Hd. induction l as [|a l IH]; simpl; [reflexivity|].
  destruct (p a) eqn:Hp; simpl.
  - rewrite (Hd a Hp). simpl. rewrite IH. reflexivity.
  - destruct (q a); simpl; rewrite IH; lia.
Qed.

Lemma isin_In (values : list Value) (v : Value) :
  isin values v = true <-> In v values.
Proof.
  unfold isin. rewrite existsb_exists. split.
  - intros (x & Hx & He). destruct (Value_eqb_spec v x); congruence.
  - intro H. exists v. split; [exact H|apply Value_eqb_refl].
Qed.

(** Counting a column against a fixed list of distinct labels. *)
Lemma labelled_total (labels s : list Value) :
  NoDup labels ->
  total (map (fun k => (k, occurrences Value_eqb k s)) labels)
  = length (filter (isin labels) s).
Proof.
  induction 1 as [|k labels Hnin Hnd IH]; simpl.
  - induction s; simpl; auto.
  - rewrite IH. unfold occurrences.
    rewrite <- filter_or_length.
    + f_equal. apply filter_ext. intro v. unfold isin. simpl.
      rewrite (Value_eqb_sym v k). reflexivity.
    + intros v Hv. destruct (Value_eqb_spec k v) as [Hkv|]; [subst v|discriminate].
      destruct (isin labels k) eqn:E; [|reflexivity].
      apply isin_In in E. contradiction.
Qed.

Lemma weekday_counts_Ok (df : DataFrame) :
  has_column df "Weekday" = true ->
  weekday_counts df =
  Ok (map (fun k => (k, occurrences Value_eqb k (map (fun r => r "Weekday") (rows df))))
          (map VStr weekday_order)).
Proof.
  intro H. unfold weekday_counts. rewrite (getitem_Ok _ _ H). cbn [bind].
  f_equal. unfold fillna0, reindex. rewrite map_map. apply map_ext_in.
  intros k Hk. cbn [fst snd].
  f_equal. apply count_of_value_counts.
  apply in_map_iff in Hk. destruct Hk as (n & <- & _). discriminate.
Qed.

Lemma dt_day_name_In (ns : Z) : In (dt_day_name ns) weekday_order.
Proof.
  unfold dt_day_name, dt_dayofweek.
  assert (0 <= (days_of ns + 3) mod 7 < 7)%Z as Hb by (apply Z.mod_pos_bound; lia).
  remember ((days_of ns + 3) mod 7)%Z as i eqn:Hi. clear Hi.
  assert (i = 0 \/ i = 1 \/ i = 2 \/ i = 3 \/ i = 4 \/ i = 5 \/ i = 6)%Z as Hcases by lia.
  destruct Hcases as [->|[->|[->|[->|[->|[->| ->]]]]]]; simpl; tauto.
Qed.

Lemma dropna_isin (labels s : list Value) :
  Forall (fun v => v = NA \/ In v labels) s ->
  ~ In NA labels ->
  filter (isin labels) s = dropna s.
Proof.
  intros Hs Hna. unfold dropna. apply filter_ext_in. intros v Hv.
  rewrite Forall_forall in Hs. destruct (Hs v Hv) as [->|Hin].
  - simpl. destruct (isin labels NA) eqn:E; [|reflexivity].
    apply isin_In in E. contradiction.
  - assert (v <> NA) as Hne by (intro; subst; contradiction).
    apply notnull_spec in Hne. rewrite Hne. apply isin_In. exact Hin.
Qed.

(** C5, as the code has it.  The weekday distribution has exactly the seven
    entries Monday ... Sunday in that order; each holds the number of rows
    with that weekday name, 0 when there is none; the seven counts add up to
    the number of rows whose weekday value is one of the seven names.  That
    is every row with a non-null weekday when the column holds nothing but
    those names, as it does when the normalizer derived it. *)
Theorem weekday_distribution (loaded df : DataFrame) :
  ensure_temporal_fields loaded = Ok df ->
  has_column df "Weekday" = true ->
  exists wc,
    weekday_counts df = Ok wc
    /\ map fst wc = map VStr weekday_order
    /\ length wc = 7
    /\ (forall name, In name weekday_order ->
          In (VStr name,
              occurrences Value_eqb (VStr name) (map (fun r => r "Weekday") (rows df)))
             wc)
    /\ total wc
       = length (filter (isin (map VStr weekday_order))
                        (map (fun r => r "Weekday") (rows df)))
    /\ (Forall (fun v => v = NA \/ In v (map VStr weekday_order))
               (map (fun r => r "Weekday") (rows df)) ->
        total wc = length (dropna (map (fun r => r "Weekday") (rows df))))
    /\ (has_column loaded "Year" = false ->
        has_column loaded "IncidentDate" = true ->
        total wc = length (dropna (map (fun r => r "Weekday") (rows df)))).
Proof.
  intros Hnorm Hw. eexists. split; [apply (weekday_counts_Ok _ Hw)|].
  assert (NoDup (map VStr weekday_order)) as Hnd.
  { repeat constructor; simpl; intuition discriminate. }
  assert (~ In NA (map VStr weekday_order)) as Hna.
  { simpl. intuition discriminate. }
  assert (forall s, Forall (fun v => v = NA \/ In v (map VStr weekday_order)) s ->
            total (map (fun k => (k, occurrences Value_eqb k s)) (map VStr weekday_order))
            = length (dropna s)) as Hnames.
  { intros s Hs. rewrite (labelled_total s Hnd). f_equal. apply dropna_isin; assumption. }
  split; [|split; [|split; [|split; [|split]]]].
  - rewrite map_map. cbn [fst]. rewrite map_id. reflexivity.
  - reflexivity.
  - intros name Hin. apply in_map_iff. exists (VStr name). split; [reflexivity|].
    apply in_map. exact Hin.
  - apply (labelled_total _ Hnd).
  - apply Hnames.
  - intros Hy Hc. apply Hnames.
    pose proof (ensure_temporal_fields_inv _ Hnorm Hy Hc) as Hd.
    destruct (ensure_temporal_fields_Ok Hy Hd) as (df' & Hdf' & Hrows & _).
    rewrite Hnorm in Hdf'. inversion Hdf'; subst df'. rewrite Hrows, map_map.
    rewrite Forall_map. rewrite Forall_forall. intros r _.
    destruct (with_temporal_fields_derived r) as (_ & _ & _ & _ & -> & _).
    destruct (as_ns (r "IncidentDate")) as [ns|]; cbn [dt_field]; [right|left; reflexivity].
    apply in_map. apply dt_day_name_In.
Qed.

(** *** Arrest rate (lines 49-50) *)

Lemma as_number_bools (cells : list Value) :
  Forall (fun v => is_bool v = true) cells ->
  mapM as_number cells
  = Ok (map (fun v => Some (if Value_eqb v (VBool true) then 1%Q else 0%Q)) cells).
Proof.
  intro H. apply mapM_Ok. eapply Forall_impl; [|exact H].
  intros [| | [|] | | | |] Hv; simpl in *; try discriminate; reflexivity.
Qed.

Lemma somes_map_Some (A B : Type) (f : A -> B) (l : list A) :
  somes (map (fun a => Some (f a)) l) = map f l.
Proof. induction l as [|a l IH]; simpl; [reflexivity|]. f_equal. exact IH. Qed.

Lemma Qsum_indicator (A : Type) (p : A -> bool) (l : list A) :
  (Qsum (map (fun a => if p a then 1 else 0) l)
   == inject_Z (Z.of_nat (length (filter p l))))%Q.
Proof.
  induction l as [|a l IH]; simpl; [reflexivity|].
  rewrite IH. destruct (p a); simpl length.
  - rewrite Nat2Z.inj_succ, <- Z.add_1_l, inject_Z_plus. reflexivity.
  - apply Qplus_0_l.
Qed.

Lemma filter_map_length (A B : Type) (f : A -> B) (p : B -> bool) (l : list A) :
  length (filter p (map f l)) = length (filter (fun a => p (f a)) l).
Proof.
  induction l as [|a l IH]; simpl; [reflexivity|].
  destruct (p (f a)); simpl; congruence.
Qed.

(** The mean of the boolean [Arrest] cells of some rows. *)
Lemma mean_arrests (rs : list Row) :
  Forall (fun r : Row => is_bool (r "Arrest") = true) rs ->
  rs <> [] ->
  mean (map (fun r => r "Arrest") rs) = Ok (VFloat (ratio (arrests rs) (length rs))).
Proof.
  intros Hb Hne. unfold mean.
  rewrite as_number_bools by (rewrite Forall_map; exact Hb). cbn [bind].
  rewrite somes_map_Some, map_map.
  destruct rs as [|r rs]; [congruence|].
  set (p := fun r : Row => Value_eqb (r "Arrest") (VBool true)).
  change (Ok (VFloat (Qred (Qsum (map (fun a => if p a then 1%Q else 0%Q) (r :: rs))
                            / inject_Z (Z.of_nat (length
                                (map (fun a => if p a then 1%Q else 0%Q) (r :: rs)))))))
          = Ok (VFloat (ratio (arrests (r :: rs)) (length (r :: rs))))).
  do 2 f_equal. unfold ratio. apply Qred_complete.
  rewrite length_map, Qsum_indicator. reflexivity.
Qed.

Lemma groupby_mean_arrests (rs : list Row) :
  Forall (fun r : Row => is_bool (r "Arrest") = true) rs ->
  groupby_mean rs "Primary Type" "Arrest"
  = Ok (map (fun k =>
               let group := filter (fun r : Row => Value_eqb (r "Primary Type") k) rs in
               (k, VFloat (ratio (arrests group) (length group))))
            (sort_by Value_leb
               (map fst (tally Value_eqb (dropna (map (fun r : Row => r "Primary Type") rs)))))).
Proof.
  intro Hb. unfold groupby_mean. apply mapM_Ok. rewrite Forall_forall. intros k Hk.
  apply (Permutation_in _ (sort_by_perm Value_leb _)) in Hk.
  apply (proj1 (keys_tally Value_eqb_spec _ _)) in Hk.
  apply filter_In in Hk. destruct Hk as [Hk _].
  apply in_map_iff in Hk. destruct Hk as (r & Hr & Hin).
  rewrite mean_arrests; [reflexivity| |].
  - rewrite Forall_forall in *. intros r' Hr'. apply Hb. apply filter_In in Hr'. tauto.
  - intro Hempty. apply (@in_nil _ r). rewrite <- Hempty.
    apply filter_In. split; [exact Hin|]. rewrite Hr. apply Value_eqb_refl.
Qed.

Lemma assoc_map_self (V : Type) (f : Value -> V) (keys : list Value) (k : Value) :
  In k keys -> assoc Value_eqb k (map (fun k => (k, f k)) keys) = Some (f k).
Proof.
  induction keys as [|k' keys IH]; simpl; [contradiction|].
  destruct (Value_eqb_spec k k') as [->|Hne]; [reflexivity|].
  intros [Heq|Hin]; [congruence|]. apply IH. exact Hin.
Qed.

Lemma filter_filter_implies (A : Type) (p q : A -> bool) (l : list A) :
  (forall a, p a = true -> q a = true) -> filter p (filter q l) = filter p l.
Proof.
  intro H. induction l as [|a l IH]; simpl; [reflexivity|].
  destruct (q a) eqn:Hq; simpl.
  - rewrite IH. reflexivity.
  - destruct (p a) eqn:Hp; [|exact IH]. rewrite (H a Hp) in Hq. discriminate.
Qed.

Lemma arrest_rate_Ok (df : DataFrame) (top : list (Value * nat)) :
  has_column df "Primary Type" = true ->
  column_of is_bool df "Arrest" ->
  (forall k, In k (map fst top) ->
     k <> NA /\ In k (map (fun r => r "Primary Type") (rows df))) ->
  arrest_rate df top
  = Ok (map (fun k => (k, VFloat (ratio (arrests (category_rows df k))
                                        (length (category_rows df k)))))
            (map fst top)).
Proof.
  intros Hp [Ha Hb] Htop. unfold arrest_rate.
  rewrite (getitem_Ok _ _ Hp), (getitem_Ok _ _ Ha). cbn [bind].
  rewrite groupby_mean_arrests.
  2:{ rewrite Forall_forall in *. intros r Hr. apply Hb. apply filter_In in Hr. tauto. }
  cbn [bind]. unfold loc. apply mapM_Ok. rewrite Forall_forall. intros k Hk.
  destruct (Htop k Hk) as [Hne Hin].
  rewrite assoc_map_self.
  - cbn zeta. unfold category_rows.
    rewrite filter_filter_implies; [reflexivity|].
    intros r Hr. destruct (Value_eqb_spec (r "Primary Type") k) as [->|]; [|discriminate].
    apply isin_In. exact Hk.
  - apply (Permutation_in _ (Permutation_sym (sort_by_perm Value_leb _))).
    apply (keys_tally Value_eqb_spec). apply filter_In.
    split; [|apply notnull_spec; exact Hne].
    apply in_map_iff in Hin. destruct Hin as (r & Hr & Hin).
    apply in_map_iff. exists r. split; [exact Hr|].
    apply filter_In. split; [exact Hin|]. rewrite Hr. apply isin_In. exact Hk.
Qed.

Lemma ratio_bounds (a n : nat) :
  a <= n -> 1 <= n -> (0 <= ratio a n)%Q /\ (ratio a n <= 1)%Q.
Proof.
  intros Han Hn. unfold ratio. rewrite Qred_correct.
  assert (0 < inject_Z (Z.of_nat n))%Q as Hpos.
  { change 0%Q with (inject_Z 0). rewrite <- Zlt_Qlt. lia. }
  split.
  - apply Qle_shift_div_l; [exact Hpos|]. rewrite Qmult_0_l.
    change 0%Q with (inject_Z 0). rewrite <- Zle_Qle. lia.
  - apply Qle_shift_div_r; [exact Hpos|]. rewrite Qmult_1_l.
    rewrite <- Zle_Qle. lia.
Qed.

Lemma total_ge_In (K : Type) (l : list (K * nat)) (x : K * nat) :
  In x l -> snd x <= total l.
Proof.
  induction l as [|y l IH]; simpl; [contradiction|].
  intros [->|Hin]; [lia|]. specialize (IH Hin). lia.
Qed.

(** An entry too large for [n] others to stand before it is among the
    first [n] of a list sorted by descending count. *)
Lemma heavy_in_firstn (K : Type) (l : list (K * nat)) :
  StronglySorted (fun a b : K * nat => snd b <= snd a) l ->
  forall n x, In x l -> total l < n * snd x + snd x -> In x (firstn (S n) l).
Proof.
  induction 1 as [|y l Hs IH Hall]; intros n x Hin Hlt; [contradiction|].
  simpl. destruct Hin as [->|Hin]; [left; reflexivity|]. right.
  rewrite Forall_forall in Hall. specialize (Hall x Hin). simpl in Hlt.
  destruct n as [|n].
  - pose proof (total_ge_In _ _ Hin). lia.
  - apply IH; [exact Hin|]. lia.
Qed.

Lemma category_rows_length (df : DataFrame) (k : Value) :
  length (category_rows df k)
  = occurrences Value_eqb k (map (fun r => r "Primary Type") (rows df)).
Proof.
  rewrite occurrences_map. unfold category_rows.
  apply (f_equal (@length Row)). apply filter_ext. intro r. apply Value_eqb_sym.
Qed.

Lemma occurrences_In (k : Value) (s : list Value) :
  1 <= occurrences Value_eqb k s -> In k s.
Proof.
  intro H. apply filter_nonempty_In in H. destruct H as (v & Hv & He).
  destruct (Value_eqb_spec k v); congruence.
Qed.

Lemma top_primary_inv (df : DataFrame) (top : list (Value * nat)) :
  has_column df "Primary Type" = true ->
  top_primary df = Ok top ->
  top = head 10 (value_counts (map (fun r => r "Primary Type") (rows df))).
Proof.
  intros Hp Htop. unfold top_primary in Htop. rewrite (getitem_Ok _ _ Hp) in Htop.
  cbn [bind] in Htop. congruence.
Qed.

Lemma top_primary_keys (df : DataFrame) (top : list (Value * nat)) :
  has_column df "Primary Type" = true ->
  top_primary df = Ok top ->
  forall k, In k (map fst top) ->
    k <> NA /\ In k (map (fun r => r "Primary Type") (rows df)).
Proof.
  intros Hp Htop k Hk. rewrite (top_primary_inv _ Hp Htop) in Hk.
  apply in_map_iff in Hk. destruct Hk as ([k' c] & <- & Hin). simpl.
  apply In_firstn in Hin. apply value_counts_In in Hin.
  destruct Hin as (Hne & Hc & Hpos). split; [exact Hne|].
  apply occurrences_In. rewrite <- Hc. exact Hpos.
Qed.

(** C3.  The arrest rate lists exactly the categories of the ranking it is
    given, in the ranking's order; every listed category has at least one
    row, and its rate is the number of its rows with [Arrest] true divided
    by the number of its rows, a value between 0 and 1.  In a table of 100
    rows with 60 of category THEFT, 30 of them with an arrest, the rate of
    THEFT is 1/2. *)
Theorem arrest_rate_by_category (df : DataFrame) (top : list (Value * nat)) :
  has_column df "Primary Type" = true ->
  column_of is_bool df "Arrest" ->
  top_primary df = Ok top ->
  exists rate,
    arrest_rate df top = Ok rate
    /\ map fst rate = map fst top
    /\ (forall k v, In (k, v) rate ->
          1 <= length (category_rows df k)
          /\ v = VFloat (ratio (arrests (category_rows df k)) (length (category_rows df k)))
          /\ (0 <= ratio (arrests (category_rows df k)) (length (category_rows df k)))%Q
          /\ (ratio (arrests (category_rows df k)) (length (category_rows df k)) <= 1)%Q)
    /\ (len df = 100 ->
        length (category_rows df (VStr "THEFT")) = 60 ->
        arrests (category_rows df (VStr "THEFT")) = 30 ->
        In (VStr "THEFT", VFloat (1 # 2)) rate).
Proof.
  intros Hp Hb Htop.
  pose proof (top_primary_keys _ Hp Htop) as Hkeys.
  eexists. split; [apply (arrest_rate_Ok _ Hp Hb Hkeys)|].
  split; [|split].
  - rewrite map_map. cbn [fst]. apply map_id.
  - intros k v Hin. apply in_map_iff in Hin. destruct Hin as (k' & Heq & Hk).
    inversion Heq; subst k' v. clear Heq.
    assert (1 <= length (category_rows df k)) as Hpos.
    { rewrite category_rows_length. apply (occurrences_pos Value_eqb_spec).
      apply (Hkeys k Hk). }
    split; [exact Hpos|]. split; [reflexivity|].
    apply ratio_bounds; [|exact Hpos]. unfold arrests. apply filter_length_le.
  - intros Hlen Hn Ha.
    assert (In (VStr "THEFT") (map fst top)) as Hin.
    { rewrite (top_primary_inv _ Hp Htop). unfold head.
      apply (in_map fst _ (VStr "THEFT", 60)).
      apply heavy_in_firstn.
      - apply value_counts_sorted.
      - rewrite <- Hn, category_rows_length.
        apply In_value_counts; [|discriminate].
        apply occurrences_In. rewrite <- category_rows_length, Hn. lia.
      - rewrite value_counts_total. cbn [snd]. unfold dropna.
        eapply Nat.le_lt_trans; [apply filter_length_le|].
        rewrite length_map. unfold len in Hlen. rewrite Hlen. lia. }
    apply in_map_iff. exists (VStr "THEFT"). split; [|exact Hin].
    rewrite Hn, Ha. reflexivity.
Qed.

(** *** Daily counts by month (lines 123-125) *)

Lemma Key3_eqb_spec (a b : Key3) : reflect (a = b) (Key3_eqb a b).
Proof.
  destruct a as [[a1 a2] a3], b as [[b1 b2] b3]. unfold Key3_eqb. cbn [fst snd].
  destruct (Value_eqb_spec a1 b1), (Value_eqb_spec a2 b2), (Value_eqb_spec a3 b3);
    constructor; congruence.
Qed.

Lemma dt_month_range (ns : Z) : (1 <= dt_month ns <= 12)%Z.
Proof.
  unfold dt_month. generalize (days_of ns). intro d.
  unfold civil_from_days. cbn [fst snd].
  set (z := (d + 719468)%Z).
  set (era := (z / 146097)%Z).
  set (doe := (z - era * 146097)%Z).
  assert (0 <= doe < 146097)%Z as Hdoe.
  { unfold doe, era. pose proof (Z.mod_pos_bound z 146097 ltac:(lia)) as H.
    rewrite Z.mod_eq in H by lia. lia. }
  clearbody doe. clear z era.
  set (yoe := ((doe - doe / 1460 + doe / 36524 - doe / 146096) / 365)%Z).
  set (doy := (doe - (365 * yoe + yoe / 4 - yoe / 100))%Z).
  assert (0 <= doy <= 366)%Z as Hdoy.
  { unfold doy, yoe. Z.to_euclidean_division_equations; lia. }
  clearbody doy.
  set (mp := ((5 * doy + 2) / 153)%Z).
  assert (0 <= mp <= 11)%Z as Hmp.
  { unfold mp. Z.to_euclidean_division_equations; lia. }
  clearbody mp.
  destruct (Z.ltb_spec mp 10); lia.
Qed.

Lemma normalized_dated_months (loaded df : DataFrame) :
  ensure_temporal_fields loaded = Ok df ->
  has_column loaded "Year" = false ->
  has_column loaded "IncidentDate" = true ->
  dated_months df.
Proof.
  intros Hok Hy Hc.
  pose proof (ensure_temporal_fields_inv _ Hok Hy Hc) as Hd.
  destruct (ensure_temporal_fields_Ok Hy Hd) as (df' & Hdf' & Hrows & _).
  rewrite Hok in Hdf'. inversion Hdf'; subst df'.
  intros r' ns Hr' Hns. rewrite Hrows in Hr'. apply in_map_iff in Hr'.
  destruct Hr' as (r & <- & _).
  destruct (with_temporal_fields_derived r) as (Hyr & Hmo & _ & _ & _ & Hid).
  rewrite Hid in Hns. rewrite Hyr, Hmo, Hns. cbn [as_ns dt_field].
  split; [discriminate|]. exists (dt_month ns). split; [apply dt_month_range|].
  simpl. apply Z.eqb_refl.
Qed.

Lemma df_ts_assigned (df : DataFrame) :
  column_of datetimelike df "IncidentDate" ->
  df_ts df
  = Ok (assigned {| columns := columns df; rows := timestamped df |}
                 "YearMonth" (fun ns => VTime (period_start ns))).
Proof. intro H. rewrite (df_ts_Ok H). reflexivity. Qed.

Lemma daily_counts_Ok (ts : DataFrame) :
  column_of datetimelike ts "IncidentDate" ->
  has_column ts "Year" = true ->
  has_column ts "Month" = true ->
  daily_counts ts
  = Ok (groupby_size Key3_eqb Key3_leb
          (map key3_of (map (derive "DateOnly" (fun ns => VDate (dt_date ns))) (rows ts)))).
Proof.
  intros [Hc Hd] Hy Hm. unfold daily_counts.
  rewrite (getitem_Ok _ _ Hc). cbn [bind].
  rewrite dt_datetime by (rewrite Forall_map; exact Hd). cbn [bind].
  assert (setitem ts "DateOnly"
            (map (dt_field (fun ns => VDate (dt_date ns)))
                 (map as_ns (map (fun r : Row => r "IncidentDate") (rows ts))))
          = assigned ts "DateOnly" (fun ns => VDate (dt_date ns))) as ->.
  { unfold setitem, assigned. rewrite !map_map, combine_map_self. reflexivity. }
  unfold getitem. rewrite !has_column_assigned, Hy, Hm. cbn [orb bind String.eqb].
  rewrite orb_true_r. reflexivity.
Qed.

Lemma key3_of_derived (r : Row) :
  key3_of (derive "DateOnly" (fun ns => VDate (dt_date ns))
             (derive "YearMonth" (fun ns => VTime (period_start ns)) r))
  = date_key r.
Proof.
  unfold key3_of, date_key, derive, set_cell. cbn [fst snd].
  change (String.eqb "Year" "DateOnly") with false.
  change (String.eqb "Month" "DateOnly") with false.
  change (String.eqb "DateOnly" "DateOnly") with true.
  change (String.eqb "Year" "YearMonth") with false.
  change (String.eqb "Month" "YearMonth") with false.
  change (String.eqb "IncidentDate" "YearMonth") with false.
  cbv iota.
  destruct (r "IncidentDate"); cbn [as_ns dt_field notnull isnull negb];
    rewrite ?andb_false_r, ?andb_true_r; reflexivity.
Qed.

Lemma occurrences_somes_map (A K : Type) (eqb : K -> K -> bool)
    (g : A -> option K) (k : K) (l : list A) :
  occurrences eqb k (somes (map g l))
  = length (filter (fun a => match g a with Some k' => eqb k k' | None => false end) l).
Proof.
  unfold occurrences. induction l as [|a l IH]; simpl; [reflexivity|].
  destruct (g a) as [k'|]; simpl; [|exact IH].
  destruct (eqb k k'); simpl; congruence.
Qed.

Lemma somes_all (A K : Type) (g : A -> option K) (l : list A) :
  Forall (fun a => g a <> None) l -> length (somes (map g l)) = length l.
Proof.
  induction 1 as [|a l Ha _ IH]; simpl; [reflexivity|].
  destruct (g a); [simpl; congruence|congruence].
Qed.

Lemma somes_length_le (A K : Type) (g : A -> option K) (l : list A) :
  length (somes (map g l)) <= length l.
Proof.
  induction l as [|a l IH]; simpl; [lia|].
  destruct (g a); simpl; lia.
Qed.

Lemma In_somes_map (A K : Type) (g : A -> option K) (k : K) (l : list A) :
  In k (somes (map g l)) -> exists a, In a l /\ g a = Some k.
Proof.
  induction l as [|a l IH]; simpl; [contradiction|].
  intro H. apply in_app_or in H. destruct H as [H|H].
  - destruct (g a) as [k'|] eqn:E; simpl in H; [|contradiction].
    destruct H as [->|[]]. eauto.
  - destruct (IH H) as (a' & Ha' & Hg). eauto.
Qed.

Lemma eq_int_unique (v : Value) (a b : Z) :
  eq_int v a = true -> eq_int v b = Z.eqb a b.
Proof.
  destruct v as [|s|x|x|q|x|x]; simpl; try discriminate.
  - intro H. apply Z.eqb_eq in H. rewrite H. reflexivity.
  - intro H. apply Z.eqb_eq in H. rewrite H. reflexivity.
  - intro H. apply Qeq_bool_iff in H.
    destruct (Z.eqb_spec a b) as [->|Hne].
    + apply Qeq_bool_iff. exact H.
    + destruct (Qeq_bool q (inject_Z b)) eqn:E; [|reflexivity].
      apply Qeq_bool_iff in E. exfalso. apply Hne. apply inject_Z_injective.
      rewrite <- H. exact E.
Qed.

Lemma month_count_one (v : Value) (a : Z) :
  (1 <= a <= 12)%Z -> eq_int v a = true ->
  length (filter (fun m => eq_int v (Z.of_nat m)) (seq 1 12)) = 1.
Proof.
  intros Ha Hv.
  rewrite (filter_ext _ (fun m => Z.eqb a (Z.of_nat m))).
  - assert (a = 1 \/ a = 2 \/ a = 3 \/ a = 4 \/ a = 5 \/ a = 6 \/ a = 7 \/ a = 8
            \/ a = 9 \/ a = 10 \/ a = 11 \/ a = 12)%Z as Hcases by lia.
    repeat (destruct Hcases as [->|Hcases]; [reflexivity|]). subst a. reflexivity.
  - intro m. apply eq_int_unique. exact Hv.
Qed.

Lemma list_sum_map_add (A : Type) (f g : A -> nat) (l : list A) :
  list_sum (map (fun a => f a + g a) l) = list_sum (map f l) + list_sum (map g l).
Proof. induction l as [|a l IH]; simpl; [reflexivity|]. rewrite IH. lia. Qed.

Lemma list_sum_indicator (A : Type) (p : A -> bool) (c : nat) (l : list A) :
  list_sum (map (fun a => if p a then c else 0) l) = c * length (filter p l).
Proof.
  induction l as [|a l IH]; simpl; [lia|].
  rewrite IH. destruct (p a); simpl; lia.
Qed.

(** Splitting counted entries into classes, each entry in at most one
    class: the classes hold no more than the whole, and all of it when
    each entry is in exactly one. *)
Lemma classes_total (K : Type) (P : nat -> K * nat -> bool) (ms : list nat)
    (l : list (K * nat)) :
  (forall kc, In kc l -> length (filter (fun m => P m kc) ms) = 1) ->
  list_sum (map (fun m => list_sum (map snd (filter (P m) l))) ms) = total l.
Proof.
  induction l as [|kc l IH]; intro H.
  - clear H. unfold total. induction ms as [|m ms IHm]; [reflexivity|exact IHm].
  - rewrite (map_ext _ (fun m => (if P m kc then snd kc else 0)
                                 + list_sum (map snd (filter (P m) l)))).
    + rewrite list_sum_map_add, list_sum_indicator, IH.
      * rewrite (H kc (or_introl eq_refl)). simpl. lia.
      * intros kc' Hin. apply H. right. exact Hin.
    + intro m. simpl. destruct (P m kc); reflexivity.
Qed.

Lemma classes_total_le (K : Type) (P : nat -> K * nat -> bool) (ms : list nat)
    (l : list (K * nat)) :
  (forall kc, In kc l -> length (filter (fun m => P m kc) ms) <= 1) ->
  list_sum (map (fun m => list_sum (map snd (filter (P m) l))) ms) <= total l.
Proof.
  induction l as [|kc l IH]; intro H.
  - clear H. unfold total. induction ms as [|m ms IHm]; [reflexivity|exact IHm].
  - rewrite (map_ext _ (fun m => (if P m kc then snd kc else 0)
                                 + list_sum (map snd (filter (P m) l)))).
    + rewrite list_sum_map_add, list_sum_indicator.
      pose proof (H kc (or_introl eq_refl)) as H1.
      assert (list_sum (map (fun m => list_sum (map snd (filter (P m) l))) ms) <= total l) as H2.
      { apply IH. intros kc' Hin. apply H. right. exact Hin. }
      simpl. nia.
    + intro m. simpl. destruct (P m kc); reflexivity.
Qed.

Lemma grand_total_monthly_groups (daily : list (Key3 * nat)) :
  grand_total (monthly_groups daily)
  = list_sum (map (fun m => list_sum (map snd
                     (filter (fun kc => eq_int (month_of_key kc) (Z.of_nat m)) daily)))
                  (seq 1 12)).
Proof. unfold grand_total, monthly_groups. rewrite map_map. reflexivity. Qed.

Lemma month_count_le_one (v : Value) :
  length (filter (fun m => eq_int v (Z.of_nat m)) (seq 1 12)) <= 1.
Proof.
  destruct (filter (fun m => eq_int v (Z.of_nat m)) (seq 1 12)) as [|m l] eqn:E;
    [simpl; lia|].
  assert (In m (filter (fun m => eq_int v (Z.of_nat m)) (seq 1 12))) as Hm
      by (rewrite E; left; reflexivity).
  apply filter_In in Hm. destruct Hm as [Hm Hv]. apply in_seq in Hm.
  rewrite <- E. rewrite (month_count_one v (a := Z.of_nat m)); [lia|lia|exact Hv].
Qed.

Lemma daily_counts_perm (df : DataFrame) :
  column_of datetimelike df "IncidentDate" ->
  has_column df "Year" = true ->
  has_column df "Month" = true ->
  exists ts daily,
    df_ts df = Ok ts /\ daily_counts ts = Ok daily
    /\ Permutation daily (tally Key3_eqb (somes (map date_key (timestamped df)))).
Proof.
  intros H Hy Hm. pose proof H as [Hc Hd].
  set (dropped := {| columns := columns df; rows := timestamped df |}).
  assert (column_of datetimelike dropped "IncidentDate") as Hdrop.
  { split; [exact Hc|]. cbn [rows dropped]. unfold timestamped.
    rewrite Forall_forall in *. intros r Hr. apply Hd. apply filter_In in Hr. tauto. }
  eexists. eexists. split; [apply (df_ts_assigned H)|]. fold dropped.
  rewrite daily_counts_Ok.
  - split; [reflexivity|].
    rewrite groupby_size_perm. unfold assigned. cbn [rows dropped].
    rewrite !map_map.
    rewrite (map_ext _ date_key) by (intro r; apply key3_of_derived).
    reflexivity.
  - apply assigned_datetime; [reflexivity|exact Hdrop].
  - rewrite has_column_assigned. change (has_column dropped "Year") with (has_column df "Year").
    rewrite Hy. reflexivity.
  - rewrite has_column_assigned. change (has_column dropped "Month") with (has_column df "Month").
    rewrite Hm. reflexivity.
Qed.

Lemma date_key_Some (r : Row) (k : Key3) :
  date_key r = Some k ->
  exists ns, r "IncidentDate" = VTime ns /\ k = (r "Year", r "Month", VDate (dt_date ns)).
Proof.
  unfold date_key. destruct (r "IncidentDate") as [| | | | |ns|]; try discriminate.
  destruct (notnull (r "Year") && notnull (r "Month")); [|discriminate].
  intro H. inversion H. eauto.
Qed.

Lemma eq_int_notnull (v : Value) (m : Z) : eq_int v m = true -> notnull v = true.
Proof. destruct v; simpl; try discriminate; reflexivity. Qed.

Lemma somes_map_In (A K : Type) (g : A -> option K) (k : K) (a : A) (l : list A) :
  In a l -> g a = Some k -> In k (somes (map g l)).
Proof.
  intros Ha Hg. induction l as [|b l IH]; simpl in *; [contradiction|].
  apply in_or_app. destruct Ha as [->|Ha].
  - left. rewrite Hg. left. reflexivity.
  - right. apply IH. exact Ha.
Qed.

(** Selecting counted entries keeps their keys distinct. *)
Lemma selected_keys_NoDup (K : Type) (selected : K * nat -> bool) (l : list (K * nat)) :
  NoDup (map fst l) -> NoDup (map fst (filter selected l)).
Proof.
  induction l as [|kc l IH]; simpl; intro H; [constructor|].
  apply NoDup_cons_iff in H. destruct H as [Hfresh Hrest].
  destruct (selected kc); simpl; [|apply IH; exact Hrest].
  apply NoDup_cons; [|apply IH; exact Hrest].
  intro Hin. apply Hfresh. apply in_map_iff in Hin. destruct Hin as (kc' & Hkey & Hin).
  apply filter_In in Hin. apply in_map_iff. exists kc'. tauto.
Qed.

(** The sequence of month [m] at line 125. *)
Lemma monthly_groups_nth (daily : list (Key3 * nat)) (m : nat) :
  1 <= m <= 12 ->
  nth (m - 1) (monthly_groups daily) []
  = map snd (filter (fun kc => eq_int (month_of_key kc) (Z.of_nat m)) daily).
Proof.
  intro Hm. unfold monthly_groups.
  set (f := fun m : nat =>
              map snd (filter (fun kc : Key3 * nat =>
                                 eq_int (month_of_key kc) (Z.of_nat m)) daily)).
  rewrite (nth_indep _ [] (f 0)) by (rewrite length_map, length_seq; lia).
  rewrite (map_nth f (seq 1 12) 0 (m - 1)).
  rewrite seq_nth by lia.
  replace (1 + (m - 1)) with m by lia. reflexivity.
Qed.

(** C10, as the code has it.  Each daily count is at least 1 and belongs to
    one (Year, Month, calendar date) group, no group listed twice.  The
    view has twelve sequences; the sequence of month [m] holds one count
    for each distinct (Year, Month, calendar date) triple of the rows with
    a timestamp whose Month equals [m], no triple twice and none left out,
    and the count is the number of rows of that triple.  The twelve
    sequences together hold no more than the rows with a timestamp, and
    exactly that many when every such row has a Year and a Month between 1
    and 12, as it does when the normalizer derived them. *)
Theorem daily_counts_by_month (loaded df : DataFrame) :
  ensure_temporal_fields loaded = Ok df ->
  column_of datetimelike df "IncidentDate" ->
  has_column df "Year" = true ->
  has_column df "Month" = true ->
  exists ts daily,
    df_ts df = Ok ts /\ daily_counts ts = Ok daily
    /\ NoDup (map fst daily)
    /\ (forall k c, In (k, c) daily ->
          1 <= c /\ c = length (filter (has_key k) (timestamped df)))
    /\ length (monthly_groups daily) = 12
    /\ (forall m, 1 <= m <= 12 ->
          exists triples : list Key3,
            nth (m - 1) (monthly_groups daily) []
            = map (fun k => length (filter (has_key k) (timestamped df))) triples
            /\ NoDup triples
            /\ (forall k, In k triples <->
                  eq_int (snd (fst k)) (Z.of_nat m) = true
                  /\ exists r, In r (timestamped df) /\ date_key r = Some k))
    /\ Forall (Forall (fun c => 1 <= c)) (monthly_groups daily)
    /\ grand_total (monthly_groups daily) <= length (timestamped df)
    /\ (dated_months df ->
        grand_total (monthly_groups daily) = length (timestamped df))
    /\ (has_column loaded "Year" = false ->
        grand_total (monthly_groups daily) = length (timestamped df)).
Proof.
  intros Hok H Hy Hm.
  destruct (daily_counts_perm H Hy Hm) as (ts & daily & Hts & Hdaily & Hp).
  exists ts, daily.
  assert (forall k c, In (k, c) daily ->
            1 <= c /\ c = length (filter (has_key k) (timestamped df))
            /\ exists r, In r (timestamped df) /\ date_key r = Some k) as Hentries.
  { intros k c Hin. apply (Permutation_in _ Hp) in Hin.
    destruct (In_tally Key3_eqb_spec _ _ _ Hin) as (Hc & Hpos & Hk).
    split; [exact Hpos|]. split.
    - rewrite Hc. apply occurrences_somes_map.
    - apply In_somes_map. exact Hk. }
  assert (NoDup (map fst daily)) as Hnodup.
  { eapply Permutation_NoDup; [apply Permutation_map; symmetry; exact Hp|].
    apply (NoDup_tally Key3_eqb_spec). }
  assert (forall m, 1 <= m <= 12 ->
            exists triples : list Key3,
              nth (m - 1) (monthly_groups daily) []
              = map (fun k => length (filter (has_key k) (timestamped df))) triples
              /\ NoDup triples
              /\ (forall k, In k triples <->
                    eq_int (snd (fst k)) (Z.of_nat m) = true
                    /\ exists r, In r (timestamped df) /\ date_key r = Some k))
    as Hview.
  { intros m Hrange.
    exists (map fst (filter (fun kc : Key3 * nat =>
                               eq_int (month_of_key kc) (Z.of_nat m)) daily)).
    split; [|split].
    - rewrite (monthly_groups_nth _ Hrange), map_map. apply map_ext_in.
      intros [k c] Hin. apply filter_In in Hin. destruct Hin as [Hin _].
      apply (Hentries k c Hin).
    - apply selected_keys_NoDup. exact Hnodup.
    - intro k. split.
      + intro Hin. apply in_map_iff in Hin. destruct Hin as ([k' c] & Hk & Hin).
        simpl in Hk. subst k'. apply filter_In in Hin. destruct Hin as [Hin Hmonth].
        split; [exact Hmonth|]. apply (Hentries k c Hin).
      + intros (Hmonth & r & Hr & Hk). apply in_map_iff.
        exists (k, occurrences Key3_eqb k (somes (map date_key (timestamped df)))).
        split; [reflexivity|]. apply filter_In. split; [|exact Hmonth].
        apply (Permutation_in _ (Permutation_sym Hp)).
        apply (tally_In Key3_eqb_spec).
        apply (somes_map_In _ _ _ Hr Hk). }
  assert (total daily = length (somes (map date_key (timestamped df)))) as Htotal.
  { rewrite (total_perm Hp). apply total_tally. }
  assert (dated_months df ->
          grand_total (monthly_groups daily) = length (timestamped df)) as Hexact.
  { intro Hdm. rewrite grand_total_monthly_groups, classes_total.
    - rewrite Htotal. apply somes_all.
      pose proof (timestamped_datetime H) as Ht. rewrite Forall_forall in *.
      intros r Hr. destruct (Ht r Hr) as [ns Hns].
      apply filter_In in Hr. destruct Hr as [Hr _].
      destruct (Hdm r ns Hr Hns) as (Hyear & m & _ & Hmonth).
      unfold date_key. rewrite Hns.
      apply notnull_spec in Hyear. rewrite Hyear, (eq_int_notnull _ _ Hmonth).
      discriminate.
    - intros [k c] Hin. destruct (Hentries k c Hin) as (_ & _ & r & Hr & Hk).
      destruct (date_key_Some _ Hk) as (ns & Hns & ->).
      apply filter_In in Hr. destruct Hr as [Hr _].
      destruct (Hdm r ns Hr Hns) as (_ & m & Hrange & Hmonth).
      apply (month_count_one _ Hrange). exact Hmonth. }
  split; [exact Hts|]. split; [exact Hdaily|]. split; [exact Hnodup|].
  split; [intros k c Hin; split; apply (Hentries k c Hin)|].
  split; [reflexivity|]. split; [exact Hview|].
  split; [|split; [|split]].
  - unfold monthly_groups. rewrite Forall_map. rewrite Forall_forall. intros m _.
    rewrite Forall_map. rewrite Forall_forall. intros [k c] Hin.
    apply filter_In in Hin. destruct Hin as [Hin _]. apply (Hentries k c Hin).
  - rewrite grand_total_monthly_groups.
    etransitivity; [apply classes_total_le|].
    + intros kc _. apply month_count_le_one.
    + rewrite Htotal. apply somes_length_le.
  - exact Hexact.
  - intro Hly. apply Hexact.
    destruct (has_column loaded "IncidentDate") eqn:Hc.
    + exact (normalized_dated_months _ Hok Hly Hc).
    + exfalso. unfold ensure_temporal_fields in Hok. rewrite Hly, Hc in Hok.
      cbn [negb andb] in Hok. inversion Hok; subst df. congruence.
Qed.

(* ================================================================= *)
(** * The script as a whole *)

Lemma has_column_In (df : DataFrame) (c : string) :
  has_column df c = true <-> In c (columns df).
Proof.
  unfold has_column. rewrite existsb_exists. split.
  - intros (x & Hx & He). apply String.eqb_eq in He. subst. exact Hx.
  - intro H. exists c. split; [exact H|apply String.eqb_refl].
Qed.

Lemma find_None (A : Type) (p : A -> bool) (l : list A) :
  (forall a, In a l -> p a = false) -> find p l = None.
Proof.
  induction l as [|a l IH]; simpl; intro H; [reflexivity|].
  rewrite (H a (or_introl eq_refl)). apply IH. intros b Hb. apply H. right. exact Hb.
Qed.


Lemma column_of_with_temporal_fields (p : Value -> bool) (loaded df : DataFrame) (c : string) :
  rows df = map with_temporal_fields (rows loaded) ->
  (forall c', has_column df c'
              = has_column loaded c' || existsb (String.eqb c') temporal_names) ->
  ~ In c temporal_names ->
  column_of p loaded c -> column_of p df c.
Proof.
  intros Hrows Hcols Hc [Hh Hall]. split.
  - rewrite Hcols, Hh. reflexivity.
  - rewrite Hrows, Forall_map. eapply Forall_impl; [|exact Hall].
    intros r Hr. rewrite (with_temporal_fields_other _ Hc). exact Hr.
Qed.

(** What the rest of the script finds after lines 22-27 on a valid input. *)
Lemma normalizer_valid (loaded : DataFrame) :
  valid_input loaded ->
  exists df,
    ensure_temporal_fields loaded = Ok df
    /\ has_column df "Primary Type" = true
    /\ has_column df "Location Description" = true
    /\ column_of is_bool df "Arrest"
    /\ column_of datetimelike df "IncidentDate"
    /\ has_column df "Year" = true
    /\ has_column df "Month" = true
    /\ has_column df "Weekday" = true
    /\ column_of is_number df "Hour"
    /\ (forall c, has_column df c = true ->
          has_column loaded c = true \/ In c temporal_names).
Proof.
  intros (Hp & Hl & Ha & Hd & Hown).
  destruct (has_column loaded "Year") eqn:Hy.
  - destruct (Hown eq_refl) as (Hm & Hw & Hh).
    exists loaded. rewrite (ensure_temporal_fields_skips _ Hy).
    repeat split; try assumption; try apply Ha; try apply Hd; try apply Hh. auto.
  - destruct (ensure_temporal_fields_Ok Hy Hd) as (df & Hdf & Hrows & Hcols & _).
    exists df. split; [exact Hdf|].
    assert (forall c, ~ In c temporal_names -> has_column loaded c = true ->
              has_column df c = true) as Hkeep.
    { intros c _ Hc. rewrite Hcols, Hc. reflexivity. }
    assert (forall c, In c temporal_names -> has_column df c = true) as Hnew.
    { intros c Hc. rewrite Hcols. apply orb_true_iff. right.
      apply existsb_exists. exists c. split; [exact Hc|apply String.eqb_refl]. }
    split; [apply Hkeep; [simpl; intuition discriminate|exact Hp]|].
    split; [apply Hkeep; [simpl; intuition discriminate|exact Hl]|].
    split; [apply (column_of_with_temporal_fields _ Hrows Hcols);
            [simpl; intuition discriminate|exact Ha]|].
    split; [apply (column_of_with_temporal_fields _ Hrows Hcols);
            [simpl; intuition discriminate|exact Hd]|].
    split; [apply Hnew; simpl; auto|].
    split; [apply Hnew; simpl; auto|].
    split; [apply Hnew; simpl; auto 6|].
    split.
    + split; [apply Hnew; simpl; auto 6|].
      rewrite Hrows, Forall_map. rewrite Forall_forall. intros r _.
      destruct (with_temporal_fields_derived r) as (_ & _ & _ & -> & _).
      destruct (as_ns (r "IncidentDate")); reflexivity.
    + intros c Hc. rewrite Hcols in Hc. apply orb_true_iff in Hc.
      destruct Hc as [Hc|Hc]; [left; exact Hc|right].
      apply existsb_exists in Hc. destruct Hc as (x & Hx & He).
      apply String.eqb_eq in He. subst. exact Hx.
Qed.

(** Line 71 on a numeric [Hour] column. *)
Lemma hourly_value (int_of_str : string -> result Z) (df : DataFrame) :
  column_of is_number df "Hour" ->
  hourly int_of_str df = Ok (histogram24 (hours_of df)).
Proof.
  intros [Hc Hn]. unfold hourly, hours_of. rewrite (getitem_Ok _ _ Hc). cbn [bind].
  rewrite (@mapM_Ok _ _ (astype_int int_of_str) int_value); [reflexivity|].
  unfold dropna. rewrite Forall_forall. intros v Hv.
  apply filter_In in Hv. destruct Hv as [Hv Hnn].
  apply in_map_iff in Hv. destruct Hv as (r & <- & Hr).
  rewrite Forall_forall in Hn. specialize (Hn r Hr).
  destruct (r "Hour"); simpl in *; try discriminate; reflexivity.
Qed.


Section ScriptFacts.

Variable RandomState : Type.
Variable seed_state : Z -> RandomState.
Variable choice : RandomState -> nat -> nat -> list nat * RandomState.
Variable Grid : Type.
Variable hexbin : list Value -> list Value -> nat -> result Grid.
Variable int_of_str : string -> result Z.

Local Abbreviation run := (run_pipeline seed_state choice hexbin int_of_str).
Local Abbreviation scatter := (sample_scatter seed_state choice).

Lemma hourly_Ok (df : DataFrame) :
  column_of is_number df "Hour" ->
  exists hours, hourly int_of_str df = Ok hours /\ length hours = 24.
Proof.
  intros [Hc Hn]. unfold hourly. rewrite (getitem_Ok _ _ Hc). cbn [bind].
  rewrite (@mapM_Ok _ _ (astype_int int_of_str)
             (fun v => match v with
                       | VInt z => z
                       | VFloat q => Z.quot (Qnum q) (Zpos (Qden q))
                       | _ => 0%Z
                       end)).
  - cbn [bind]. eexists. split; [reflexivity|]. reflexivity.
  - unfold dropna. rewrite Forall_forall. intros v Hv.
    apply filter_In in Hv. destruct Hv as [Hv Hnn].
    apply in_map_iff in Hv. destruct Hv as (r & <- & Hr).
    rewrite Forall_forall in Hn. specialize (Hn r Hr).
    destruct (r "Hour"); simpl in *; try discriminate; reflexivity.
Qed.

(** *** No hidden state *)

Lemma stateless_lift (A : Type) (r : result A) : stateless (@lift RandomState A r).
Proof. exists r. reflexivity. Qed.

Lemma stateless_ret (A : Type) (a : A) : stateless (@ret RandomState A a).
Proof. exists (Ok a). reflexivity. Qed.

Lemma stateless_bindM (A B : Type) (m : M RandomState A) (k : A -> M RandomState B) :
  stateless m -> (forall a, stateless (k a)) -> stateless (bindM m k).
Proof.
  intros [r Hm] Hk. destruct r as [a|e].
  - destruct (Hk a) as [rb Hb]. exists rb. intro w. unfold bindM. rewrite Hm. apply Hb.
  - exists (Raise e). intro w. unfold bindM. rewrite Hm. reflexivity.
Qed.

Lemma stateless_sample (rs : list Row) (n random_state : Z) :
  stateless (sample seed_state choice rs n random_state).
Proof.
  unfold sample.
  destruct (n <=? Z.of_nat (length rs))%Z; eexists; intro w; reflexivity.
Qed.

Lemma stateless_sample_scatter (df : DataFrame) (lat lon : string) :
  stateless (scatter df lat lon).
Proof.
  unfold sample_scatter. apply stateless_bindM; [apply stateless_lift|].
  intro d. apply stateless_sample.
Qed.

Lemma stateless_spatial (df : DataFrame) :
  stateless (spatial seed_state choice hexbin df).
Proof.
  unfold spatial.
  destruct (lat_col df) as [lat|]; [|apply stateless_ret].
  destruct (lon_col df) as [lon|]; [|apply stateless_ret].
  destruct (truthy (Some lat) && truthy (Some lon)); [|apply stateless_ret].
  apply stateless_bindM; [apply stateless_sample_scatter|]. intro s.
  apply stateless_bindM; [apply stateless_lift|]. intro g. apply stateless_ret.
Qed.

Lemma stateless_run_pipeline (loaded : DataFrame) : stateless (run loaded).
Proof.
  unfold run_pipeline.
  repeat (apply stateless_bindM; [apply stateless_lift|intro]).
  apply stateless_bindM; [apply stateless_spatial|intro].
  apply stateless_bindM; [apply stateless_lift|intro].
  apply stateless_ret.
Qed.

(** C2.  Two runs of the script on one table give the same views (or stop
    at the same exception), from whatever state the interpreter is in,
    and a run leaves that state as it found it, so that a second run
    right after the first repeats it; the same holds of the spatial
    sampler alone, whose generator is built from the fixed seed. *)
Theorem pipeline_deterministic (loaded : DataFrame) (lat lon : string)
    (w w' : World RandomState) :
  fst (run loaded w) = fst (run loaded w')
  /\ snd (run loaded w) = w
  /\ fst (run loaded (snd (run loaded w))) = fst (run loaded w)
  /\ fst (scatter loaded lat lon w) = fst (scatter loaded lat lon w')
  /\ snd (scatter loaded lat lon w) = w.
Proof.
  destruct (stateless_run_pipeline loaded) as [r Hr].
  destruct (stateless_sample_scatter loaded lat lon) as [s Hs].
  rewrite !Hr, !Hs. repeat split.
Qed.

(** *** The spatial sample (lines 96-97) *)

Lemma sample_scatter_run (df : DataFrame) (lat lon : string) (w : World RandomState) :
  has_column df lat = true -> has_column df lon = true ->
  scatter df lat lon w
  = sample seed_state choice (geotagged df lat lon)
           (Z.min 20000 (Z.of_nat (len df))) 1 w.
Proof.
  intros Hlat Hlon. unfold sample_scatter, dropna_subset. cbn [find].
  rewrite Hlat, Hlon. cbn [negb]. unfold bindM, lift. cbn [rows].
  unfold geotagged.
  rewrite (filter_ext _ (fun r : Row => notnull (r lat) && notnull (r lon))).
  - reflexivity.
  - intro r. cbn [forallb]. rewrite andb_true_r. reflexivity.
Qed.

(** The sample is drawn if and only if the rows with both coordinates are
    at least as many as [min(20000, len(df))], the number asked for. *)
Lemma sample_scatter_succeeds_iff (df : DataFrame) (lat lon : string)
    (w : World RandomState) :
  has_column df lat = true -> has_column df lon = true ->
  ((exists s, fst (scatter df lat lon w) = Ok s)
   <-> (Z.min 20000 (Z.of_nat (len df)) <= Z.of_nat (length (geotagged df lat lon)))%Z).
Proof.
  intros Hlat Hlon. rewrite (@sample_scatter_run df lat lon w Hlat Hlon). unfold sample.
  destruct (Z.leb_spec (Z.min 20000 (Z.of_nat (len df)))
                       (Z.of_nat (length (geotagged df lat lon)))) as [Hle|Hgt];
    cbn [fst]; split; intro H.
  - exact Hle.
  - eexists. reflexivity.
  - destruct H as [s Hs]. discriminate.
  - lia.
Qed.

Section Draw.

(** What numpy promises of a draw without replacement: as many positions as
    asked for, all different, all below the population. *)
Hypothesis choice_spec : forall g population size,
  size <= population ->
  length (fst (choice g population size)) = size
  /\ NoDup (fst (choice g population size))
  /\ Forall (fun i => i < population) (fst (choice g population size)).

(** When enough rows have both coordinates, the sample holds
    [min(20000, len(df))] of them, each position drawn once. *)
Lemma sample_scatter_drawn (df : DataFrame) (lat lon : string) (w : World RandomState) :
  has_column df lat = true -> has_column df lon = true ->
  (Z.min 20000 (Z.of_nat (len df)) <= Z.of_nat (length (geotagged df lat lon)))%Z ->
  exists positions,
    fst (scatter df lat lon w)
    = Ok (map (fun i => nth i (geotagged df lat lon) (fun _ => NA)) positions)
    /\ Z.of_nat (length positions) = Z.min 20000 (Z.of_nat (len df))
    /\ NoDup positions
    /\ Forall (fun i => i < length (geotagged df lat lon)) positions.
Proof.
  intros Hlat Hlon Hle. rewrite (@sample_scatter_run df lat lon w Hlat Hlon).
  unfold sample. apply Z.leb_le in Hle. rewrite Hle. cbn [fst]. apply Z.leb_le in Hle.
  eexists. split; [reflexivity|].
  destruct (choice_spec (seed_state 1) (population := length (geotagged df lat lon))
              (size := Z.to_nat (Z.min 20000 (Z.of_nat (len df))))) as (Hlen & Hnd & Hlt).
  - lia.
  - rewrite Hlen. split; [lia|]. split; assumption.
Qed.

End Draw.

(** C1, at the table [null_coordinate].  Both coordinate columns are
    found and one of the two rows has both coordinates, yet line 97 asks
    the one remaining row for [min(20000, len(df)) = 2] rows: the sample
    is not drawn and the script stops with a [ValueError]. *)
Theorem sample_scatter_null_coordinate (w : World RandomState) :
  lat_col null_coordinate = Some "Latitude"
  /\ lon_col null_coordinate = Some "Longitude"
  /\ length (geotagged null_coordinate "Latitude" "Longitude") = 1
  /\ Z.min 20000 (Z.of_nat (len null_coordinate)) = 2%Z
  /\ fst (scatter null_coordinate "Latitude" "Longitude" w) = Raise ValueError
  /\ fst (run null_coordinate w) = Raise ValueError.
Proof. repeat split; vm_compute; reflexivity. Qed.

(** *** Tables without coordinate columns *)


Lemma bindM_lift_Ok (A B : Type) (a : A) (k : A -> M RandomState B)
    (w : World RandomState) :
  bindM (lift (Ok a)) k w = k a w.
Proof. reflexivity. Qed.



End ScriptFacts.

(* ================================================================= *)
(** * The theorems on the sample tables *)

Lemma incidents_2015_datetime : column_of datetimelike incidents_2015 "IncidentDate".
Proof. split; [reflexivity|]. repeat constructor. Defined.

Lemma incidents_2015_valid : valid_input incidents_2015.
Proof.
  split; [reflexivity|]. split; [reflexivity|].
  split; [split; [reflexivity|repeat constructor]|].
  split; [exact incidents_2015_datetime|].
  intro H. discriminate H.
Defined.

Lemma category_count_views_ranked_witness :
  exists top locs,
    top_primary incidents_2015 = Ok top /\ loc_top10 incidents_2015 = Ok locs
    /\ length top <= 10 /\ length locs <= 10
    /\ total top <= len incidents_2015 /\ total locs <= len incidents_2015.
Proof.
  destruct (@category_count_views_ranked incidents_2015 eq_refl eq_refl)
    as (top & locs & Htop & Hlocs & H).
  exists top, locs.
  destruct (H "Primary Type" top (or_introl (conj eq_refl eq_refl))) as (H1 & _ & _ & H2).
  destruct (H "Location Description" locs (or_intror (conj eq_refl eq_refl)))
    as (H3 & _ & _ & H4).
  repeat split; assumption.
Defined.

Lemma hundred_incidents_bool : column_of is_bool hundred_incidents "Arrest".
Proof.
  split; [reflexivity|]. apply Forall_forall. apply forallb_forall. reflexivity.
Defined.

Lemma arrest_rate_by_category_witness :
  exists rate,
    arrest_rate hundred_incidents [(VStr "THEFT", 60); (VStr "BATTERY", 40)] = Ok rate
    /\ map fst rate = [VStr "THEFT"; VStr "BATTERY"]
    /\ In (VStr "THEFT", VFloat (1 # 2)) rate.
Proof.
  destruct (@arrest_rate_by_category hundred_incidents
              [(VStr "THEFT", 60); (VStr "BATTERY", 40)]
              eq_refl hundred_incidents_bool eq_refl)
    as (rate & Hrate & Hkeys & _ & Hex).
  exists rate. split; [exact Hrate|]. split; [exact Hkeys|].
  apply Hex; reflexivity.
Defined.

Lemma cumulative_series_witness :
  exists ts mon,
    df_ts incidents_2015 = Ok ts /\ monthly ts = Ok mon
    /\ map fst (cum mon) = map fst mon
    /\ StronglySorted le (map snd (cum mon))
    /\ total mon = 4.
Proof.
  destruct (cumulative_series incidents_2015_datetime)
    as (ts & mon & Hts & Hmon & Hkeys & _ & Hsorted & Htotal & _).
  exists ts, mon. repeat split; assumption.
Defined.

Lemma monthly_time_series_witness :
  exists ts mon,
    df_ts incidents_2015 = Ok ts /\ monthly ts = Ok mon
    /\ exists a b,
         mon = [(VTime 1420070400000000000, a); (VTime 1425168000000000000, b)].
Proof.
  destruct (monthly_time_series incidents_2015_datetime)
    as (ts & mon & Hts & Hmon & _ & _ & _ & _ & Hex).
  exists ts, mon. split; [exact Hts|]. split; [exact Hmon|].
  apply Hex.
  - intros r ns Hr Hns. simpl in Hr.
    destruct Hr as [<-|[<-|[<-|[<-|[<-|[]]]]]]; vm_compute in Hns;
      try discriminate Hns; inversion Hns; subst ns; vm_compute; auto.
  - eexists. eexists. split; [left; reflexivity|]. split; reflexivity.
  - eexists. eexists. split; [right; left; reflexivity|]. split; reflexivity.
Defined.

Lemma temporal_fields_derived_witness :
  exists df,
    ensure_temporal_fields incidents_2015 = Ok df
    /\ columns df = columns incidents_2015 ++ temporal_names
    /\ length (rows df) = length (rows incidents_2015).
Proof.
  assert (forall c, In c temporal_names -> has_column incidents_2015 c = false) as Habs.
  { intros c [<-|[<-|[<-|[<-|[<-|[]]]]]]; reflexivity. }
  destruct (temporal_fields_derived incidents_2015_datetime Habs)
    as (df & Hdf & Hcols & Hrows).
  exists df. split; [exact Hdf|]. split; [exact Hcols|].
  symmetry. apply (Forall2_length Hrows).
Defined.

Lemma weekday_distribution_witness :
  exists df wc,
    ensure_temporal_fields incidents_2015 = Ok df
    /\ weekday_counts df = Ok wc
    /\ map fst wc = map VStr weekday_order
    /\ total wc = length (dropna (map (fun r => r "Weekday") (rows df))).
Proof.
  destruct (@ensure_temporal_fields_Ok incidents_2015 eq_refl incidents_2015_datetime)
    as (df & Hdf & _ & Hcols & _).
  assert (has_column df "Weekday" = true) as Hw by (rewrite Hcols; reflexivity).
  destruct (weekday_distribution _ Hdf Hw) as (wc & Hwc & Hkeys & _ & _ & _ & _ & Hsum).
  exists df, wc. split; [exact Hdf|]. split; [exact Hwc|]. split; [exact Hkeys|].
  apply Hsum; reflexivity.
Defined.

Lemma daily_counts_by_month_witness :
  exists df ts daily,
    ensure_temporal_fields incidents_2015 = Ok df
    /\ df_ts df = Ok ts /\ daily_counts ts = Ok daily
    /\ NoDup (map fst daily)
    /\ grand_total (monthly_groups daily) = length (timestamped df).
Proof.
  destruct (normalizer_valid incidents_2015_valid)
    as (df & Hdf & _ & _ & _ & Hd & Hy & Hm & _).
  destruct (daily_counts_by_month _ Hdf Hd Hy Hm)
    as (ts & daily & Hts & Hdaily & Hnd & _ & _ & _ & _ & _ & _ & Hsum).
  exists df, ts, daily. repeat split; try assumption.
  apply Hsum. reflexivity.
Defined.


(** The script on [incidents_2015], run. *)
Example incidents_2015_views :
  fst (run_pipeline (fun _ : Z => tt) first_positions no_grid no_int
         incidents_2015 {| np_random := tt |})
  = Ok {| v_top_primary := [(VStr "THEFT", 3); (VStr "BATTERY", 1)];
          v_arrest_rate := [(VStr "THEFT", VFloat (1 # 3)); (VStr "BATTERY", VFloat 0)];
          v_monthly := [(VTime 1420070400000000000, 2); (VTime 1425168000000000000, 2)];
          v_hourly := [1; 0; 0; 1; 0; 0; 0; 0; 0; 0; 1; 0;
                       0; 0; 0; 0; 0; 0; 0; 0; 0; 0; 0; 1];
          v_weekday_counts := [(VStr "Monday", 0); (VStr "Tuesday", 0);
                               (VStr "Wednesday", 0); (VStr "Thursday", 2);
                               (VStr "Friday", 1); (VStr "Saturday", 0);
                               (VStr "Sunday", 1)];
          v_loc_top10 := [(VStr "STREET", 3); (VStr "APARTMENT", 1)];
          v_spatial := None;
          v_cum := [(VTime 1420070400000000000, 2); (VTime 1425168000000000000, 4)];
          v_monthly_groups := [[2]; []; [1; 1]; []; []; []; []; []; []; []; []; []] |}.
Proof. vm_compute. reflexivity. Qed.

(** *** Where the specification and the script part *)

(** C9 as the specification words it fails on a date column the loader left
    as text: the [.dt] accessor raises, no field is added. *)
Lemma unparsed_dates_counterexample :
  has_column unparsed_dates "IncidentDate" = true
  /\ (forall c, In c temporal_names -> has_column unparsed_dates c = false)
  /\ ensure_temporal_fields unparsed_dates = Raise AttributeError
  /\ ~ (exists df, ensure_temporal_fields unparsed_dates = Ok df).
Proof.
  split; [reflexivity|]. split; [|split].
  - intros c [<-|[<-|[<-|[<-|[<-|[]]]]]]; reflexivity.
  - reflexivity.
  - intros [df H]. vm_compute in H. discriminate H.
Qed.

(** C5 as the specification words it fails on a table that brings its own
    [Weekday] column with other names in it: the normalizer leaves the table
    as it is, the seven counts add up to 0, one row has a weekday. *)
Lemma abbreviated_weekdays_counterexample :
  ensure_temporal_fields abbreviated_weekdays = Ok abbreviated_weekdays
  /\ exists wc,
       weekday_counts abbreviated_weekdays = Ok wc
       /\ length wc = 7
       /\ total wc = 0
       /\ length (dropna (map (fun r => r "Weekday") (rows abbreviated_weekdays))) = 1.
Proof.
  split; [reflexivity|]. eexists. split; [vm_compute; reflexivity|].
  repeat split.
Qed.

(** C10 as the specification words it fails on a table that brings its own
    [Month] column with a null in it: the row has a timestamp and is in
    none of the twelve sequences. *)
Lemma missing_month_counterexample :
  ensure_temporal_fields missing_month = Ok missing_month
  /\ exists ts daily,
       df_ts missing_month = Ok ts
       /\ daily_counts ts = Ok daily
       /\ grand_total (monthly_groups daily) = 0
       /\ length (timestamped missing_month) = 1.
Proof.
  split; [reflexivity|].
  destruct (@daily_counts_perm missing_month) as (ts & daily & Hts & Hdaily & Hp);
    [split; [reflexivity|repeat constructor]|reflexivity|reflexivity|].
  exists ts, daily. split; [exact Hts|]. split; [exact Hdaily|]. split; [|reflexivity].
  vm_compute in Hp. apply Permutation_sym in Hp. apply Permutation_nil in Hp.
  subst daily. reflexivity.
Qed.

(* ================================================================= *)
(** * Further properties of the script *)

(** ** The calendar fields *)

Lemma dt_hour_range (ns : Z) : (0 <= dt_hour ns <= 23)%Z.
Proof.
  unfold dt_hour, NS_PER_DAY, NS_PER_HOUR. Z.to_euclidean_division_equations; lia.
Qed.

Lemma dt_day_range (ns : Z) : (1 <= dt_day ns <= 31)%Z.
Proof.
  unfold dt_day. generalize (days_of ns). intro d.
  unfold civil_from_days. cbn [fst snd].
  set (z := (d + 719468)%Z).
  set (era := (z / 146097)%Z).
  set (doe := (z - era * 146097)%Z).
  assert (0 <= doe < 146097)%Z as Hdoe.
  { unfold doe, era. pose proof (Z.mod_pos_bound z 146097 ltac:(lia)) as H.
    rewrite Z.mod_eq in H by lia. lia. }
  clearbody doe. clear z era.
  set (yoe := ((doe - doe / 1460 + doe / 36524 - doe / 146096) / 365)%Z).
  set (doy := (doe - (365 * yoe + yoe / 4 - yoe / 100))%Z).
  assert (0 <= doy <= 365)%Z as Hdoy.
  { unfold doy, yoe. Z.to_euclidean_division_equations; lia. }
  clearbody doy.
  Z.to_euclidean_division_equations; lia.
Qed.

(** The day number of a date given by era, year of era and shifted month. *)
Lemma days_from_civil_parts (era yoe mp dd : Z) :
  (0 <= yoe <= 399)%Z -> (0 <= mp <= 11)%Z ->
  days_from_civil
    (if (if mp <? 10 then mp + 3 else mp - 9) <=? 2
     then yoe + era * 400 + 1 else yoe + era * 400)%Z
    (if mp <? 10 then mp + 3 else mp - 9)%Z dd
  = (era * 146097 + (yoe * 365 + yoe / 4 - yoe / 100 + ((153 * mp + 2) / 5 + dd - 1))
     - 719468)%Z.
Proof.
  intros Hyoe Hmp. unfold days_from_civil. cbv zeta.
  assert ((yoe + era * 400) / 400 = era)%Z as He
      by (Z.to_euclidean_division_equations; lia).
  destruct (Z.ltb_spec mp 10) as [Hlt|Hge].
  - rewrite (proj2 (Z.leb_gt (mp + 3) 2)) by lia.
    rewrite (proj2 (Z.ltb_lt 2 (mp + 3))) by lia.
    rewrite He.
    replace (mp + 3 - 3)%Z with mp by lia.
    replace (yoe + era * 400 - era * 400)%Z with yoe by lia. lia.
  - rewrite (proj2 (Z.leb_le (mp - 9) 2)) by lia.
    rewrite (proj2 (Z.ltb_ge 2 (mp - 9))) by lia.
    replace (yoe + era * 400 + 1 - 1)%Z with (yoe + era * 400)%Z by lia.
    rewrite He.
    replace (mp - 9 + 9)%Z with mp by lia.
    replace (yoe + era * 400 - era * 400)%Z with yoe by lia. lia.
Qed.

(** Date of a day number, then day number of that date. *)
Lemma days_from_civil_from_days (d : Z) :
  days_from_civil (fst (fst (civil_from_days d))) (snd (fst (civil_from_days d)))
                  (snd (civil_from_days d)) = d.
Proof.
  unfold civil_from_days. cbv zeta. cbn [fst snd].
  set (z := (d + 719468)%Z).
  set (era := (z / 146097)%Z).
  set (doe := (z - era * 146097)%Z).
  assert (0 <= doe < 146097)%Z as Hdoe.
  { unfold doe, era. pose proof (Z.mod_pos_bound z 146097 ltac:(lia)) as H.
    rewrite Z.mod_eq in H by lia. lia. }
  assert (d = era * 146097 + doe - 719468)%Z as Hd by (unfold doe, z; lia).
  clearbody doe. clearbody era. clear z.
  set (yoe := ((doe - doe / 1460 + doe / 36524 - doe / 146096) / 365)%Z).
  assert (0 <= yoe <= 399)%Z as Hyoe.
  { unfold yoe. Z.to_euclidean_division_equations; lia. }
  set (doy := (doe - (365 * yoe + yoe / 4 - yoe / 100))%Z).
  assert (doe = yoe * 365 + yoe / 4 - yoe / 100 + doy)%Z as Hdoe' by (unfold doy; lia).
  assert (0 <= doy <= 365)%Z as Hdoy.
  { unfold doy, yoe. Z.to_euclidean_division_equations; lia. }
  clearbody doy. clearbody yoe.
  set (mp := ((5 * doy + 2) / 153)%Z).
  assert (0 <= mp <= 11)%Z as Hmp.
  { unfold mp. Z.to_euclidean_division_equations; lia. }
  clearbody mp.
  rewrite days_from_civil_parts by assumption. lia.
Qed.

(** Day number of the first of a month, then the date of that day. *)
Lemma civil_from_days_first (y m : Z) :
  (1 <= m <= 12)%Z -> civil_from_days (days_from_civil y m 1) = (y, m, 1%Z).
Proof.
  intro Hm. unfold days_from_civil. cbv zeta.
  set (y' := (if m <=? 2 then y - 1 else y)%Z).
  set (mp := (if 2 <? m then m - 3 else m + 9)%Z).
  assert (0 <= mp <= 11)%Z as Hmp by (unfold mp; destruct (Z.ltb_spec 2 m); lia).
  set (era := (y' / 400)%Z).
  set (yoe := (y' - era * 400)%Z).
  assert (0 <= yoe <= 399)%Z as Hyoe.
  { unfold yoe, era. pose proof (Z.mod_pos_bound y' 400 ltac:(lia)) as H.
    rewrite Z.mod_eq in H by lia. lia. }
  assert (y' = yoe + era * 400)%Z as Hy' by (unfold yoe; lia).
  set (doy := ((153 * mp + 2) / 5 + 1 - 1)%Z).
  assert (0 <= doy <= 337)%Z as Hdoy by (unfold doy; Z.to_euclidean_division_equations; lia).
  assert ((5 * doy + 2) / 153 = mp)%Z as Hmp'.
  { unfold doy. Z.to_euclidean_division_equations; lia. }
  assert (doy - (153 * mp + 2) / 5 + 1 = 1)%Z as Hday by (unfold doy; lia).
  clearbody doy.
  set (doe := (yoe * 365 + yoe / 4 - yoe / 100 + doy)%Z).
  assert (0 <= doe < 146097)%Z as Hdoe by (unfold doe; Z.to_euclidean_division_equations; lia).
  assert ((doe - doe / 1460 + doe / 36524 - doe / 146096) / 365 = yoe)%Z as Hyoe'.
  { unfold doe. Z.to_euclidean_division_equations; lia. }
  assert (doe - (365 * yoe + yoe / 4 - yoe / 100) = doy)%Z as Hdoy' by (unfold doe; lia).
  clearbody doe. clearbody yoe. clearbody era.
  unfold civil_from_days. cbv zeta.
  replace (era * 146097 + doe - 719468 + 719468)%Z with (doe + era * 146097)%Z by lia.
  assert ((doe + era * 146097) / 146097 = era)%Z as He
      by (Z.to_euclidean_division_equations; lia).
  rewrite He.
  replace (doe + era * 146097 - era * 146097)%Z with doe by lia.
  rewrite Hyoe', Hdoy', Hmp', Hday.
  assert ((if mp <? 10 then mp + 3 else mp - 9) = m)%Z as Hm'.
  { unfold mp. destruct (Z.ltb_spec 2 m);
      [destruct (Z.ltb_spec (m - 3) 10)|destruct (Z.ltb_spec (m + 9) 10)]; lia. }
  rewrite Hm'. f_equal. f_equal.
  unfold y' in Hy'. destruct (Z.leb_spec m 2); lia.
Qed.

Lemma days_from_civil_day (y m d : Z) :
  days_from_civil y m d = (days_from_civil y m 1 + (d - 1))%Z.
Proof. unfold days_from_civil. cbv zeta. lia. Qed.

Lemma days_of_midnight (d : Z) : days_of (d * NS_PER_DAY) = d.
Proof. unfold days_of, NS_PER_DAY. apply Z.div_mul. discriminate. Qed.

Lemma period_start_days (ns : Z) :
  civil_from_days (days_of (period_start ns)) = (dt_year ns, dt_month ns, 1%Z).
Proof.
  unfold period_start. rewrite days_of_midnight.
  apply civil_from_days_first. apply dt_month_range.
Qed.

(** X1.  The month a timestamp is bucketed in (line 60) starts at midnight
    of the first day of the timestamp's own calendar month, at or before
    the timestamp; two timestamps get the same bucket exactly when they
    agree on year and month. *)
Theorem month_bucket_is_calendar_month (a b : Z) :
  dt_year (period_start a) = dt_year a
  /\ dt_month (period_start a) = dt_month a
  /\ dt_day (period_start a) = 1%Z
  /\ dt_hour (period_start a) = 0%Z
  /\ (period_start a <= a)%Z
  /\ period_start (period_start a) = period_start a
  /\ (period_start a = period_start b
      <-> dt_year a = dt_year b /\ dt_month a = dt_month b).
Proof.
  pose proof (period_start_days a) as Ha.
  assert (dt_year (period_start a) = dt_year a) as Hy
      by (unfold dt_year at 1; rewrite Ha; reflexivity).
  assert (dt_month (period_start a) = dt_month a) as Hm
      by (unfold dt_month at 1; rewrite Ha; reflexivity).
  split; [exact Hy|]. split; [exact Hm|].
  split; [unfold dt_day; rewrite Ha; reflexivity|].
  split.
  { unfold dt_hour, period_start. rewrite Z.mod_mul by discriminate. reflexivity. }
  split.
  { unfold period_start.
    pose proof (days_from_civil_from_days (days_of a)) as Hr.
    rewrite days_from_civil_day in Hr.
    fold (dt_year a) (dt_month a) (dt_day a) in Hr.
    pose proof (dt_day_range a) as Hd.
    assert (days_of a * NS_PER_DAY <= a)%Z as Hle.
    { unfold days_of, NS_PER_DAY. rewrite Z.mul_comm. apply Z.mul_div_le. lia. }
    unfold NS_PER_DAY in *. nia. }
  split.
  { unfold period_start at 1. rewrite Hy, Hm. reflexivity. }
  split.
  - intro Heq. pose proof (period_start_days b) as Hb.
    rewrite <- Heq, Ha in Hb. inversion Hb. split; reflexivity.
  - intros [Hy' Hm']. unfold period_start. rewrite Hy', Hm'. reflexivity.
Qed.

(** ** The normalizer *)

Lemma ensure_temporal_fields_derived_frame (loaded : DataFrame) :
  has_column loaded "Year" = false ->
  column_of datetimelike loaded "IncidentDate" ->
  ensure_temporal_fields loaded = Ok (derived_frame loaded).
Proof.
  intros Hy H. pose proof H as [Hc _].
  unfold ensure_temporal_fields. rewrite Hy, Hc. cbn [negb andb].
  rewrite (assign_dt_Ok _ _ H). cbn [bind].
  pose proof (@assigned_datetime loaded "Year" (fun ns => VInt (dt_year ns)) eq_refl H) as H1.
  rewrite (assign_dt_Ok _ _ H1). cbn [bind].
  pose proof (@assigned_datetime _ "Month" (fun ns => VInt (dt_month ns)) eq_refl H1) as H2.
  rewrite (assign_dt_Ok _ _ H2). cbn [bind].
  pose proof (@assigned_datetime _ "Day" (fun ns => VInt (dt_day ns)) eq_refl H2) as H3.
  rewrite (assign_dt_Ok _ _ H3). cbn [bind].
  pose proof (@assigned_datetime _ "Hour" (fun ns => VInt (dt_hour ns)) eq_refl H3) as H4.
  rewrite (assign_dt_Ok _ _ H4). reflexivity.
Qed.

Lemma rows_derived_frame (loaded : DataFrame) :
  rows (derived_frame loaded) = map with_temporal_fields (rows loaded).
Proof.
  unfold derived_frame, assigned. cbn [rows]. rewrite !map_map. reflexivity.
Qed.

Lemma columns_assigned (df : DataFrame) (c : string) (f : Z -> Value) :
  columns (assigned df c f) = columns df ++ (if has_column df c then [] else [c]).
Proof.
  unfold assigned. cbn [columns]. destruct (has_column df c); [|reflexivity].
  symmetry. apply app_nil_r.
Qed.

(** The labels lines 23-27 append: the temporal names the table lacked, in
    the order of the assignments. *)
Lemma columns_derived_frame (loaded : DataFrame) :
  columns (derived_frame loaded)
  = columns loaded ++ filter (fun c => negb (has_column loaded c)) temporal_names.
Proof.
  unfold derived_frame. rewrite !columns_assigned, !has_column_assigned.
  cbn [String.eqb Ascii.eqb Bool.eqb temporal_names filter].
  rewrite !orb_false_r, <- !app_assoc.
  destruct (has_column loaded "Year"), (has_column loaded "Month"),
    (has_column loaded "Day"), (has_column loaded "Hour"),
    (has_column loaded "Weekday"); reflexivity.
Qed.

Lemma NoDup_app_disjoint (A : Type) (l l' : list A) :
  NoDup l -> NoDup l' -> (forall a, In a l -> ~ In a l') -> NoDup (l ++ l').
Proof.
  intros Hl Hl' Hd. induction Hl as [|a l Hnin Hl IH]; simpl; [exact Hl'|].
  constructor.
  - intro Hin. apply in_app_or in Hin. destruct Hin as [Hin|Hin]; [contradiction|].
    apply (Hd a (or_introl eq_refl) Hin).
  - apply IH. intros b Hb. apply Hd. right. exact Hb.
Qed.

(** X2.  On a table without a [Year] column the normalizer computes all
    five temporal fields from the timestamp, also those the table already
    had: such a column is overwritten in place, the missing ones are
    appended in the order Year, Month, Day, Hour, Weekday, no label ends up
    twice, every other cell is kept and no row is dropped or moved. *)
Theorem normalizer_recomputes_fields (loaded : DataFrame) :
  has_column loaded "Year" = false ->
  column_of datetimelike loaded "IncidentDate" ->
  NoDup (columns loaded) ->
  exists df,
    ensure_temporal_fields loaded = Ok df
    /\ columns df
       = columns loaded ++ filter (fun c => negb (has_column loaded c)) temporal_names
    /\ NoDup (columns df)
    /\ Forall2
         (fun r r' : Row =>
            r' "Year" = dt_field (fun ns => VInt (dt_year ns)) (as_ns (r "IncidentDate"))
            /\ r' "Month" = dt_field (fun ns => VInt (dt_month ns)) (as_ns (r "IncidentDate"))
            /\ r' "Day" = dt_field (fun ns => VInt (dt_day ns)) (as_ns (r "IncidentDate"))
            /\ r' "Hour" = dt_field (fun ns => VInt (dt_hour ns)) (as_ns (r "IncidentDate"))
            /\ r' "Weekday"
               = dt_field (fun ns => VStr (dt_day_name ns)) (as_ns (r "IncidentDate"))
            /\ (forall c, ~ In c temporal_names -> r' c = r c))
         (rows loaded) (rows df).
Proof.
  intros Hy H Hnd. exists (derived_frame loaded).
  split; [apply ensure_temporal_fields_derived_frame; assumption|].
  split; [apply columns_derived_frame|]. split.
  - rewrite columns_derived_frame. apply NoDup_app_disjoint; [exact Hnd| |].
    + apply NoDup_filter. repeat constructor; simpl; intuition discriminate.
    + intros c Hc Hin. apply filter_In in Hin. destruct Hin as [_ Hin].
      apply has_column_In in Hc. rewrite Hc in Hin. discriminate.
  - rewrite rows_derived_frame. apply Forall2_map_self. intro r.
    destruct (with_temporal_fields_derived r) as (H1 & H2 & H3 & H4 & H5 & _).
    repeat split; try assumption.
    intros c Hc. apply with_temporal_fields_other. exact Hc.
Qed.

Lemma dt_raises (s : list Value) :
  Exists (fun v => datetimelike v = false) s -> dt s = Raise AttributeError.
Proof.
  unfold dt. induction s as [|v s IH]; intro H; [inversion H|].
  simpl. destruct v; simpl; try reflexivity.
  - rewrite IH; [reflexivity|]. inversion H; subst; [discriminate|assumption].
  - rewrite IH; [reflexivity|]. inversion H; subst; [discriminate|assumption].
Qed.

(** X3.  A timestamp column holding anything but timestamps and nulls (a
    date the loader left as text) stops the normalizer with an
    [AttributeError] whenever it has fields to derive: no partly derived
    table comes out. *)
Theorem unparsed_timestamp_raises (loaded : DataFrame) :
  has_column loaded "Year" = false ->
  has_column loaded "IncidentDate" = true ->
  Exists (fun r : Row => datetimelike (r "IncidentDate") = false) (rows loaded) ->
  ensure_temporal_fields loaded = Raise AttributeError.
Proof.
  intros Hy Hc Hbad. unfold ensure_temporal_fields. rewrite Hy, Hc. cbn [negb andb].
  assert (assign_dt loaded "Year" (fun ns => VInt (dt_year ns)) = Raise AttributeError)
    as ->; [|reflexivity].
  unfold assign_dt. rewrite (getitem_Ok _ _ Hc). cbn [bind].
  rewrite dt_raises; [reflexivity|].
  apply Exists_exists in Hbad. destruct Hbad as (r & Hr & Hv).
  apply Exists_exists. exists (r "IncidentDate"). split; [|exact Hv].
  apply in_map_iff. exists r. split; [reflexivity|exact Hr].
Qed.

(** ** Detection of the coordinate columns (lines 30-31) *)

Lemma lower_ascii_idem (a : ascii) : lower_ascii (lower_ascii a) = lower_ascii a.
Proof. destruct a as [[] [] [] [] [] [] [] []]; reflexivity. Qed.

Lemma lower_idem (s : string) : lower (lower s) = lower s.
Proof.
  induction s as [|a s IH]; simpl; [reflexivity|].
  rewrite lower_ascii_idem, IH. reflexivity.
Qed.

Lemma find_first (A : Type) (p : A -> bool) (l : list A) (c : A) :
  find p l = Some c ->
  exists before after,
    l = before ++ c :: after /\ p c = true /\ Forall (fun b => p b = false) before.
Proof.
  induction l as [|a l IH]; simpl; [discriminate|].
  destruct (p a) eqn:Ha.
  - intro H. inversion H; subst. exists [], l. repeat split; [exact Ha|constructor].
  - intro H. destruct (IH H) as (before & after & -> & Hc & Hb).
    exists (a :: before), after. repeat split; [exact Hc|constructor; assumption].
Qed.

Lemma find_None_iff (A : Type) (p : A -> bool) (l : list A) :
  find p l = None <-> Forall (fun a => p a = false) l.
Proof.
  split.
  - intro H. apply Forall_forall. intros a Ha. apply (find_none _ _ H a Ha).
  - intro H. apply find_None. apply Forall_forall. exact H.
Qed.

Lemma find_app (A : Type) (p : A -> bool) (l l' : list A) :
  find p (l ++ l') = match find p l with Some a => Some a | None => find p l' end.
Proof.
  induction l as [|a l IH]; simpl; [reflexivity|].
  destruct (p a); [reflexivity|exact IH].
Qed.

Lemma find_map_lower (p : string) (l : list string) :
  find (matches p) (map lower l) = option_map lower (find (matches p) l).
Proof.
  induction l as [|c l IH]; simpl; [reflexivity|].
  unfold matches at 1 3. rewrite lower_idem.
  destruct (startswith (lower c) p); [reflexivity|exact IH].
Qed.

(** X4.  The latitude column is the first column, in column order, whose
    label starts with "lat" once lowercased, and likewise the longitude
    column with "lon"; none is found exactly when no label does.  A found
    label is never empty, so the test of line 96 holds exactly when both
    were found; and only the lowercased labels matter. *)
Theorem coordinate_columns_first_match (df : DataFrame) :
  (forall c, lat_col df = Some c ->
     exists before after,
       columns df = before ++ c :: after /\ matches "lat" c = true
       /\ Forall (fun b => matches "lat" b = false) before /\ c <> "")
  /\ (forall c, lon_col df = Some c ->
        exists before after,
          columns df = before ++ c :: after /\ matches "lon" c = true
          /\ Forall (fun b => matches "lon" b = false) before /\ c <> "")
  /\ (lat_col df = None <-> Forall (fun c => matches "lat" c = false) (columns df))
  /\ (lon_col df = None <-> Forall (fun c => matches "lon" c = false) (columns df))
  /\ (truthy (lat_col df) && truthy (lon_col df) = true
      <-> lat_col df <> None /\ lon_col df <> None)
  /\ lat_col {| columns := map lower (columns df); rows := rows df |}
     = option_map lower (lat_col df)
  /\ lon_col {| columns := map lower (columns df); rows := rows df |}
     = option_map lower (lon_col df).
Proof.
  assert (forall p c, find (matches p) (columns df) = Some c -> p <> "" ->
            exists before after,
              columns df = before ++ c :: after /\ matches p c = true
              /\ Forall (fun b => matches p b = false) before /\ c <> "") as Hfirst.
  { intros p c H Hp. destruct (find_first _ _ H) as (before & after & Hcols & Hc & Hb).
    exists before, after. repeat split; try assumption.
    intro He. subst c. unfold matches, startswith in Hc. simpl in Hc.
    destruct p; [congruence|discriminate]. }
  assert (forall o : option string,
            (exists c, o = Some c /\ c <> "") \/ o = None ->
            (truthy o = true <-> o <> None)) as Htruthy.
  { intros o [(c & -> & Hc)| ->]; simpl.
    - destruct (String.eqb_spec c ""); [contradiction|]. split; [discriminate|reflexivity].
    - split; [discriminate|congruence]. }
  split; [intros c H; apply (Hfirst "lat" c H); discriminate|].
  split; [intros c H; apply (Hfirst "lon" c H); discriminate|].
  split; [apply (find_None_iff (matches "lat"))|].
  split; [apply (find_None_iff (matches "lon"))|].
  split.
  - rewrite andb_true_iff, !Htruthy; [reflexivity| |].
    + destruct (lon_col df) as [c|] eqn:E; [left|right; reflexivity].
      exists c. split; [reflexivity|].
      destruct (Hfirst "lon" c E) as (_ & _ & _ & _ & _ & Hc); [discriminate|exact Hc].
    + destruct (lat_col df) as [c|] eqn:E; [left|right; reflexivity].
      exists c. split; [reflexivity|].
      destruct (Hfirst "lat" c E) as (_ & _ & _ & _ & _ & Hc); [discriminate|exact Hc].
  - split; [apply (find_map_lower "lat")|apply (find_map_lower "lon")].
Qed.

Lemma ensure_temporal_fields_cases (loaded df : DataFrame) :
  ensure_temporal_fields loaded = Ok df ->
  df = loaded \/ df = derived_frame loaded.
Proof.
  intro Hok.
  destruct (has_column loaded "Year") eqn:Hy.
  - left. rewrite (ensure_temporal_fields_skips _ Hy) in Hok. congruence.
  - destruct (has_column loaded "IncidentDate") eqn:Hc.
    + right. pose proof (ensure_temporal_fields_inv _ Hok Hy Hc) as Hd.
      rewrite (ensure_temporal_fields_derived_frame Hy Hd) in Hok. congruence.
    + left. unfold ensure_temporal_fields in Hok. rewrite Hy, Hc in Hok.
      cbn [negb andb] in Hok. congruence.
Qed.

Lemma find_derived_frame (p : string) (loaded : DataFrame) :
  Forall (fun c => matches p c = false) temporal_names ->
  find (matches p) (columns (derived_frame loaded)) = find (matches p) (columns loaded).
Proof.
  intro Hp. rewrite columns_derived_frame, find_app.
  destruct (find (matches p) (columns loaded)); [reflexivity|].
  apply find_None. intros c Hc. apply filter_In in Hc. destruct Hc as [Hc _].
  rewrite Forall_forall in Hp. apply Hp. exact Hc.
Qed.

(** X5.  The normalizer does not change which columns are taken for the
    coordinates: detection after it (as the script does) finds what
    detection on the loaded table would. *)
Theorem detection_after_normalizer (loaded df : DataFrame) :
  ensure_temporal_fields loaded = Ok df ->
  lat_col df = lat_col loaded /\ lon_col df = lon_col loaded.
Proof.
  intro Hok. destruct (ensure_temporal_fields_cases _ Hok) as [-> | ->].
  - split; reflexivity.
  - split.
    + apply (find_derived_frame "lat"). repeat constructor.
    + apply (find_derived_frame "lon"). repeat constructor.
Qed.

(** ** The rankings (lines 40, 87) *)

Lemma StronglySorted_app_rel (A : Type) (R : A -> A -> Prop) (l1 l2 : list A) :
  StronglySorted R (l1 ++ l2) ->
  forall a b, In a l1 -> In b l2 -> R a b.
Proof.
  induction l1 as [|x l1 IH]; simpl; intros Hs a b Ha Hb; [contradiction|].
  inversion Hs as [|? ? Hs' Hall]; subst. destruct Ha as [->|Ha].
  - rewrite Forall_forall in Hall. apply Hall. apply in_or_app. right. exact Hb.
  - apply IH; assumption.
Qed.

(** What [.value_counts().head(10)] keeps and what it leaves out. *)
Lemma head_of_value_counts (s : list Value) :
  let view := head 10 (value_counts s) in
  NoDup (map fst view)
  /\ (forall k, In k s -> k <> NA -> ~ In k (map fst view) ->
        length view = 10
        /\ forall k' c', In (k', c') view -> occurrences Value_eqb k s <= c')
  /\ (length view < 10 ->
      (forall k, In k s -> k <> NA -> In k (map fst view))
      /\ total view = length (dropna s)).
Proof.
  cbv zeta. unfold head.
  assert (forall k, In k s -> k <> NA ->
            ~ In k (map fst (firstn 10 (value_counts s))) ->
            In (k, occurrences Value_eqb k s) (skipn 10 (value_counts s))) as Hrest.
  { intros k Hk Hne Hout. pose proof (In_value_counts _ Hk Hne) as Hin.
    rewrite <- (firstn_skipn 10 (value_counts s)) in Hin.
    apply in_app_or in Hin. destruct Hin as [Hin|Hin]; [|exact Hin].
    exfalso. apply Hout. apply (in_map fst) in Hin. exact Hin. }
  split; [|split].
  - pose proof (value_counts_NoDup s) as Hnd.
    rewrite <- (firstn_skipn 10 (value_counts s)), map_app in Hnd.
    apply NoDup_app_remove_r in Hnd. exact Hnd.
  - intros k Hk Hne Hout. pose proof (Hrest k Hk Hne Hout) as Hin. split.
    + rewrite length_firstn. apply Nat.min_l.
      destruct (Nat.le_gt_cases 10 (length (value_counts s))) as [Hle|Hlt]; [exact Hle|].
      rewrite skipn_all2 in Hin by lia. contradiction.
    + intros k' c' Hin'.
      pose proof (value_counts_sorted s) as Hs.
      rewrite <- (firstn_skipn 10 (value_counts s)) in Hs.
      apply (@StronglySorted_app_rel _ _ _ _ Hs _ _ Hin' Hin).
  - intros Hlen.
    rewrite length_firstn in Hlen.
    rewrite firstn_all2 by lia. split.
    + intros k Hk Hne. pose proof (In_value_counts _ Hk Hne) as Hin.
      apply (in_map fst) in Hin. exact Hin.
    + apply value_counts_total.
Qed.

(** X6.  Each ranking lists the most frequent categories: its categories
    are pairwise different; a non-null category of the column that is not
    listed is no more frequent than any listed one, and can only be left
    out of a full ranking of 10; a ranking shorter than 10 lists every
    non-null category of the column, and its counts add up to the number
    of non-null cells. *)
Theorem rankings_most_frequent (df : DataFrame) :
  has_column df "Primary Type" = true ->
  has_column df "Location Description" = true ->
  exists top locs,
    top_primary df = Ok top /\ loc_top10 df = Ok locs /\
    forall field view,
      (field = "Primary Type" /\ view = top)
      \/ (field = "Location Description" /\ view = locs) ->
      NoDup (map fst view)
      /\ (forall k, In k (map (fun r => r field) (rows df)) -> k <> NA ->
            ~ In k (map fst view) ->
            length view = 10
            /\ forall k' c', In (k', c') view ->
                 occurrences Value_eqb k (map (fun r => r field) (rows df)) <= c')
      /\ (length view < 10 ->
          (forall k, In k (map (fun r => r field) (rows df)) -> k <> NA ->
             In k (map fst view))
          /\ total view = length (dropna (map (fun r => r field) (rows df)))).
Proof.
  intros Hp Hl.
  exists (head 10 (value_counts (map (fun r => r "Primary Type") (rows df)))).
  exists (head 10 (value_counts (map (fun r => r "Location Description") (rows df)))).
  unfold top_primary, loc_top10. rewrite (getitem_Ok _ _ Hp), (getitem_Ok _ _ Hl).
  split; [reflexivity|]. split; [reflexivity|].
  intros field view [[-> ->]|[-> ->]]; apply head_of_value_counts.
Qed.

(** ** The hourly histogram (line 71) *)

Lemma histogram24_nth (xs : list Z) (i : nat) :
  i < 24 -> nth i (histogram24 xs) 0 = length (filter (in_bin i) xs).
Proof.
  intro Hi. unfold histogram24.
  rewrite (nth_indep _ 0 (length (filter (in_bin 0) xs)))
    by (rewrite length_map, length_seq; exact Hi).
  rewrite (map_nth (fun i => length (filter (in_bin i) xs)) (seq 0 24) 0 i).
  rewrite seq_nth by exact Hi. reflexivity.
Qed.

Lemma filter_none (A : Type) (p : A -> bool) (l : list A) :
  (forall a, In a l -> p a = false) -> filter p l = [].
Proof.
  induction l as [|a l IH]; simpl; intro H; [reflexivity|].
  rewrite (H a (or_introl eq_refl)). apply IH. intros b Hb. apply H. right. exact Hb.
Qed.

(** A value is in one bin when it lies in [0, 24], and in none otherwise. *)
Lemma bins_of_value (x : Z) :
  length (filter (fun i => in_bin i x) (seq 0 24))
  = if ((0 <=? x) && (x <=? 24))%Z then 1 else 0.
Proof.
  destruct (Z.leb_spec 0 x) as [H0|H0]; [destruct (Z.leb_spec x 24) as [H24|H24]|]; cbn [andb].
  - assert (x = 0 \/ x = 1 \/ x = 2 \/ x = 3 \/ x = 4 \/ x = 5 \/ x = 6 \/ x = 7 \/ x = 8
            \/ x = 9 \/ x = 10 \/ x = 11 \/ x = 12 \/ x = 13 \/ x = 14 \/ x = 15
            \/ x = 16 \/ x = 17 \/ x = 18 \/ x = 19 \/ x = 20 \/ x = 21 \/ x = 22
            \/ x = 23 \/ x = 24)%Z as Hcases by lia.
    repeat (destruct Hcases as [->|Hcases]; [reflexivity|]). subst x. reflexivity.
  - rewrite filter_none; [reflexivity|]. intros i Hi. apply in_seq in Hi. unfold in_bin.
    destruct (i =? 23).
    + apply andb_false_iff. right. apply Z.leb_gt. lia.
    + apply Z.eqb_neq. lia.
  - rewrite filter_none; [reflexivity|]. intros i Hi. apply in_seq in Hi. unfold in_bin.
    destruct (i =? 23).
    + apply andb_false_iff. left. apply Z.leb_gt. lia.
    + apply Z.eqb_neq. lia.
Qed.

Lemma histogram24_sum (xs : list Z) :
  list_sum (histogram24 xs)
  = length (filter (fun x => ((0 <=? x) && (x <=? 24))%Z) xs).
Proof.
  unfold histogram24. induction xs as [|x xs IH]; [reflexivity|].
  rewrite (map_ext _ (fun i => (if in_bin i x then 1 else 0)
                               + length (filter (in_bin i) xs))).
  - rewrite list_sum_map_add, list_sum_indicator, IH, bins_of_value.
    simpl. destruct ((0 <=? x) && (x <=? 24))%Z; simpl; lia.
  - intro i. simpl. destruct (in_bin i x); reflexivity.
Qed.

(** X7.  The hourly histogram of a numeric [Hour] column has 24 bins; bin
    [i] below 23 counts the non-null hours equal to [i]; the last bin
    counts the hours 23 and 24 together; hours below 0 or above 24 are
    counted nowhere, so the bins add up to the number of non-null hours
    between 0 and 24. *)
Theorem hourly_histogram (int_of_str : string -> result Z) (df : DataFrame) :
  column_of is_number df "Hour" ->
  exists hours,
    hourly int_of_str df = Ok hours
    /\ length hours = 24
    /\ (forall i, i < 23 ->
          nth i hours 0 = length (filter (Z.eqb (Z.of_nat i)) (hours_of df)))
    /\ nth 23 hours 0
       = length (filter (fun x => ((23 <=? x) && (x <=? 24))%Z) (hours_of df))
    /\ list_sum hours
       = length (filter (fun x => ((0 <=? x) && (x <=? 24))%Z) (hours_of df)).
Proof.
  intro H. exists (histogram24 (hours_of df)).
  split; [apply hourly_value; exact H|]. split; [reflexivity|]. split; [|split].
  - intros i Hi. rewrite histogram24_nth by lia.
    apply (f_equal (@length Z)). apply filter_ext. intro x. unfold in_bin.
    destruct (Nat.eqb_spec i 23); [lia|]. apply Z.eqb_sym.
  - rewrite histogram24_nth by lia. reflexivity.
  - apply histogram24_sum.
Qed.

(** ** The spatial sample (line 97) *)

Lemma filter_length_lt_iff (A : Type) (p : A -> bool) (l : list A) :
  length (filter p l) < length l <-> Exists (fun a => p a = false) l.
Proof.
  induction l as [|a l IH]; simpl.
  - split; [lia|intro H; inversion H].
  - pose proof (filter_length_le p l) as Hle.
    destruct (p a) eqn:Ha; simpl; split; intro H.
    + apply Exists_cons_tl. apply IH. lia.
    + inversion H; subst; [congruence|]. apply IH in H1. lia.
    + apply Exists_cons_hd. exact Ha.
    + lia.
Qed.

Lemma first_positions_spec (g : unit) (population size : nat) :
  size <= population ->
  length (fst (first_positions g population size)) = size
  /\ NoDup (fst (first_positions g population size))
  /\ Forall (fun i => i < population) (fst (first_positions g population size)).
Proof.
  intro Hle. unfold first_positions. cbn [fst]. split; [|split].
  - rewrite length_firstn, length_seq. lia.
  - pose proof (seq_NoDup population 0) as Hnd.
    rewrite <- (firstn_skipn size (seq 0 population)) in Hnd.
    apply NoDup_app_remove_r in Hnd. exact Hnd.
  - apply Forall_forall. intros i Hi. apply In_firstn in Hi. apply in_seq in Hi. lia.
Qed.

Section ScriptExtras.

Variable RandomState : Type.
Variable seed_state : Z -> RandomState.
Variable choice : RandomState -> nat -> nat -> list nat * RandomState.
Variable Grid : Type.
Variable hexbin : list Value -> list Value -> nat -> result Grid.
Variable int_of_str : string -> result Z.

Local Abbreviation run := (run_pipeline seed_state choice hexbin int_of_str).
Local Abbreviation scatter := (sample_scatter seed_state choice).

(** X8.  With both coordinate columns in the table, line 97 raises a
    [ValueError] exactly when fewer rows have both coordinates than
    [min(20000, len(df))]; for a table of at most 20000 rows that is as
    soon as one row lacks a coordinate. *)
Theorem sample_scatter_raises_iff (df : DataFrame) (lat lon : string)
    (w : World RandomState) :
  has_column df lat = true -> has_column df lon = true ->
  (fst (scatter df lat lon w) = Raise ValueError
   <-> (Z.of_nat (length (geotagged df lat lon)) < Z.min 20000 (Z.of_nat (len df)))%Z)
  /\ ((Z.of_nat (len df) <= 20000)%Z ->
      (fst (scatter df lat lon w) = Raise ValueError
       <-> Exists (fun r : Row => notnull (r lat) && notnull (r lon) = false) (rows df))).
Proof.
  intros Hlat Hlon.
  assert (fst (scatter df lat lon w) = Raise ValueError
          <-> (Z.of_nat (length (geotagged df lat lon)) < Z.min 20000 (Z.of_nat (len df)))%Z)
    as Hiff.
  { rewrite (@sample_scatter_run _ seed_state choice df lat lon w Hlat Hlon). unfold sample.
    destruct (Z.leb_spec (Z.min 20000 (Z.of_nat (len df)))
                         (Z.of_nat (length (geotagged df lat lon)))) as [Hle|Hgt];
      cbn [fst]; split; intro H; try discriminate; try lia; reflexivity. }
  split; [exact Hiff|].
  intro Hsmall. rewrite Hiff. unfold geotagged.
  rewrite <- filter_length_lt_iff. rewrite Z.min_r by exact Hsmall.
  unfold len. split; intro H; lia.
Qed.

Section Drawn.

Hypothesis choice_spec : forall g population size,
  size <= population ->
  length (fst (choice g population size)) = size
  /\ NoDup (fst (choice g population size))
  /\ Forall (fun i => i < population) (fst (choice g population size)).

(** X9.  When at least [min(20000, len(df))] rows have both coordinates
    (as when no row lacks one), the sample is drawn: it holds exactly that
    many rows, taken at pairwise different positions among the rows with
    both coordinates, so every sampled row is a row of the table with a
    latitude and a longitude. *)
Theorem sample_scatter_rows (df : DataFrame) (lat lon : string) (w : World RandomState) :
  has_column df lat = true -> has_column df lon = true ->
  (Z.min 20000 (Z.of_nat (len df)) <= Z.of_nat (length (geotagged df lat lon)))%Z ->
  exists positions s,
    fst (scatter df lat lon w) = Ok s
    /\ s = map (fun i => nth i (geotagged df lat lon) (fun _ => NA)) positions
    /\ NoDup positions
    /\ Z.of_nat (length s) = Z.min 20000 (Z.of_nat (len df))
    /\ Forall (fun r : Row => In r (rows df) /\ r lat <> NA /\ r lon <> NA) s.
Proof.
  intros Hlat Hlon Hle.
  destruct (@sample_scatter_drawn _ seed_state choice choice_spec df lat lon w Hlat Hlon Hle)
    as (positions & Hs & Hlen & Hnd & Hlt).
  exists positions. eexists. split; [exact Hs|]. split; [reflexivity|].
  split; [exact Hnd|]. split; [rewrite length_map; exact Hlen|].
  rewrite Forall_map. eapply Forall_impl; [|exact Hlt].
  intros i Hi. cbv beta.
  pose proof (nth_In (geotagged df lat lon) (fun _ => NA) Hi) as Hin.
  unfold geotagged in Hin at 2. apply filter_In in Hin. destruct Hin as [Hin Hnn].
  apply andb_true_iff in Hnn. destruct Hnn as [H1 H2].
  apply notnull_spec in H1. apply notnull_spec in H2. auto.
Qed.

End Drawn.

(** ** Where the script stops *)

Lemma has_column_derived_frame (loaded : DataFrame) (c : string) :
  has_column (derived_frame loaded) c
  = has_column loaded c || existsb (String.eqb c) temporal_names.
Proof.
  unfold derived_frame. rewrite !has_column_assigned. cbn [existsb temporal_names].
  rewrite orb_false_r, !orb_assoc. reflexivity.
Qed.

Lemma bindM_lift_Raise (A B : Type) (e : Exception) (k : A -> M RandomState B)
    (w : World RandomState) :
  bindM (lift (Raise e)) k w = (Raise e, w).
Proof. reflexivity. Qed.

(** X10.  No view comes out of a table without a [Primary Type] column:
    when the normalizer gets through, the script stops at line 40 with a
    [KeyError] for that label; otherwise it has stopped in the normalizer. *)
Theorem missing_primary_type_raises (loaded : DataFrame) (w : World RandomState) :
  has_column loaded "Primary Type" = false ->
  (forall df, ensure_temporal_fields loaded = Ok df ->
     fst (run loaded w) = Raise (KeyError (VStr "Primary Type")))
  /\ (forall e, ensure_temporal_fields loaded = Raise e -> fst (run loaded w) = Raise e)
  /\ (forall views, fst (run loaded w) <> Ok views).
Proof.
  intro Hp.
  assert (forall df, ensure_temporal_fields loaded = Ok df ->
            fst (run loaded w) = Raise (KeyError (VStr "Primary Type"))) as Hok.
  { intros df Hdf.
    assert (has_column df "Primary Type" = false) as Hp'.
    { destruct (ensure_temporal_fields_cases _ Hdf) as [-> | ->]; [exact Hp|].
      rewrite has_column_derived_frame, Hp. reflexivity. }
    unfold run_pipeline. rewrite Hdf, bindM_lift_Ok. cbv beta.
    unfold top_primary, getitem. rewrite Hp'. reflexivity. }
  assert (forall e, ensure_temporal_fields loaded = Raise e ->
            fst (run loaded w) = Raise e) as Herr.
  { intros e He. unfold run_pipeline. rewrite He. reflexivity. }
  split; [exact Hok|]. split; [exact Herr|].
  intros views Hv. destruct (ensure_temporal_fields loaded) as [df|e] eqn:E.
  - rewrite (Hok df eq_refl) in Hv. discriminate.
  - rewrite (Herr e eq_refl) in Hv. discriminate.
Qed.

(** X11.  The guard of line 22 looks at [Year] alone: a table that has a
    [Year] column but no [Hour] column gets no field derived, and the
    script, having produced the ranking, the arrest rate and the monthly
    series, stops at line 71 with a [KeyError] for [Hour]. *)
Theorem own_year_without_hour_raises (loaded : DataFrame) (w : World RandomState) :
  has_column loaded "Year" = true ->
  has_column loaded "Hour" = false ->
  has_column loaded "Primary Type" = true ->
  column_of is_bool loaded "Arrest" ->
  column_of datetimelike loaded "IncidentDate" ->
  ensure_temporal_fields loaded = Ok loaded
  /\ (exists top rate ts mon,
        top_primary loaded = Ok top /\ arrest_rate loaded top = Ok rate
        /\ df_ts loaded = Ok ts /\ monthly ts = Ok mon)
  /\ fst (run loaded w) = Raise (KeyError (VStr "Hour")).
Proof.
  intros Hy Hh Hp Ha Hd.
  pose proof (ensure_temporal_fields_skips _ Hy) as Hnorm.
  assert (top_primary loaded
          = Ok (head 10 (value_counts (map (fun r => r "Primary Type") (rows loaded)))))
    as Htop.
  { unfold top_primary. rewrite (getitem_Ok _ _ Hp). reflexivity. }
  pose proof (arrest_rate_Ok _ Hp Ha (top_primary_keys _ Hp Htop)) as Hrate.
  destruct (monthly_Ok Hd) as (ts & mon & Hts & Hmon & _).
  split; [exact Hnorm|]. split; [eauto 8|].
  unfold run_pipeline.
  rewrite Hnorm, bindM_lift_Ok. cbv beta.
  rewrite Htop, bindM_lift_Ok. cbv beta.
  rewrite Hrate, bindM_lift_Ok. cbv beta.
  rewrite Hts, bindM_lift_Ok. cbv beta.
  rewrite Hmon, bindM_lift_Ok. cbv beta.
  unfold hourly, getitem. rewrite Hh. reflexivity.
Qed.

End ScriptExtras.

(** ** What the views count on a table without temporal fields of its own *)

Lemma filter_map_comm (A B : Type) (f : A -> B) (p : B -> bool) (l : list A) :
  filter p (map f l) = map f (filter (fun a => p (f a)) l).
Proof.
  induction l as [|a l IH]; simpl; [reflexivity|].
  destruct (p (f a)); simpl; congruence.
Qed.

Lemma timestamped_derived_frame (loaded : DataFrame) :
  timestamped (derived_frame loaded) = map with_temporal_fields (timestamped loaded).
Proof.
  unfold timestamped. rewrite rows_derived_frame, filter_map_comm. reflexivity.
Qed.

Lemma derived_frame_datetime (loaded : DataFrame) :
  column_of datetimelike loaded "IncidentDate" ->
  column_of datetimelike (derived_frame loaded) "IncidentDate".
Proof.
  intros [Hc Hd]. split.
  - rewrite has_column_derived_frame, Hc. reflexivity.
  - rewrite rows_derived_frame, Forall_map. exact Hd.
Qed.

Lemma date_key_derived (r : Row) :
  date_key (with_temporal_fields r)
  = option_map (fun ns => day_key (days_of ns)) (as_ns (r "IncidentDate")).
Proof.
  destruct (with_temporal_fields_derived r) as (Hy & Hm & _ & _ & _ & Hid).
  unfold date_key. rewrite Hid, Hy, Hm.
  destruct (r "IncidentDate"); reflexivity.
Qed.

Lemma derived_hours_count (rs : list Row) :
  Forall (fun r : Row => datetimelike (r "IncidentDate") = true) rs ->
  length (filter (fun x => ((0 <=? x) && (x <=? 24))%Z)
            (map int_value
               (dropna (map (fun r => with_temporal_fields r "Hour") rs))))
  = length (filter (fun r : Row => notnull (r "IncidentDate")) rs).
Proof.
  unfold dropna. induction 1 as [|r rs Hr _ IH]; [reflexivity|].
  cbn [map filter]. destruct (with_temporal_fields_derived r) as (_ & _ & _ & -> & _).
  destruct (r "IncidentDate") as [| | | | |ns|]; try discriminate.
  - cbn [as_ns dt_field notnull isnull negb]. exact IH.
  - cbn [as_ns dt_field notnull isnull negb map filter int_value].
    pose proof (dt_hour_range ns) as Hh.
    rewrite (proj2 (Z.leb_le 0 (dt_hour ns))) by lia.
    rewrite (proj2 (Z.leb_le (dt_hour ns) 24)) by lia.
    cbn [andb length]. f_equal. exact IH.
Qed.

Lemma derived_weekdays_count (rs : list Row) :
  Forall (fun r : Row => datetimelike (r "IncidentDate") = true) rs ->
  length (filter (isin (map VStr weekday_order))
            (map (fun r => with_temporal_fields r "Weekday") rs))
  = length (filter (fun r : Row => notnull (r "IncidentDate")) rs).
Proof.
  induction 1 as [|r rs Hr _ IH]; [reflexivity|].
  cbn [map filter]. destruct (with_temporal_fields_derived r) as (_ & _ & _ & _ & -> & _).
  destruct (r "IncidentDate") as [| | | | |ns|]; try discriminate.
  - cbn [as_ns dt_field notnull isnull negb]. exact IH.
  - cbn [as_ns dt_field notnull isnull negb].
    assert (isin (map VStr weekday_order) (VStr (dt_day_name ns)) = true) as ->.
    { apply isin_In. apply in_map. apply dt_day_name_In. }
    cbn [length]. f_equal. exact IH.
Qed.

(** The twelve sequences of a table whose timestamped rows all have a year
    and a month between 1 and 12. *)
Lemma grand_total_dated (df : DataFrame) (daily : list (Key3 * nat)) :
  column_of datetimelike df "IncidentDate" ->
  dated_months df ->
  Permutation daily (tally Key3_eqb (somes (map date_key (timestamped df)))) ->
  grand_total (monthly_groups daily) = length (timestamped df).
Proof.
  intros H Hdm Hp. rewrite grand_total_monthly_groups, classes_total.
  - rewrite (total_perm Hp), total_tally. apply somes_all.
    pose proof (timestamped_datetime H) as Ht. rewrite Forall_forall in *.
    intros r Hr. destruct (Ht r Hr) as [ns Hns].
    apply filter_In in Hr. destruct Hr as [Hr _].
    destruct (Hdm r ns Hr Hns) as (Hyear & m & _ & Hmonth).
    unfold date_key. rewrite Hns.
    apply notnull_spec in Hyear. rewrite Hyear, (eq_int_notnull _ _ Hmonth).
    discriminate.
  - intros [k c] Hin. apply (Permutation_in _ Hp) in Hin.
    destruct (In_tally Key3_eqb_spec _ _ _ Hin) as (_ & _ & Hk).
    apply In_somes_map in Hk. destruct Hk as (r & Hr & Hk).
    destruct (date_key_Some _ Hk) as (ns & Hns & ->).
    apply filter_In in Hr. destruct Hr as [Hr _].
    destruct (Hdm r ns Hr Hns) as (_ & m & Hrange & Hmonth).
    apply (month_count_one _ Hrange). exact Hmonth.
Qed.

(** X13.  On a valid table without a [Year] column, each row with a
    timestamp is counted once in the monthly series, once in the hourly
    histogram, once in the weekday distribution and once in the daily
    counts of the twelve months: the four views add up to the same number,
    the number of rows with a timestamp. *)
Theorem views_count_timestamped_rows (int_of_str : string -> result Z)
    (loaded : DataFrame) :
  valid_input loaded ->
  has_column loaded "Year" = false ->
  exists df ts mon hours wc daily,
    ensure_temporal_fields loaded = Ok df
    /\ df_ts df = Ok ts /\ monthly ts = Ok mon
    /\ hourly int_of_str df = Ok hours
    /\ weekday_counts df = Ok wc
    /\ daily_counts ts = Ok daily
    /\ total mon = length (timestamped loaded)
    /\ list_sum hours = length (timestamped loaded)
    /\ total wc = length (timestamped loaded)
    /\ grand_total (monthly_groups daily) = length (timestamped loaded).
Proof.
  intros Hvalid Hy.
  pose proof Hvalid as (_ & _ & _ & Hdl & _). pose proof Hdl as [Hc Hall].
  destruct (normalizer_valid Hvalid)
    as (df & Hnorm & _ & _ & _ & Hd & Hy' & Hm & Hw & Hh & _).
  assert (df = derived_frame loaded) as Hdf.
  { rewrite (ensure_temporal_fields_derived_frame Hy Hdl) in Hnorm. congruence. }
  assert (length (timestamped df) = length (timestamped loaded)) as Hlen.
  { rewrite Hdf, timestamped_derived_frame. apply length_map. }
  destruct (monthly_Ok Hd) as (ts & mon & Hts & Hmon & _ & _ & Hpm).
  destruct (daily_counts_perm Hd Hy' Hm) as (ts' & daily & Hts' & Hdaily & Hpd).
  assert (ts' = ts) by congruence. subst ts'.
  exists df, ts, mon, (histogram24 (hours_of df)).
  eexists. exists daily.
  split; [exact Hnorm|]. split; [exact Hts|]. split; [exact Hmon|].
  split; [apply hourly_value; exact Hh|].
  split; [apply (weekday_counts_Ok _ Hw)|].
  split; [exact Hdaily|].
  split; [rewrite <- Hlen; apply (monthly_total _ Hpm)|].
  split; [|split].
  - rewrite histogram24_sum. unfold hours_of. rewrite Hdf at 1.
    rewrite rows_derived_frame, map_map. apply derived_hours_count. exact Hall.
  - rewrite labelled_total by (repeat constructor; simpl; intuition discriminate).
    rewrite Hdf at 1. rewrite rows_derived_frame, map_map.
    apply derived_weekdays_count. exact Hall.
  - rewrite <- Hlen. apply (grand_total_dated Hd); [|exact Hpd].
    apply (normalized_dated_months _ Hnorm Hy Hc).
Qed.

(** ** The daily counts *)

Lemma Key3_eqb_day_key (d d' : Z) : Key3_eqb (day_key d) (day_key d') = Z.eqb d d'.
Proof.
  destruct (Z.eqb_spec d d') as [->|Hne].
  - destruct (Key3_eqb_spec (day_key d') (day_key d')); congruence.
  - destruct (Key3_eqb_spec (day_key d) (day_key d')) as [He|]; [|reflexivity].
    unfold day_key in He. inversion He. contradiction.
Qed.

Lemma NoDup_map_inj_in (A B : Type) (f : A -> B) (l : list A) :
  NoDup l ->
  (forall x y, In x l -> In y l -> f x = f y -> x = y) ->
  NoDup (map f l).
Proof.
  induction 1 as [|a l Hnin Hnd IH]; intro Hinj; simpl; constructor.
  - intro Hin. apply in_map_iff in Hin. destruct Hin as (b & Hb & Hin).
    assert (b = a) by (apply Hinj; simpl; auto). subst. contradiction.
  - apply IH. intros x y Hx Hy. apply Hinj; right; assumption.
Qed.

(** X14.  On a table without a [Year] column the daily counts hold one
    entry per calendar date that occurs among the timestamps: no date is
    listed twice, every date of a timestamped row is listed, and the count
    of a date is the number of rows whose timestamp falls on it. *)
Theorem daily_counts_one_per_date (loaded : DataFrame) :
  has_column loaded "Year" = false ->
  column_of datetimelike loaded "IncidentDate" ->
  exists df ts daily,
    ensure_temporal_fields loaded = Ok df
    /\ df_ts df = Ok ts /\ daily_counts ts = Ok daily
    /\ NoDup (map (fun kc : Key3 * nat => snd (fst kc)) daily)
    /\ (forall k c, In (k, c) daily ->
          exists d, k = day_key d /\ 1 <= c
                    /\ c = length (filter (on_day d) (rows loaded)))
    /\ (forall r ns, In r (rows loaded) -> r "IncidentDate" = VTime ns ->
          In (day_key (days_of ns)) (map fst daily)).
Proof.
  intros Hy Hdl.
  pose proof (derived_frame_datetime Hdl) as Hd.
  assert (has_column (derived_frame loaded) "Year" = true) as Hy'
      by (rewrite has_column_derived_frame; apply orb_true_r).
  assert (has_column (derived_frame loaded) "Month" = true) as Hm
      by (rewrite has_column_derived_frame; apply orb_true_r).
  destruct (daily_counts_perm Hd Hy' Hm) as (ts & daily & Hts & Hdaily & Hp).
  rewrite timestamped_derived_frame, map_map in Hp.
  rewrite (map_ext _ _ date_key_derived) in Hp.
  set (g := fun r : Row =>
              option_map (fun ns => day_key (days_of ns)) (as_ns (r "IncidentDate"))) in Hp.
  assert (forall r k, g r = Some k ->
            exists ns, r "IncidentDate" = VTime ns /\ k = day_key (days_of ns)) as Hg.
  { intros r k. unfold g. destruct (r "IncidentDate"); simpl; try discriminate.
    intro H. inversion H. eauto. }
  assert (forall k c, In (k, c) daily ->
            exists d, k = day_key d /\ 1 <= c
                      /\ c = length (filter (on_day d) (rows loaded))) as Hentries.
  { intros k c Hin. apply (Permutation_in _ Hp) in Hin.
    destruct (In_tally Key3_eqb_spec _ _ _ Hin) as (Hc & Hpos & Hk).
    apply In_somes_map in Hk. destruct Hk as (r & Hr & Hk).
    destruct (Hg r k Hk) as (ns & Hns & ->).
    exists (days_of ns). split; [reflexivity|]. split; [exact Hpos|].
    rewrite Hc, occurrences_somes_map. unfold timestamped.
    rewrite filter_filter_length. apply (f_equal (@length Row)).
    apply filter_ext. intro r'. unfold g, on_day.
    destruct (r' "IncidentDate"); try reflexivity.
    cbn [as_ns option_map notnull isnull negb andb]. apply Key3_eqb_day_key. }
  exists (derived_frame loaded), ts, daily.
  split; [apply ensure_temporal_fields_derived_frame; assumption|].
  split; [exact Hts|]. split; [exact Hdaily|]. split; [|split].
  - replace (map (fun kc : Key3 * nat => snd (fst kc)) daily)
      with (map (fun k : Key3 => snd k) (map fst daily))
      by (rewrite map_map; reflexivity).
    apply NoDup_map_inj_in.
    + eapply Permutation_NoDup; [apply Permutation_map; symmetry; exact Hp|].
      apply (NoDup_tally Key3_eqb_spec).
    + intros k1 k2 H1 H2 Heq.
      apply in_map_iff in H1. destruct H1 as ([k1' c1] & <- & H1).
      apply in_map_iff in H2. destruct H2 as ([k2' c2] & <- & H2).
      destruct (Hentries _ _ H1) as (d1 & -> & _).
      destruct (Hentries _ _ H2) as (d2 & -> & _).
      simpl in Heq. inversion Heq. reflexivity.
  - exact Hentries.
  - intros r ns Hr Hns.
    eapply Permutation_in; [apply Permutation_map; symmetry; exact Hp|].
    apply (keys_tally Key3_eqb_spec).
    assert (In (g r) (map g (timestamped loaded))) as Hin.
    { apply in_map. apply filter_In. split; [exact Hr|]. rewrite Hns. reflexivity. }
    unfold g at 1 in Hin. rewrite Hns in Hin. cbn [as_ns option_map] in Hin.
    clear - Hin. induction (map g (timestamped loaded)) as [|o l IH]; [contradiction|].
    simpl. apply in_or_app. destruct Hin as [->|Hin]; [left; left; reflexivity|].
    right. apply IH. exact Hin.
Qed.

(** ** The cumulative series (line 114) *)

Lemma total_ge_length (K : Type) (l : list (K * nat)) :
  Forall (fun kc => 1 <= snd kc) l -> length l <= total l.
Proof. induction 1 as [|kc l Hkc _ IH]; simpl; lia. Qed.

Lemma total_firstn_S (K : Type) (l : list (K * nat)) : forall i,
  i < length l ->
  total (firstn (S i) l) = total (firstn i l) + nth i (map snd l) 0.
Proof.
  induction l as [|kc l IH]; intros i Hi; simpl in Hi; [lia|].
  destruct i as [|i].
  - destruct l; simpl; lia.
  - change (snd kc + total (firstn (S i) l)
            = snd kc + total (firstn i l) + nth i (map snd l) 0).
    rewrite IH by lia. lia.
Qed.

Lemma cumsum_from_above (K : Type) (l : list (K * nat)) : forall acc,
  Forall (fun kc => 1 <= snd kc) l ->
  Forall (fun v => acc < v) (map snd (cumsum_from acc l)).
Proof.
  induction l as [|[k c] l IH]; intros acc H; simpl; constructor.
  - inversion H; subst. simpl in *. lia.
  - inversion H as [|? ? Hc Hl]; subst. simpl in Hc.
    eapply Forall_impl; [|apply IH; exact Hl]. simpl. intros; lia.
Qed.

Lemma cumsum_from_strict (K : Type) (l : list (K * nat)) : forall acc,
  Forall (fun kc => 1 <= snd kc) l ->
  StronglySorted lt (map snd (cumsum_from acc l)).
Proof.
  induction l as [|[k c] l IH]; intros acc H; simpl; constructor.
  - apply IH. inversion H; assumption.
  - apply cumsum_from_above. inversion H; assumption.
Qed.

(** X15.  Every month of the series has at least one row, so the cumulative
    series rises strictly: its i-th value is at least i+1, it starts with
    the first monthly count, and the difference of two consecutive values
    is the monthly count of the later month. *)
Theorem cumulative_series_strict (df : DataFrame) :
  column_of datetimelike df "IncidentDate" ->
  exists ts mon,
    df_ts df = Ok ts /\ monthly ts = Ok mon
    /\ StronglySorted lt (map snd (cum mon))
    /\ (forall i, i < length mon -> i + 1 <= nth i (map snd (cum mon)) 0)
    /\ nth 0 (map snd (cum mon)) 0 = nth 0 (map snd mon) 0
    /\ (forall i, S i < length mon ->
          nth (S i) (map snd (cum mon)) 0 - nth i (map snd (cum mon)) 0
          = nth (S i) (map snd mon) 0).
Proof.
  intro H. destruct (monthly_Ok H) as (ts & mon & Hts & Hmon & _ & _ & Hp).
  assert (Forall (fun kc : Value * nat => 1 <= snd kc) mon) as Hpos.
  { eapply Permutation_Forall; [symmetry; exact Hp|]. apply positive_tally. }
  exists ts, mon. unfold cum, cumsum.
  split; [exact Hts|]. split; [exact Hmon|]. split; [|split; [|split]].
  - apply cumsum_from_strict. exact Hpos.
  - intros i Hi. rewrite cumsum_from_nth by exact Hi.
    assert (Forall (fun kc : Value * nat => 1 <= snd kc) (firstn (S i) mon)) as Hf.
    { rewrite Forall_forall in *. intros kc Hkc. apply Hpos. eapply In_firstn. exact Hkc. }
    pose proof (total_ge_length Hf) as Hle. rewrite length_firstn in Hle. lia.
  - destruct mon as [|[k c] mon]; [reflexivity|]. simpl. reflexivity.
  - intros i Hi. rewrite !cumsum_from_nth by lia.
    rewrite (total_firstn_S mon (i := S i)) by exact Hi. lia.
Qed.

(** ** The normalizer, twice *)

(** X16.  The normalizer has nothing left to do on a table it returned:
    applied to its own result it gives that result back. *)
Theorem normalizer_idempotent (loaded df : DataFrame) :
  ensure_temporal_fields loaded = Ok df ->
  ensure_temporal_fields df = Ok df.
Proof.
  intro Hok. destruct (ensure_temporal_fields_cases _ Hok) as [-> | ->].
  - exact Hok.
  - apply ensure_temporal_fields_skips.
    rewrite has_column_derived_frame. apply orb_true_r.
Qed.

(* ================================================================= *)
(** * The further properties on the sample tables *)

Lemma normalizer_recomputes_fields_witness :
  exists df,
    ensure_temporal_fields own_month = Ok df
    /\ columns df
       = ["Primary Type"; "Month"; "Location Description"; "Arrest"; "IncidentDate";
          "Year"; "Day"; "Hour"; "Weekday"]
    /\ map (fun r : Row => r "Month") (rows df) = [VInt 3; NA].
Proof.
  assert (column_of datetimelike own_month "IncidentDate") as Hd
      by (split; [reflexivity|repeat constructor]).
  assert (NoDup (columns own_month)) as Hnd
      by (repeat constructor; simpl; intuition discriminate).
  destruct (@normalizer_recomputes_fields own_month eq_refl Hd Hnd)
    as (df & Hdf & Hcols & _ & Hrows).
  exists df. split; [exact Hdf|]. split; [exact Hcols|].
  simpl in Hrows. inversion Hrows as [|r1 r1' l1 l1' Hfirst Hrest]; subst.
  inversion Hrest as [|r2 r2' l2 l2' Hsecond Hnil]; subst. inversion Hnil; subst.
  destruct Hfirst as (_ & Hm1 & _). destruct Hsecond as (_ & Hm2 & _).
  simpl. rewrite Hm1, Hm2. reflexivity.
Defined.

Lemma unparsed_timestamp_raises_witness :
  ensure_temporal_fields unparsed_dates = Raise AttributeError.
Proof.
  apply unparsed_timestamp_raises; [reflexivity|reflexivity|].
  apply Exists_cons_hd. reflexivity.
Defined.

Lemma detection_after_normalizer_witness :
  exists df,
    ensure_temporal_fields two_geotagged = Ok df
    /\ lat_col df = Some "LATITUDE" /\ lon_col df = Some "Longitude".
Proof.
  assert (column_of datetimelike two_geotagged "IncidentDate") as Hd
      by (split; [reflexivity|repeat constructor]).
  pose proof (@ensure_temporal_fields_derived_frame two_geotagged eq_refl Hd) as Hdf.
  destruct (detection_after_normalizer _ Hdf) as [Hlat Hlon].
  exists (derived_frame two_geotagged). split; [exact Hdf|].
  split; [rewrite Hlat|rewrite Hlon]; reflexivity.
Defined.

Lemma rankings_most_frequent_witness :
  exists top locs,
    top_primary incidents_2015 = Ok top /\ loc_top10 incidents_2015 = Ok locs
    /\ total top = 4 /\ total locs = 4
    /\ In (VStr "BATTERY") (map fst top).
Proof.
  destruct (@rankings_most_frequent incidents_2015 eq_refl eq_refl)
    as (top & locs & Htop & Hlocs & H).
  destruct (H "Primary Type" top (or_introl (conj eq_refl eq_refl))) as (_ & _ & H1).
  destruct (H "Location Description" locs (or_intror (conj eq_refl eq_refl)))
    as (_ & _ & H2).
  assert (length top < 10) as Ht.
  { unfold top_primary in Htop. simpl in Htop. inversion Htop. vm_compute. lia. }
  assert (length locs < 10) as Hl.
  { unfold loc_top10 in Hlocs. simpl in Hlocs. inversion Hlocs. vm_compute. lia. }
  exists top, locs. split; [exact Htop|]. split; [exact Hlocs|].
  destruct (H1 Ht) as [Hall Htot]. destruct (H2 Hl) as [_ Htot'].
  split; [rewrite Htot; reflexivity|]. split; [rewrite Htot'; reflexivity|].
  apply Hall; [simpl; auto|discriminate].
Defined.

Lemma hourly_histogram_witness :
  exists hours,
    hourly no_int odd_hours = Ok hours
    /\ nth 0 hours 0 = 1 /\ nth 23 hours 0 = 2 /\ list_sum hours = 3.
Proof.
  assert (column_of is_number odd_hours "Hour") as Hn
      by (split; [reflexivity|repeat constructor]).
  destruct (hourly_histogram no_int Hn) as (hours & Hh & _ & Hbin & Hlast & Hsum).
  exists hours. split; [exact Hh|].
  split; [rewrite (Hbin 0) by lia; reflexivity|].
  split; [rewrite Hlast; reflexivity|rewrite Hsum; reflexivity].
Defined.

Lemma sample_scatter_raises_iff_witness :
  fst (sample_scatter (fun _ : Z => tt) first_positions null_coordinate
         "Latitude" "Longitude" {| np_random := tt |})
  = Raise ValueError.
Proof.
  destruct (@sample_scatter_raises_iff unit (fun _ : Z => tt) first_positions
              null_coordinate "Latitude" "Longitude" {| np_random := tt |}
              eq_refl eq_refl) as [_ Hsmall].
  apply Hsmall; [vm_compute; discriminate|].
  apply Exists_cons_tl. apply Exists_cons_hd. reflexivity.
Defined.

Lemma sample_scatter_rows_witness :
  exists (positions : list nat) (s : list Row),
    fst (sample_scatter (fun _ : Z => tt) first_positions two_geotagged
           "LATITUDE" "Longitude" {| np_random := tt |}) = Ok s
    /\ NoDup positions
    /\ length s = 2
    /\ Forall (fun r : Row => r "LATITUDE" <> NA /\ r "Longitude" <> NA) s.
Proof.
  destruct (@sample_scatter_rows unit (fun _ : Z => tt) first_positions
              first_positions_spec two_geotagged "LATITUDE" "Longitude"
              {| np_random := tt |} eq_refl eq_refl)
    as (positions & s & Hs & _ & Hnd & Hlen & Hall).
  - vm_compute. discriminate.
  - exists positions, s. split; [exact Hs|]. split; [exact Hnd|].
    split; [change (Z.min 20000 (Z.of_nat (len two_geotagged))) with 2%Z in Hlen; lia|].
    eapply Forall_impl; [|exact Hall]. intros r (_ & H1 & H2). split; assumption.
Defined.

Lemma missing_primary_type_raises_witness :
  fst (run_pipeline (fun _ : Z => tt) first_positions no_grid no_int
         without_primary_type {| np_random := tt |})
  = Raise (KeyError (VStr "Primary Type")).
Proof.
  assert (column_of datetimelike without_primary_type "IncidentDate") as Hd
      by (split; [reflexivity|repeat constructor]).
  destruct (@missing_primary_type_raises unit (fun _ : Z => tt) first_positions unit
              no_grid no_int without_primary_type {| np_random := tt |} eq_refl)
    as (Hok & _ & _).
  apply (Hok (derived_frame without_primary_type)).
  apply ensure_temporal_fields_derived_frame; [reflexivity|exact Hd].
Defined.

Lemma own_year_without_hour_raises_witness :
  fst (run_pipeline (fun _ : Z => tt) first_positions no_grid no_int
         year_without_hour {| np_random := tt |})
  = Raise (KeyError (VStr "Hour")).
Proof.
  apply (@own_year_without_hour_raises unit (fun _ : Z => tt) first_positions unit
           no_grid no_int year_without_hour {| np_random := tt |}).
  - reflexivity.
  - reflexivity.
  - reflexivity.
  - split; [reflexivity|repeat constructor].
  - split; [reflexivity|repeat constructor].
Defined.

Lemma views_count_timestamped_rows_witness :
  exists df ts mon hours wc daily,
    ensure_temporal_fields incidents_2015 = Ok df
    /\ df_ts df = Ok ts /\ monthly ts = Ok mon
    /\ hourly no_int df = Ok hours
    /\ weekday_counts df = Ok wc
    /\ daily_counts ts = Ok daily
    /\ total mon = 4 /\ list_sum hours = 4 /\ total wc = 4
    /\ grand_total (monthly_groups daily) = 4.
Proof.
  exact (@views_count_timestamped_rows no_int incidents_2015
           incidents_2015_valid eq_refl).
Defined.

Lemma daily_counts_one_per_date_witness :
  exists df ts daily,
    ensure_temporal_fields incidents_2015 = Ok df
    /\ df_ts df = Ok ts /\ daily_counts ts = Ok daily
    /\ NoDup (map (fun kc : Key3 * nat => snd (fst kc)) daily)
    /\ In (day_key 16450) (map fst daily).
Proof.
  destruct (@daily_counts_one_per_date incidents_2015 eq_refl incidents_2015_datetime)
    as (df & ts & daily & Hdf & Hts & Hdaily & Hnd & _ & Hall).
  exists df, ts, daily. repeat split; try assumption.
  apply (Hall (incident (VStr "THEFT") (VStr "STREET") true (VTime (Timestamp 2015 1 15 3)))
              (Timestamp 2015 1 15 3)).
  - left. reflexivity.
  - reflexivity.
Defined.

Lemma cumulative_series_strict_witness :
  exists ts mon,
    df_ts incidents_2015 = Ok ts /\ monthly ts = Ok mon
    /\ StronglySorted lt (map snd (cum mon)).
Proof.
  destruct (cumulative_series_strict incidents_2015_datetime)
    as (ts & mon & Hts & Hmon & Hs & _).
  exists ts, mon. repeat split; assumption.
Defined.

Lemma normalizer_idempotent_witness :
  ensure_temporal_fields (derived_frame incidents_2015) = Ok (derived_frame incidents_2015).
Proof.
  apply (@normalizer_idempotent incidents_2015).
  apply ensure_temporal_fields_derived_frame; [reflexivity|exact incidents_2015_datetime].
Defined.
